(** * Timeseries anomaly detection notebook: embedding and properties

    Shallow embedding of
    [examples/timeseries/ipynb/timeseries_anomaly_detection.ipynb]:
    normalisation, sliding-window construction, the per-sample mean absolute
    error, the threshold, the per-window anomaly mask and its reduction to
    data indices, and then the code cells themselves, run in order over the
    kernel's namespace.

    Conventions.
    - Python integers are [Z]; [range], list indexing and slicing follow
      Python (negative indices wrap, slices clamp, an index out of range
      raises).
    - Floating-point numbers are idealised as real numbers. A result that
      IEEE arithmetic would make nan or infinite (a division by zero, the
      mean of nothing) is the outcome [NotReal]: numpy warns and goes on
      there, which is outside the real numbers. It is not an exception, and
      the embedding follows a run up to the statement that yields it.
    - A numpy array is a nested list; an array without rows has no further
      shape in this representation. An operation that raises in Python
      yields [Raise].
    - The CSV download, date parsing, the Keras model and matplotlib are
      variables of the notebook. An import statement and a function
      definition bind a name; importing is taken to succeed.
    - The kernel keeps its namespace and the outputs shown when a cell
      raises: a run ends with the output, the namespace and the outcome it
      reached. *)


From Stdlib Require Import String List ZArith Bool Lia Reals Lra Sorted.
Import ListNotations.

(** ** Outcomes of a computation *)

Inductive exn : Type :=
| AxisError
| ValueError
| IndexError
| NameError
| TypeError
| URLError
| FrameworkError.

Inductive outcome (A : Type) : Type :=
| Ok (a : A)
| Raise (e : exn)
| NotReal.

Arguments Ok {A} a.
Arguments Raise {A} e.
Arguments NotReal {A}.

Definition bind {A B : Type} (m : outcome A) (k : A -> outcome B) : outcome B :=
  match m with
  | Ok a => k a
  | Raise e => Raise e
  | NotReal => NotReal
  end.

Notation "x <- m ;; k" := (bind m (fun x => k))
  (at level 61, m at next level, right associativity).
Notation "' p <- m ;; k" := (bind m (fun x => let p := x in k))
  (at level 61, p pattern, m at next level, right associativity).

Fixpoint mapM {A B : Type} (f : A -> outcome B) (l : list A) : outcome (list B) :=
  match l with
  | [] => Ok []
  | a :: l' => b <- f a ;; bs <- mapM f l' ;; Ok (b :: bs)
  end.

(** ** Python built-ins *)

Section Python.
Context {A : Type}.

Definition len (l : list A) : Z := Z.of_nat (length l).

(** [range(a, b)] *)
Definition py_range (a b : Z) : list Z :=
  map (fun k => a + Z.of_nat k)%Z (seq 0 (Z.to_nat (b - a))).

(** [l[j]] *)
Definition py_getitem (l : list A) (j : Z) : outcome A :=
  let j' := if (j <? 0)%Z then (j + len l)%Z else j in
  if (j' <? 0)%Z then Raise IndexError
  else match nth_error l (Z.to_nat j') with
       | Some a => Ok a
       | None => Raise IndexError
       end.

(** A slice bound, as Python clamps it. *)
Definition slice_bound (l : list A) (k : Z) : nat :=
  if (k <? 0)%Z then Z.to_nat (Z.max 0 (k + len l))
  else Z.to_nat (Z.min k (len l)).

(** [l[a:b]] *)
Definition py_slice (l : list A) (a b : Z) : list A :=
  firstn (slice_bound l b - slice_bound l a) (skipn (slice_bound l a) l).

(** [np.expand_dims(output, axis=2)] on a list of rows. The empty list
    converts to a one-dimensional array of shape [(0,)], for which axis 2 is
    out of range (an [AxisError] since numpy 1.18; before that a deprecation
    warning and an array of shape [(0, 1)], which is not three-dimensional
    either); rows of different lengths do not make a two-dimensional
    array. *)
Definition np_expand_dims_axis2 (output : list (list A))
  : outcome (list (list (list A))) :=
  match output with
  | [] => Raise AxisError
  | r :: rs =>
      if forallb (fun r' => Nat.eqb (length r') (length r)) rs
      then Ok (map (map (fun v => [v])) output)
      else Raise ValueError
  end.

End Python.

(** ** Windows *)

Definition TIME_STEPS : Z := 288.

Definition create_sequences {A : Type} (values : list A) (time_steps : Z)
  : outcome (list (list (list A))) :=
  let output :=
    map (fun i => py_slice values i (i + time_steps))
        (py_range 0 (len values - time_steps)) in
  np_expand_dims_axis2 output.

(** Shape of a three-dimensional array given as nested lists. *)
Definition has_shape3 {A : Type} (t : list (list (list A))) (m w f : nat) : bool :=
  Nat.eqb (length t) m
  && forallb (fun s => Nat.eqb (length s) w
                       && forallb (fun c => Nat.eqb (length c) f) s) t.

(** ** Reduction of the window mask to data indices *)

Fixpoint anomalous_loop (anomalies : list bool) (idxs : list Z) (acc : list Z)
  : outcome (list Z) :=
  match idxs with
  | [] => Ok acc
  | data_idx :: rest =>
      let time_series := py_range (data_idx - TIME_STEPS + 1) data_idx in
      flags <- mapM (py_getitem anomalies) time_series ;;
      anomalous_loop anomalies rest
        (if forallb (fun b => b) flags then acc ++ [data_idx] else acc)
  end.

Definition anomalous_data_indices {A : Type} (test_value : list A)
  (anomalies : list bool) : outcome (list Z) :=
  anomalous_loop anomalies
    (py_range (TIME_STEPS - 1) (len test_value - TIME_STEPS + 1)) [].

(** [df.iloc[idxs, :]]: positional row selection. *)
Definition iloc_rows {Row : Type} (df : list Row) (idxs : list Z)
  : outcome (list Row) :=
  mapM (py_getitem df) idxs.

(** ** Arithmetic on arrays of reals *)

Definition tensor3 : Type := list (list (list R)).
Definition matrix : Type := list (list R).

(** [x > y] on floats, as a boolean. *)
Definition Rgtb (x y : R) : bool := if Rlt_dec y x then true else false.

(** Float division: by zero it gives nan or an infinity and only warns. *)
Definition np_true_divide (x y : R) : outcome R :=
  if Req_dec_T y 0 then NotReal else Ok (x / y)%R.

Definition np_sum (l : list R) : R := fold_right Rplus 0%R l.

(** [np.mean(l)]: nan for an empty array. *)
Definition np_mean (l : list R) : outcome R :=
  match l with
  | [] => NotReal
  | _ => Ok (np_sum l / INR (length l))%R
  end.

(** [np.std(l)]: the root of the mean squared deviation from the mean. *)
Definition np_std (l : list R) : outcome R :=
  m <- np_mean l ;;
  v <- np_mean (map (fun x => (Rabs (x - m) * Rabs (x - m))%R) l) ;;
  Ok (sqrt v).

Definition normalize (values : list R) : outcome (list R * R * R) :=
  mean <- np_mean values ;;
  let values := map (fun x => (x - mean)%R) values in
  std <- np_std values ;;
  values <- mapM (fun x => np_true_divide x std) values ;;
  Ok (values, mean, std).

Definition normalize_test (values : list R) (mean std : R) : outcome (list R) :=
  let values := map (fun x => (x - mean)%R) values in
  values <- mapM (fun x => np_true_divide x std) values ;;
  Ok values.

(** One axis of numpy broadcasting: equal lengths pair up, a length of one
    is repeated, anything else is a shape mismatch. *)
Definition broadcast {A B C : Type} (f : A -> B -> outcome C)
  (la : list A) (lb : list B) : outcome (list C) :=
  if Nat.eqb (length la) (length lb)
  then mapM (fun ab => f (fst ab) (snd ab)) (combine la lb)
  else match la, lb with
       | [a], _ => mapM (f a) lb
       | _, [b] => mapM (fun a => f a b) la
       | _, _ => Raise ValueError
       end.

(** [a - b] on three-dimensional arrays. *)
Definition np_subtract (a b : tensor3) : outcome tensor3 :=
  broadcast (broadcast (broadcast (fun x y => Ok (x - y)%R))) a b.

Definition np_abs (a : tensor3) : tensor3 := map (map (map Rabs)) a.

(** Sum of the rows of a matrix, column by column. *)
Definition sum_rows (r : list R) (rs : list (list R)) : list R :=
  fold_left (fun acc row => map (fun p => (fst p + snd p)%R) (combine acc row)) rs r.

(** [np.mean(a, axis=1)] on a three-dimensional array: for each sample and
    each feature, the mean over the positions. *)
Definition mean_axis0 (sample : list (list R)) : outcome (list R) :=
  match sample with
  | [] => NotReal
  | r :: rs => Ok (map (fun c => (c / INR (length sample))%R) (sum_rows r rs))
  end.

Definition np_mean_axis1 (a : tensor3) : outcome matrix := mapM mean_axis0 a.

(** [np.mean(np.abs(pred - x), axis=1)] *)
Definition mae_loss (pred x : tensor3) : outcome matrix :=
  d <- np_subtract pred x ;;
  np_mean_axis1 (np_abs d).

(** [np.max(a)]: a zero-size array has no maximum. *)
Definition np_max (a : matrix) : outcome R :=
  match concat a with
  | [] => Raise ValueError
  | x :: xs => Ok (fold_left Rmax xs x)
  end.

Definition threshold (train_mae_loss : matrix) : outcome R := np_max train_mae_loss.

(** [(test_mae_loss > threshold).tolist()] *)
Definition anomalies (test_mae_loss : list R) (threshold : R) : list bool :=
  map (fun l => Rgtb l threshold) test_mae_loss.

(** The mean absolute error of one window, in the words of the glossary:
    the mean over the positions of the absolute difference between the
    reconstruction and the input. *)
Definition spec_mae (pred x : list R) : R :=
  (np_sum (map (fun p => Rabs (fst p - snd p)) (combine pred x))
   / INR (length x))%R.

(** The single feature of each position of a window. *)
Definition feature0 (w : list (list R)) : list R := map (fun c => nth 0 c 0%R) w.

(** ** The notebook, cell by cell

    The code cells in their order, over the kernel's namespace. What the
    notebook takes from outside (the CSV download, date parsing, the Keras
    model, matplotlib) is a variable of the section; each may raise. *)

Record row : Type := { timestamp : string; value : R }.

Definition get_value_from_df (df : list row) : list R := map value df.

Definition master_url_root : string :=
  "https://raw.githubusercontent.com/numenta/NAB/master/data/".
Definition df_small_noise_url_suffix : string :=
  "artificialNoAnomaly/art_daily_small_noise.csv".
Definition df_small_noise_url : string :=
  (master_url_root ++ df_small_noise_url_suffix)%string.
Definition df_daily_jumpsup_url_suffix : string :=
  "artificialWithAnomaly/art_daily_jumpsup.csv".
Definition df_daily_jumpsup_url : string :=
  (master_url_root ++ df_daily_jumpsup_url_suffix)%string.

(** [a.shape] of a non-empty three-dimensional array. *)
Definition shape3 {A : Type} (t : list (list (list A))) : nat * nat * nat :=
  (length t, length (nth 0 t []), length (nth 0 (nth 0 t []) [])).

Section Notebook.

Variable date : Type.
Variable net : Type.
Variable read_csv : string -> outcome (list row).
Variable strptime : string -> outcome date.
(** [keras.Sequential] on the input shape, [compile] and [summary]. *)
Variable Sequential : nat -> nat -> outcome net.
(** [model.fit(x, y, ...)]: the trained model and the loss histories. *)
Variable fit : net -> tensor3 -> tensor3 -> outcome (net * (list R * list R)).
Variable predict : net -> tensor3 -> outcome tensor3.

Inductive figure : Type :=
| Lines (series : list (list R))
| Dated (series : list (list date * list R))
| Hist (data : list R) (bins : nat).

Variable plt_show : figure -> outcome unit.

(** What a name of the namespace can be bound to. *)
Inductive pyval : Type :=
| VFrame (df : list row)
| VArray (a : list R)
| VTensor (t : tensor3)
| VMatrix (m : matrix)
| VFloat (r : R)
| VInt (n : Z)
| VShape (s : nat * nat * nat)
| VMask (l : list bool)
| VIndices (l : list Z)
| VModel (m : net)
| VHistory (loss val_loss : list R)
| VStr (s : string)
| VStrings (l : list string)
| VDates (l : list date)
| VRange (a b : Z)
| VFunction (name : string)
| VModule (name : string)
| VObject (class : string).

Inductive output : Type :=
| Text (label : string) (v : pyval)
| Drawn (f : figure).

Definition env : Type := string -> option pyval.

Definition empty_env : env := fun _ => None.

(** A statement reads and writes the namespace, emits output, and ends
    normally or not. Whatever the end, the kernel keeps the namespace and the
    output reached: the result holds both next to the outcome. An outcome
    [NotReal] marks the statement at which a float left the real numbers;
    the kernel goes on from there in IEEE arithmetic, the embedding does
    not, and the namespace and output given are those reached at that
    statement. *)
Definition prog (A : Type) : Type := env -> list output * env * outcome A.

Definition ret {A : Type} (a : A) : prog A := fun e => ([], e, Ok a).

Definition pbind {A B : Type} (m : prog A) (k : A -> prog B) : prog B :=
  fun e =>
    match m e with
    | (l, e', Ok a) => let '(l', e'', r) := k a e' in ((l ++ l')%list, e'', r)
    | (l, e', Raise x) => (l, e', Raise x)
    | (l, e', NotReal) => (l, e', NotReal)
    end.

Notation "x <~ m ;; k" := (pbind m (fun x => k))
  (at level 61, m at next level, right associativity).
Notation "m ;;; k" := (pbind m (fun _ => k))
  (at level 61, right associativity).

Definition call {A : Type} (o : outcome A) : prog A := fun e => ([], e, o).

Definition raise {A : Type} (x : exn) : prog A := fun e => ([], e, Raise x).

Definition print (label : string) (v : pyval) : prog unit :=
  fun e => ([Text label v], e, Ok tt).

Definition draw (f : figure) : prog unit :=
  fun e =>
    match plt_show f with
    | Ok _ => ([Drawn f], e, Ok tt)
    | Raise x => ([], e, Raise x)
    | NotReal => ([], e, NotReal)
    end.

(** [plt.plot] on a figure that a later statement completes and shows:
    nothing is shown yet, and matplotlib may reject the series. *)
Definition plot (f : figure) : prog unit :=
  fun e =>
    match plt_show f with
    | Ok _ => ([], e, Ok tt)
    | Raise x => ([], e, Raise x)
    | NotReal => ([], e, NotReal)
    end.

Definition var (name : string) : prog pyval :=
  fun e =>
    match e name with
    | Some v => ([], e, Ok v)
    | None => ([], e, Raise NameError)
    end.

Definition set_var (name : string) (v : pyval) (e : env) : env :=
  fun n => if String.eqb n name then Some v else e n.

Definition assign (name : string) (v : pyval) : prog unit :=
  fun e => ([], set_var name v e, Ok tt).

(** [import ... as name] and [def name(...)]. *)
Definition import (name : string) : prog unit := assign name (VModule name).
Definition define (name : string) : prog unit := assign name (VFunction name).

Definition frame (name : string) : prog (list row) :=
  v <~ var name ;; match v with VFrame d => ret d | _ => raise TypeError end.
Definition array (name : string) : prog (list R) :=
  v <~ var name ;; match v with VArray a => ret a | _ => raise TypeError end.
Definition tensor (name : string) : prog tensor3 :=
  v <~ var name ;; match v with VTensor t => ret t | _ => raise TypeError end.
Definition mat (name : string) : prog matrix :=
  v <~ var name ;; match v with VMatrix m => ret m | _ => raise TypeError end.
Definition float (name : string) : prog R :=
  v <~ var name ;; match v with VFloat r => ret r | _ => raise TypeError end.
Definition mask (name : string) : prog (list bool) :=
  v <~ var name ;; match v with VMask l => ret l | _ => raise TypeError end.
Definition indices (name : string) : prog (list Z) :=
  v <~ var name ;; match v with VIndices l => ret l | _ => raise TypeError end.
Definition model_of (name : string) : prog net :=
  v <~ var name ;; match v with VModel m => ret m | _ => raise TypeError end.
Definition history_of (name : string) : prog (list R * list R) :=
  v <~ var name ;;
  match v with VHistory l vl => ret (l, vl) | _ => raise TypeError end.
Definition strings (name : string) : prog (list string) :=
  v <~ var name ;; match v with VStrings l => ret l | _ => raise TypeError end.
Definition dates_of (name : string) : prog (list date) :=
  v <~ var name ;; match v with VDates l => ret l | _ => raise TypeError end.

(** [for a in l: body]. *)
Fixpoint for_each {A : Type} (l : list A) (body : A -> prog unit) : prog unit :=
  match l with
  | [] => ret tt
  | a :: l' => body a ;;; for_each l' body
  end.

(** The names of a function body are its own: they do not reach the
    namespace. *)
Definition plot_dates_values (data : list row) : prog unit :=
  let dates := map timestamp data in
  let values := map value data in
  dates <~ call (mapM strptime dates) ;;
  draw (Dated [(dates, values)]).

Definition cell_imports : prog unit :=
  import "np" ;;;
  import "pd" ;;;
  import "keras" ;;;
  import "layers" ;;;
  import "datetime" ;;;
  import "plt" ;;;
  import "md".

Definition cell_load : prog unit :=
  assign "master_url_root" (VStr master_url_root) ;;;
  assign "df_small_noise_url_suffix" (VStr df_small_noise_url_suffix) ;;;
  assign "df_small_noise_url" (VStr df_small_noise_url) ;;;
  df <~ call (read_csv df_small_noise_url) ;;
  assign "df_small_noise" (VFrame df) ;;;
  assign "df_daily_jumpsup_url_suffix" (VStr df_daily_jumpsup_url_suffix) ;;;
  assign "df_daily_jumpsup_url" (VStr df_daily_jumpsup_url) ;;;
  df <~ call (read_csv df_daily_jumpsup_url) ;;
  assign "df_daily_jumpsup" (VFrame df).

Definition cell_head : prog unit :=
  df <~ frame "df_small_noise" ;;
  print EmptyString (VFrame (firstn 5 df)) ;;;
  df <~ frame "df_daily_jumpsup" ;;
  print EmptyString (VFrame (firstn 5 df)).

Definition cell_def_plot : prog unit := define "plot_dates_values".

Definition cell_plot_small_noise : prog unit :=
  df <~ frame "df_small_noise" ;; plot_dates_values df.

Definition cell_plot_jumpsup : prog unit :=
  df <~ frame "df_daily_jumpsup" ;; plot_dates_values df.

Definition cell_normalize : prog unit :=
  define "get_value_from_df" ;;;
  define "normalize" ;;;
  df <~ frame "df_small_noise" ;;
  assign "training_value" (VArray (get_value_from_df df)) ;;;
  training_value <~ array "training_value" ;;
  r <~ call (normalize training_value) ;;
  assign "training_value" (VArray (fst (fst r))) ;;;
  assign "training_mean" (VFloat (snd (fst r))) ;;;
  assign "training_std" (VFloat (snd r)) ;;;
  training_value <~ array "training_value" ;;
  print EmptyString (VInt (len training_value)).

Definition cell_sequences : prog unit :=
  assign "TIME_STEPS" (VInt TIME_STEPS) ;;;
  define "create_sequences" ;;;
  training_value <~ array "training_value" ;;
  x_train <~ call (create_sequences training_value TIME_STEPS) ;;
  assign "x_train" (VTensor x_train) ;;;
  print "Training input shape: " (VShape (shape3 x_train)).

Definition cell_model : prog unit :=
  x_train <~ tensor "x_train" ;;
  model <~ call (Sequential (snd (fst (shape3 x_train))) (snd (shape3 x_train))) ;;
  assign "model" (VModel model).

Definition cell_fit : prog unit :=
  model <~ model_of "model" ;;
  x_train <~ tensor "x_train" ;;
  r <~ call (fit model x_train x_train) ;;
  assign "model" (VModel (fst r)) ;;;
  assign "history" (VHistory (fst (snd r)) (snd (snd r))).

Definition cell_history : prog unit :=
  h <~ history_of "history" ;;
  draw (Lines [fst h; snd h]).

Definition cell_threshold : prog unit :=
  model <~ model_of "model" ;;
  x_train <~ tensor "x_train" ;;
  x_train_pred <~ call (predict model x_train) ;;
  assign "x_train_pred" (VTensor x_train_pred) ;;;
  train_mae_loss <~ call (mae_loss x_train_pred x_train) ;;
  assign "train_mae_loss" (VMatrix train_mae_loss) ;;;
  draw (Hist (concat train_mae_loss) 50) ;;;
  t <~ call (threshold train_mae_loss) ;;
  assign "threshold" (VFloat t) ;;;
  print "Reconstruction error threshold: " (VFloat t).

Definition cell_compare : prog unit :=
  x_train <~ tensor "x_train" ;;
  w <~ call (py_getitem x_train 0) ;;
  draw (Lines [concat w]) ;;;
  x_train_pred <~ tensor "x_train_pred" ;;
  w <~ call (py_getitem x_train_pred 0) ;;
  draw (Lines [concat w]).

Definition cell_test : prog unit :=
  define "normalize_test" ;;;
  df <~ frame "df_daily_jumpsup" ;;
  assign "test_value" (VArray (get_value_from_df df)) ;;;
  test_value <~ array "test_value" ;;
  training_mean <~ float "training_mean" ;;
  training_std <~ float "training_std" ;;
  test_value <~ call (normalize_test test_value training_mean training_std) ;;
  assign "test_value" (VArray test_value) ;;;
  draw (Lines [test_value]) ;;;
  x_test <~ call (create_sequences test_value TIME_STEPS) ;;
  assign "x_test" (VTensor x_test) ;;;
  print "Test input shape: " (VShape (shape3 x_test)) ;;;
  model <~ model_of "model" ;;
  x_test_pred <~ call (predict model x_test) ;;
  assign "x_test_pred" (VTensor x_test_pred) ;;;
  test_mae_loss <~ call (mae_loss x_test_pred x_test) ;;
  assign "test_mae_loss" (VMatrix test_mae_loss) ;;;
  test_mae_loss <~ mat "test_mae_loss" ;;
  assign "test_mae_loss" (VArray (concat test_mae_loss)) ;;;
  test_mae_loss <~ array "test_mae_loss" ;;
  draw (Hist test_mae_loss 50) ;;;
  t <~ float "threshold" ;;
  assign "anomalies" (VMask (anomalies test_mae_loss t)) ;;;
  a <~ mask "anomalies" ;;
  print "Number of anomaly samples: "
        (VInt (Z.of_nat (List.length (filter (fun b => b) a)))) ;;;
  print "Indices of anomaly samples: "
        (VIndices (filter (fun j => nth (Z.to_nat j) a false) (py_range 0 (len a)))).

(** One turn of the loop over the data indices: the loop variable and
    [time_series] are bound in the namespace, the mask is read at each index
    of [time_series], and the list is appended to in place. *)
Definition reduce_step (data_idx : Z) : prog unit :=
  assign "data_idx" (VInt data_idx) ;;;
  assign "time_series" (VRange (data_idx - TIME_STEPS + 1) data_idx) ;;;
  a <~ mask "anomalies" ;;
  flags <~ call (mapM (py_getitem a)
                      (py_range (data_idx - TIME_STEPS + 1) data_idx)) ;;
  if forallb (fun b => b) flags
  then l <~ indices "anomalous_data_indices" ;;
       assign "anomalous_data_indices" (VIndices (l ++ [data_idx]))
  else ret tt.

Definition cell_reduce : prog unit :=
  assign "anomalous_data_indices" (VIndices []) ;;;
  test_value <~ array "test_value" ;;
  for_each (py_range (TIME_STEPS - 1) (len test_value - TIME_STEPS + 1))
           reduce_step.

Definition cell_overlay : prog unit :=
  df <~ frame "df_daily_jumpsup" ;;
  idxs <~ indices "anomalous_data_indices" ;;
  df_subset <~ call (iloc_rows df idxs) ;;
  assign "df_subset" (VFrame df_subset) ;;;
  assign "ax" (VObject "Axes") ;;;
  assign "xfmt" (VObject "DateFormatter") ;;;
  df <~ frame "df_daily_jumpsup" ;;
  assign "dates" (VStrings (map timestamp df)) ;;;
  dates <~ strings "dates" ;;
  dates <~ call (mapM strptime dates) ;;
  assign "dates" (VDates dates) ;;;
  df <~ frame "df_daily_jumpsup" ;;
  assign "values" (VArray (map value df)) ;;;
  test_dates <~ dates_of "dates" ;;
  test_values <~ array "values" ;;
  plot (Dated [(test_dates, test_values)]) ;;;
  df_subset <~ frame "df_subset" ;;
  assign "dates" (VStrings (map timestamp df_subset)) ;;;
  dates <~ strings "dates" ;;
  dates <~ call (mapM strptime dates) ;;
  assign "dates" (VDates dates) ;;;
  df_subset <~ frame "df_subset" ;;
  assign "values" (VArray (map value df_subset)) ;;;
  dates <~ dates_of "dates" ;;
  values <~ array "values" ;;
  draw (Dated [(test_dates, test_values); (dates, values)]).

Definition notebook : list (prog unit) :=
  [cell_imports; cell_load; cell_head; cell_def_plot; cell_plot_small_noise;
   cell_plot_jumpsup; cell_normalize; cell_sequences; cell_model; cell_fit;
   cell_history; cell_threshold; cell_compare; cell_test; cell_reduce;
   cell_overlay].

(** Running cells top to bottom. *)
Fixpoint exec (cells : list (prog unit)) : prog unit :=
  match cells with
  | [] => ret tt
  | c :: cs => c ;;; exec cs
  end.

Definition run_notebook : list output * env * outcome unit :=
  exec notebook empty_env.

(** A figure that pairs each date with a value. *)
Definition figure_ok (f : figure) : bool :=
  match f with
  | Dated series =>
      forallb (fun s => Nat.eqb (length (fst s)) (length (snd s))) series
  | _ => true
  end.

End Notebook.

Arguments Lines {date}.
Arguments Dated {date}.
Arguments Hist {date}.
Arguments VFrame {date net}.
Arguments VArray {date net}.
Arguments VTensor {date net}.
Arguments VMatrix {date net}.
Arguments VFloat {date net}.
Arguments VInt {date net}.
Arguments VShape {date net}.
Arguments VMask {date net}.
Arguments VIndices {date net}.
Arguments VModel {date net}.
Arguments VHistory {date net}.
Arguments VStr {date net}.
Arguments VStrings {date net}.
Arguments VDates {date net}.
Arguments VRange {date net}.
Arguments VFunction {date net}.
Arguments VModule {date net}.
Arguments VObject {date net}.
Arguments Text {date net}.
Arguments Drawn {date net}.
Arguments empty_env {date net}.
Arguments ret {date net A}.
Arguments pbind {date net A B}.
Arguments call {date net A}.
Arguments raise {date net A}.
Arguments print {date net}.
Arguments draw {date net}.
Arguments plot {date net}.
Arguments var {date net}.
Arguments set_var {date net}.
Arguments assign {date net}.
Arguments import {date net}.
Arguments define {date net}.
Arguments frame {date net}.
Arguments array {date net}.
Arguments tensor {date net}.
Arguments mat {date net}.
Arguments float {date net}.
Arguments mask {date net}.
Arguments indices {date net}.
Arguments model_of {date net}.
Arguments history_of {date net}.
Arguments strings {date net}.
Arguments dates_of {date net}.
Arguments for_each {date net A}.
Arguments plot_dates_values {date net}.
Arguments cell_imports {date net}.
Arguments cell_load {date net}.
Arguments cell_head {date net}.
Arguments cell_def_plot {date net}.
Arguments cell_plot_small_noise {date net}.
Arguments cell_plot_jumpsup {date net}.
Arguments cell_normalize {date net}.
Arguments cell_sequences {date net}.
Arguments cell_model {date net}.
Arguments cell_fit {date net}.
Arguments cell_history {date net}.
Arguments cell_threshold {date net}.
Arguments cell_compare {date net}.
Arguments cell_test {date net}.
Arguments reduce_step {date net}.
Arguments cell_reduce {date net}.
Arguments cell_overlay {date net}.
Arguments notebook {date net}.
Arguments exec {date net}.
Arguments run_notebook {date net}.
Arguments figure_ok {date}.

(** ** A small run

    Concrete stand-ins for the outside world: both files hold the same 289
    rows, dates parse, figures draw, and training leaves the model as it is. *)

Definition example_frame : list row :=
  {| timestamp := "2014-04-01 00:00:00"; value := 1%R |}
  :: repeat {| timestamp := "2014-04-01 00:05:00"; value := 0%R |} 288.

Abbreviation example_run predict :=
  (@run_notebook unit unit
     (fun _ => Ok example_frame)
     (fun _ => Ok tt)
     (fun _ _ => Ok tt)
     (fun m _ _ => Ok (m, ([], [])))
     predict
     (fun _ => Ok tt)).

(** A second run, whose test file is longer than the training file: 576 rows
    against 289. The first file is served at the training URL, the second at
    any other; a date parses unless it is empty, a figure draws when its
    dates and values pair up, the model is built for windows of [TIME_STEPS]
    single values and trains on a non-empty array. The model reconstructs a
    single window exactly and is off by one on every value otherwise. *)

Definition example_test_frame : list row :=
  repeat {| timestamp := "2014-04-02 00:00:00"; value := 0%R |} 576.

Definition example_read_csv (url : string) : outcome (list row) :=
  if String.eqb url df_small_noise_url then Ok example_frame
  else Ok example_test_frame.

Definition example_strptime (s : string) : outcome string :=
  match s with
  | EmptyString => Raise ValueError
  | _ => Ok s
  end.

Definition example_plt_show (f : figure string) : outcome unit :=
  if figure_ok f then Ok tt else Raise ValueError.

Definition example_Sequential (steps features : nat) : outcome unit :=
  if Nat.eqb steps 288 && Nat.eqb features 1 then Ok tt else Raise ValueError.

Definition example_fit (m : unit) (x y : tensor3)
  : outcome (unit * (list R * list R)) :=
  match x with
  | [] => Raise ValueError
  | _ => Ok (m, ([], []))
  end.

Definition example_predict (m : unit) (x : tensor3) : outcome tensor3 :=
  if Nat.eqb (length x) 1 then Ok x
  else Ok (map (map (map (fun v => (v + 1)%R))) x).

Abbreviation example_long_run :=
  (@run_notebook string unit example_read_csv example_strptime
     example_Sequential example_fit example_predict example_plt_show).

(** ** Notions used in the statements *)

(** A window with its one-feature axis added. *)
Definition expand {A : Type} (w : list A) : list (list A) := map (fun v => [v]) w.

(** Window [j] covers data index [i]: [i] lies in the index span of the
    window, which starts at [j] and is [TIME_STEPS] long. *)
Definition covers (j i : Z) : Prop := (j <= i < j + TIME_STEPS)%Z.

(** The test the loop applies to a data index: the mask holds at every index
    of [range(data_idx - TIME_STEPS + 1, data_idx)]. *)
Definition flagged (anomalies : list bool) (data_idx : Z) : bool :=
  forallb (fun j => nth (Z.to_nat j) anomalies false)
          (py_range (data_idx - TIME_STEPS + 1) data_idx).

(** A statement that binds no name outside [names], whatever its end. *)
Definition preserves {date net A : Type} (names : list string)
  (p : prog date net A) : Prop :=
  forall e log e' r,
    p e = (log, e', r) ->
    forall name, ~ In name names -> e' name = e name.

(** * Properties *)

(** ** The outcome monad *)

Lemma bind_ok_inv {A B : Type} (m : outcome A) (k : A -> outcome B) (b : B) :
  bind m k = Ok b -> exists a, m = Ok a /\ k a = Ok b.
Proof.
  destruct m as [a | e | ]; simpl; intro H; try discriminate.
  exists a; split; [reflexivity | exact H].
Qed.

Lemma mapM_ok {A B : Type} (f : A -> outcome B) (g : A -> B) (l : list A) :
  (forall a, In a l -> f a = Ok (g a)) -> mapM f l = Ok (map g l).
Proof.
  induction l as [| a l IH]; intro H; simpl; [reflexivity |].
  rewrite (H a (or_introl eq_refl)); simpl.
  rewrite IH by (intros; apply H; right; assumption).
  reflexivity.
Qed.

(** ** Ranges, indexing and slices *)

Lemma py_range_length (a b : Z) : length (py_range a b) = Z.to_nat (b - a).
Proof. unfold py_range. rewrite length_map, length_seq. reflexivity. Qed.

Lemma py_range_In (a b x : Z) : In x (py_range a b) <-> (a <= x < b)%Z.
Proof.
  unfold py_range. rewrite in_map_iff. split.
  - intros [k [<- Hk]]. apply in_seq in Hk. lia.
  - intro H. exists (Z.to_nat (x - a)). split; [lia |].
    apply in_seq. lia.
Qed.

Lemma py_range_nth (a b : Z) (k : nat) (d : Z) :
  (k < Z.to_nat (b - a))%nat -> nth k (py_range a b) d = (a + Z.of_nat k)%Z.
Proof.
  intro H. unfold py_range.
  rewrite (nth_indep _ d (a + Z.of_nat 0)%Z) by (rewrite length_map, length_seq; exact H).
  rewrite (map_nth (fun k => a + Z.of_nat k)%Z).
  rewrite seq_nth by exact H. reflexivity.
Qed.

Lemma py_range_empty (a b : Z) : (b <= a)%Z -> py_range a b = [].
Proof.
  intro H. unfold py_range.
  replace (Z.to_nat (b - a)) with 0%nat by lia. reflexivity.
Qed.

Lemma py_range_cons (a b : Z) :
  (a < b)%Z -> py_range a b = a :: py_range (a + 1) b.
Proof.
  intro H. unfold py_range.
  replace (Z.to_nat (b - a)) with (S (Z.to_nat (b - (a + 1)))) by lia.
  simpl. f_equal; [lia |].
  rewrite <- seq_shift, map_map.
  apply map_ext. intro k. lia.
Qed.

Lemma py_getitem_ok {A : Type} (l : list A) (j : Z) (d : A) :
  (0 <= j < len l)%Z -> py_getitem l j = Ok (nth (Z.to_nat j) l d).
Proof.
  unfold py_getitem, len. intro H.
  destruct (j <? 0)%Z eqn:E; [lia |]. rewrite E.
  destruct (nth_error l (Z.to_nat j)) as [a |] eqn:N.
  - f_equal. symmetry. apply nth_error_nth. exact N.
  - apply nth_error_None in N. lia.
Qed.

Lemma py_slice_window {A : Type} (l : list A) (i w : Z) :
  (0 <= i)%Z -> (0 <= w)%Z -> (i + w <= len l)%Z ->
  py_slice l i (i + w) = firstn (Z.to_nat w) (skipn (Z.to_nat i) l).
Proof.
  unfold py_slice, slice_bound, len. intros Hi Hw Hl.
  destruct (i + w <? 0)%Z eqn:E1; [lia |].
  destruct (i <? 0)%Z eqn:E2; [lia |].
  f_equal; [lia | f_equal; lia].
Qed.

Lemma py_slice_window_length {A : Type} (l : list A) (i w : Z) :
  (0 <= i)%Z -> (0 <= w)%Z -> (i + w <= len l)%Z ->
  length (py_slice l i (i + w)) = Z.to_nat w.
Proof.
  intros Hi Hw Hl. rewrite py_slice_window by assumption.
  rewrite length_firstn, length_skipn. unfold len in Hl. lia.
Qed.

Lemma py_slice_window_nth {A : Type} (l : list A) (i w : Z) (k : nat) (d : A) :
  (0 <= i)%Z -> (0 <= w)%Z -> (i + w <= len l)%Z -> (k < Z.to_nat w)%nat ->
  nth k (py_slice l i (i + w)) d = nth (Z.to_nat i + k) l d.
Proof.
  intros Hi Hw Hl Hk. rewrite py_slice_window by assumption.
  rewrite nth_firstn.
  destruct (k <? Z.to_nat w)%nat eqn:E; [| apply Nat.ltb_ge in E; lia].
  apply nth_skipn.
Qed.

(** ** Windows *)

Lemma create_sequences_no_window {A : Type} (values : list A) (ts : Z) :
  (len values <= ts)%Z -> create_sequences values ts = Raise AxisError.
Proof.
  intro H. unfold create_sequences.
  rewrite py_range_empty by lia. reflexivity.
Qed.

Lemma create_sequences_ok {A : Type} (values : list A) (ts : Z) :
  (0 <= ts)%Z -> (ts < len values)%Z ->
  create_sequences values ts =
    Ok (map (fun i => expand (py_slice values i (i + ts)))
            (py_range 0 (len values - ts))).
Proof.
  intros H0 H1. unfold create_sequences.
  assert (Hlen : forall r,
             In r (map (fun i => py_slice values i (i + ts))
                       (py_range 0 (len values - ts))) ->
             length r = Z.to_nat ts).
  { intros r Hr. apply in_map_iff in Hr. destruct Hr as [i [<- Hi]].
    apply py_range_In in Hi. apply py_slice_window_length; lia. }
  rewrite <- (map_map (fun i => py_slice values i (i + ts)) expand).
  destruct (map (fun i => py_slice values i (i + ts))
                (py_range 0 (len values - ts))) as [| r rs] eqn:E.
  - apply (f_equal (@length _)) in E.
    rewrite length_map, py_range_length in E. simpl in E. lia.
  - unfold np_expand_dims_axis2.
    replace (forallb (fun r' => Nat.eqb (length r') (length r)) rs) with true.
    + reflexivity.
    + symmetry. apply forallb_forall. intros r' Hr'.
      apply Nat.eqb_eq.
      rewrite (Hlen r (or_introl eq_refl)), (Hlen r' (or_intror Hr')).
      reflexivity.
Qed.

Lemma create_sequences_nth {A : Type} (values : list A) (ts i : Z) x :
  (0 <= ts)%Z -> (ts < len values)%Z ->
  create_sequences values ts = Ok x ->
  (0 <= i < len values - ts)%Z ->
  nth (Z.to_nat i) x [] = expand (py_slice values i (i + ts)).
Proof.
  intros H0 H1 Hx Hi. rewrite create_sequences_ok in Hx by assumption.
  injection Hx as <-.
  rewrite (nth_indep _ [] ((fun i => expand (py_slice values i (i + ts))) 0%Z))
    by (rewrite length_map, py_range_length; lia).
  rewrite (map_nth (fun i => expand (py_slice values i (i + ts)))).
  rewrite py_range_nth by lia. f_equal. f_equal; lia.
Qed.

Lemma window_ignores_tail {A : Type} (l l' : list A) (m i w : nat) :
  firstn m l = firstn m l' -> (i + w <= m)%nat ->
  firstn w (skipn i l) = firstn w (skipn i l').
Proof.
  intros E H. rewrite !firstn_skipn_comm.
  replace (i + w)%nat with (Nat.min (i + w) m) by lia.
  rewrite <- !firstn_firstn, E. reflexivity.
Qed.

Lemma create_sequences_ignores_last {A : Type} (values ys : list A) (ts : Z) :
  (0 < ts)%Z -> (ts < len values)%Z ->
  length ys = length values ->
  firstn (length values - 1) ys = firstn (length values - 1) values ->
  create_sequences ys ts = create_sequences values ts.
Proof.
  intros H0 H1 HL HF.
  assert (Hlen : len ys = len values) by (unfold len; rewrite HL; reflexivity).
  rewrite !create_sequences_ok by lia. rewrite Hlen.
  f_equal. apply map_ext_in. intros i Hi. apply py_range_In in Hi.
  f_equal. rewrite !py_slice_window by lia.
  apply window_ignores_tail with (m := (length values - 1)%nat); [exact HF |].
  unfold len in *. lia.
Qed.

Lemma expand_nth {A : Type} (w : list A) (k : nat) (d : A) :
  (k < length w)%nat -> nth k (expand w) [] = [nth k w d].
Proof.
  intro H. unfold expand.
  rewrite (nth_indep _ [] ((fun v => [v]) d)) by (rewrite length_map; exact H).
  apply (map_nth (fun v => [v])).
Qed.

(** C7: for a sequence of length [n >= TIME_STEPS + 1], [create_sequences]
    produces exactly [n - TIME_STEPS] windows; the window at index [i] is the
    slice starting at [i], for [i] from [0] to [n - TIME_STEPS - 1]. Every
    position it reads lies before the last one, the result does not depend on
    the last element, and, run on the sequence of positions [0 .. n-1], it
    yields neither the final slice (the one starting at [n - TIME_STEPS]) nor
    any window holding position [n - 1]. *)
Theorem create_sequences_window_count {A : Type} (values : list A) :
  (TIME_STEPS + 1 <= len values)%Z ->
  exists x,
    create_sequences values TIME_STEPS = Ok x
    /\ len x = (len values - TIME_STEPS)%Z
    /\ (forall i, (0 <= i < len values - TIME_STEPS)%Z ->
          nth (Z.to_nat i) x [] = expand (py_slice values i (i + TIME_STEPS)))
    /\ (forall i k d, (0 <= i < len x)%Z -> (0 <= k < TIME_STEPS)%Z ->
          nth (Z.to_nat k) (nth (Z.to_nat i) x []) [] = [nth (Z.to_nat (i + k)) values d]
          /\ (i + k < len values - 1)%Z)
    /\ (forall ys, length ys = length values ->
          firstn (length values - 1) ys = firstn (length values - 1) values ->
          create_sequences ys TIME_STEPS = Ok x)
    /\ (exists p,
          create_sequences (py_range 0 (len values)) TIME_STEPS = Ok p
          /\ ~ In (expand (py_range (len values - TIME_STEPS) (len values))) p
          /\ forall w, In w p -> ~ In [(len values - 1)%Z] w).
Proof.
  intro H. unfold TIME_STEPS in *.
  assert (E := create_sequences_ok values 288 ltac:(lia) ltac:(lia)).
  eexists. split; [exact E |].
  assert (L : len (map (fun i => expand (py_slice values i (i + 288)))
                       (py_range 0 (len values - 288)))
              = (len values - 288)%Z).
  { unfold len at 1. rewrite length_map, py_range_length. lia. }
  split; [exact L |].
  split; [intros i Hi; apply (create_sequences_nth values 288 i _); [lia | lia | exact E | exact Hi] |].
  split.
  { intros i k d Hi Hk. rewrite L in Hi. split; [| lia].
    rewrite (create_sequences_nth values 288 i _ ltac:(lia) ltac:(lia) E) by lia.
    rewrite (expand_nth _ _ d) by (rewrite py_slice_window_length; lia).
    rewrite py_slice_window_nth by lia.
    do 2 f_equal. lia. }
  split.
  { intros ys HL HF. rewrite <- E.
    apply create_sequences_ignores_last; [lia | lia | exact HL | exact HF]. }
  set (n := len values) in *.
  assert (Hn : len (py_range 0 n) = n).
  { unfold len. rewrite py_range_length. lia. }
  assert (P := create_sequences_ok (py_range 0 n) 288 ltac:(lia) ltac:(lia)).
  rewrite Hn in P. eexists. split; [exact P |].
  assert (S : forall i k, (0 <= i < n - 288)%Z -> (k < 288)%nat ->
              nth k (py_slice (py_range 0 n) i (i + 288)) 0%Z = (i + Z.of_nat k)%Z).
  { intros i k Hi Hk. rewrite py_slice_window_nth by lia.
    rewrite py_range_nth by lia. lia. }
  split.
  - intro HIn. apply in_map_iff in HIn. destruct HIn as [i [Heq Hi]].
    apply py_range_In in Hi.
    apply (f_equal (fun w => nth 0 w [])) in Heq.
    rewrite !(expand_nth _ _ 0%Z) in Heq
      by (rewrite ?py_slice_window_length, ?py_range_length; lia).
    rewrite S, py_range_nth in Heq by lia.
    injection Heq as Heq. lia.
  - intros w Hw HIn. apply in_map_iff in Hw. destruct Hw as [i [<- Hi]].
    apply py_range_In in Hi.
    apply in_map_iff in HIn. destruct HIn as [v [Hv HIn]].
    injection Hv as ->.
    apply (In_nth _ _ 0%Z) in HIn. destruct HIn as [k [Hk Hnth]].
    rewrite py_slice_window_length in Hk by lia.
    rewrite S in Hnth by lia. lia.
Qed.

Lemma create_sequences_window_count_witness :
  exists x, create_sequences (py_range 0 289) TIME_STEPS = Ok x /\ len x = 1%Z.
Proof.
  destruct (create_sequences_window_count (py_range 0 289)) as [x [E [L _]]].
  - vm_compute. discriminate.
  - exists x. split; [exact E | exact L].
Defined.

(** C2: on a sequence of exactly [TIME_STEPS] values the loop builds no
    window and [np.expand_dims] is handed an empty one-dimensional array:
    no three-dimensional tensor is returned. *)
Theorem create_sequences_at_time_steps :
  (TIME_STEPS <= len (repeat 0%R 288))%Z
  /\ create_sequences (repeat 0%R 288) TIME_STEPS = Raise AxisError.
Proof.
  assert (L : len (repeat 0%R 288) = 288%Z).
  { unfold len. rewrite repeat_length. reflexivity. }
  split.
  - rewrite L. unfold TIME_STEPS. lia.
  - apply create_sequences_no_window. rewrite L. unfold TIME_STEPS. lia.
Qed.

(** The worked example of the notebook text (ten values, [time_steps = 3]):
    the code yields seven windows, the last one being [6, 7, 8]. *)
Lemma create_sequences_worked_example :
  create_sequences (py_range 0 10) 3 =
    Ok (map (fun i => expand [i; i + 1; i + 2]%Z) [0; 1; 2; 3; 4; 5; 6]%Z).
Proof. reflexivity. Qed.

(** ** Reduction of the window mask to data indices *)

Lemma forallb_map_id {A : Type} (f : A -> bool) (l : list A) :
  forallb (fun b => b) (map f l) = forallb f l.
Proof.
  induction l as [| a l IH]; simpl; [reflexivity | rewrite IH; reflexivity].
Qed.

Lemma flags_ok (anomalies : list bool) (data_idx : Z) :
  (TIME_STEPS - 1 <= data_idx <= len anomalies)%Z ->
  mapM (py_getitem anomalies) (py_range (data_idx - TIME_STEPS + 1) data_idx) =
    Ok (map (fun j => nth (Z.to_nat j) anomalies false)
            (py_range (data_idx - TIME_STEPS + 1) data_idx)).
Proof.
  intro H. apply mapM_ok. intros j Hj. apply py_range_In in Hj.
  apply py_getitem_ok. lia.
Qed.

Lemma anomalous_loop_filter (anomalies : list bool) (idxs acc : list Z) :
  (forall d, In d idxs -> (TIME_STEPS - 1 <= d <= len anomalies)%Z) ->
  anomalous_loop anomalies idxs acc = Ok (acc ++ filter (flagged anomalies) idxs).
Proof.
  revert acc. induction idxs as [| d rest IH]; intros acc H; simpl.
  - rewrite app_nil_r. reflexivity.
  - rewrite flags_ok by (apply H; left; reflexivity). simpl.
    rewrite IH by (intros; apply H; right; assumption).
    rewrite forallb_map_id. fold (flagged anomalies d).
    destruct (flagged anomalies d); [rewrite <- app_assoc |]; reflexivity.
Qed.

(** With one mask entry per window, the loop ends and keeps the data indices
    whose [TIME_STEPS - 1] preceding window indices are all anomalous. *)
Lemma anomalous_data_indices_filter {A : Type} (test_value : list A)
  (anomalies : list bool) :
  len anomalies = (len test_value - TIME_STEPS)%Z ->
  anomalous_data_indices test_value anomalies =
    Ok (filter (flagged anomalies)
               (py_range (TIME_STEPS - 1) (len test_value - TIME_STEPS + 1))).
Proof.
  intro H. unfold anomalous_data_indices.
  rewrite anomalous_loop_filter; [reflexivity |].
  intros d Hd. apply py_range_In in Hd. lia.
Qed.

Lemma py_range_sorted (a b : Z) : StronglySorted Z.lt (py_range a b).
Proof.
  unfold py_range. generalize (Z.to_nat (b - a)) as n. generalize 0%nat as s.
  intros s n. revert s. induction n as [| n IH]; intro s; simpl.
  - constructor.
  - constructor; [apply IH |].
    apply Forall_forall. intros x Hx. apply in_map_iff in Hx.
    destruct Hx as [k [<- Hk]]. apply in_seq in Hk. lia.
Qed.

Lemma filter_sorted (p : Z -> bool) (l : list Z) :
  StronglySorted Z.lt l -> StronglySorted Z.lt (filter p l).
Proof.
  induction 1 as [| x l HS IH HF]; simpl; [constructor |].
  destruct (p x); [| exact IH].
  constructor; [exact IH |].
  apply Forall_forall. intros y Hy. apply filter_In in Hy.
  rewrite Forall_forall in HF. apply HF. apply Hy.
Qed.

(** Whatever the mask, a loop that ends has kept some of the indices it ran
    over, in their order. *)
Lemma anomalous_loop_sorted (anomalies : list bool) (idxs acc r : list Z) :
  StronglySorted Z.lt idxs ->
  anomalous_loop anomalies idxs acc = Ok r ->
  exists s, r = acc ++ s /\ StronglySorted Z.lt s /\ (forall x, In x s -> In x idxs).
Proof.
  intro HS. revert acc. induction HS as [| d rest HS IH HF]; intros acc H; simpl in H.
  - injection H as <-. exists []. rewrite app_nil_r.
    split; [reflexivity | split; [constructor | intros x []]].
  - apply bind_ok_inv in H. destruct H as [flags [_ H]].
    apply IH in H. destruct H as [s [-> [Hs Hin]]].
    destruct (forallb (fun b => b) flags).
    + exists (d :: s). rewrite <- app_assoc. split; [reflexivity |].
      split.
      * constructor; [exact Hs |].
        apply Forall_forall. intros y Hy.
        rewrite Forall_forall in HF. apply HF, Hin, Hy.
      * intros x [-> | Hx]; [left; reflexivity | right; apply Hin, Hx].
    + exists s. split; [reflexivity |].
      split; [exact Hs | intros x Hx; right; apply Hin, Hx].
Qed.

Lemma py_getitem_some {A : Type} (l : list A) (j : Z) :
  (0 <= j < len l)%Z ->
  exists a, py_getitem l j = Ok a /\ nth_error l (Z.to_nat j) = Some a.
Proof.
  unfold py_getitem, len. intro H.
  destruct (j <? 0)%Z eqn:E; [lia |]. rewrite E.
  destruct (nth_error l (Z.to_nat j)) as [a |] eqn:N.
  - exists a. split; reflexivity.
  - apply nth_error_None in N. lia.
Qed.

Lemma iloc_rows_ok {Row : Type} (df : list Row) (idxs : list Z) :
  (forall i, In i idxs -> (0 <= i < len df)%Z) ->
  exists rows, iloc_rows df idxs = Ok rows
    /\ Forall2 (fun i r => nth_error df (Z.to_nat i) = Some r) idxs rows.
Proof.
  unfold iloc_rows. induction idxs as [| i idxs IH]; intro H; simpl.
  - exists []. split; [reflexivity | constructor].
  - destruct (py_getitem_some df i (H i (or_introl eq_refl))) as [a [Ea Na]].
    destruct IH as [rows [Er Fr]]; [intros; apply H; right; assumption |].
    exists (a :: rows). rewrite Ea, Er. split; [reflexivity |].
    constructor; assumption.
Qed.

(** C8: a completed run of the loop leaves [anomalous_data_indices] strictly
    increasing with every element in [[TIME_STEPS - 1, n - TIME_STEPS]], so
    that the row selection on a dataframe of [n] rows finds a row for each
    of them; and with one mask entry per window the loop does complete. *)
Theorem anomalous_data_indices_sorted_in_range {A Row : Type}
  (test_value : list A) (anomalies : list bool) (df : list Row) :
  length df = length test_value ->
  (forall idxs, anomalous_data_indices test_value anomalies = Ok idxs ->
     StronglySorted Z.lt idxs
     /\ (forall i, In i idxs ->
           (TIME_STEPS - 1 <= i <= len test_value - TIME_STEPS)%Z)
     /\ (forall i, In i idxs -> (0 <= i < len df)%Z)
     /\ exists rows, iloc_rows df idxs = Ok rows
          /\ Forall2 (fun i r => nth_error df (Z.to_nat i) = Some r) idxs rows)
  /\ (len anomalies = (len test_value - TIME_STEPS)%Z ->
      exists idxs, anomalous_data_indices test_value anomalies = Ok idxs).
Proof.
  intro Hdf. split.
  - intros idxs H. unfold anomalous_data_indices in H.
    apply anomalous_loop_sorted in H; [| apply py_range_sorted].
    destruct H as [s [-> [Hs Hin]]]. simpl.
    assert (B : forall i, In i s ->
                (TIME_STEPS - 1 <= i <= len test_value - TIME_STEPS)%Z).
    { intros i Hi. apply Hin, py_range_In in Hi. lia. }
    assert (V : forall i, In i s -> (0 <= i < len df)%Z).
    { intros i Hi. apply B in Hi. unfold len in *. rewrite Hdf.
      unfold TIME_STEPS in Hi. lia. }
    split; [exact Hs |]. split; [exact B |]. split; [exact V |].
    apply iloc_rows_ok. exact V.
  - intro HL. eexists. apply anomalous_data_indices_filter. exact HL.
Qed.

Lemma anomalous_data_indices_sorted_in_range_witness :
  exists idxs,
    anomalous_data_indices (repeat 0%Z 576) (repeat true 288) = Ok idxs
    /\ StronglySorted Z.lt idxs
    /\ exists rows, iloc_rows (repeat 0%Z 576) idxs = Ok rows.
Proof.
  destruct (anomalous_data_indices_sorted_in_range
              (repeat 0%Z 576) (repeat true 288) (repeat 0%Z 576) eq_refl)
    as [P T].
  destruct T as [idxs E]; [vm_compute; reflexivity |].
  destruct (P idxs E) as [S [_ [_ [rows [R _]]]]].
  exists idxs. split; [exact E |]. split; [exact S |].
  exists rows. exact R.
Defined.

Lemma flagged_iff (anomalies : list bool) (data_idx : Z) :
  flagged anomalies data_idx = true <->
  (forall j, (data_idx - TIME_STEPS + 1 <= j < data_idx)%Z ->
             nth (Z.to_nat j) anomalies false = true).
Proof.
  unfold flagged. rewrite forallb_forall. split.
  - intros H j Hj. apply H, py_range_In, Hj.
  - intros H j Hj. apply H, py_range_In, Hj.
Qed.

(** X3: what the loop computes: with one mask entry per window, a data index
    in range is kept exactly when every window that covers it and starts
    before it is anomalous. *)
Lemma anomalous_data_indices_flags {A : Type} (test_value : list A)
  (anomalies : list bool) (i : Z) :
  len anomalies = (len test_value - TIME_STEPS)%Z ->
  exists idxs, anomalous_data_indices test_value anomalies = Ok idxs
    /\ (In i idxs <->
        (TIME_STEPS - 1 <= i <= len test_value - TIME_STEPS)%Z
        /\ forall j, covers j i -> (j < i)%Z ->
                     nth (Z.to_nat j) anomalies false = true).
Proof.
  intro H. eexists. split; [apply anomalous_data_indices_filter, H |].
  rewrite filter_In, py_range_In, flagged_iff. unfold covers.
  split; intros [Hi Hf]; (split; [lia |]); intros j Hj; [intro Hlt |]; apply Hf; lia.
Qed.

(** C1: with 576 test values and a mask of 288 windows in which only window
    287 is not anomalous, the loop flags data index 287 although window 287,
    which covers it, is not anomalous: the loop reads the mask at
    [range(data_idx - TIME_STEPS + 1, data_idx)], which leaves out the window
    starting at [data_idx] itself. *)
Theorem anomalous_data_indices_skips_own_window :
  let test_value := repeat 0%R 576 in
  let mask := repeat true 287 ++ [false] in
  len mask = (len test_value - TIME_STEPS)%Z
  /\ (TIME_STEPS - 1 <= 287 <= len test_value - TIME_STEPS)%Z
  /\ anomalous_data_indices test_value mask = Ok [287%Z]
  /\ (0 <= 287 < len mask)%Z /\ covers 287 287
  /\ nth 287 mask true = false
  /\ ~ (forall j, (0 <= j < len mask)%Z -> covers j 287 ->
                  nth (Z.to_nat j) mask false = true).
Proof.
  cbv zeta.
  assert (L : len (repeat 0%R 576) = 576%Z).
  { unfold len. rewrite repeat_length. reflexivity. }
  assert (M : len (repeat true 287 ++ [false]) = 288%Z) by reflexivity.
  unfold covers. rewrite M. unfold anomalous_data_indices. rewrite L.
  unfold TIME_STEPS.
  split; [reflexivity |]. split; [lia |].
  split; [vm_compute; reflexivity |].
  split; [lia |]. split; [lia |].
  split; [vm_compute; reflexivity |].
  intro H. specialize (H 287%Z ltac:(lia) ltac:(lia)).
  vm_compute in H. discriminate H.
Qed.

(** ** Threshold and classification *)

Lemma Rgtb_true (x y : R) : Rgtb x y = true <-> (x > y)%R.
Proof.
  unfold Rgtb. destruct (Rlt_dec y x) as [H | H]; split; intro G;
    try reflexivity; try discriminate; try exact H.
  exfalso. apply H. exact G.
Qed.

Lemma Rgtb_false (x y : R) : Rgtb x y = false <-> (x <= y)%R.
Proof.
  unfold Rgtb. destruct (Rlt_dec y x) as [H | H]; split; intro G;
    try reflexivity; try discriminate; lra.
Qed.

Lemma fold_left_Rmax_ge_init (xs : list R) (x : R) : (x <= fold_left Rmax xs x)%R.
Proof.
  revert x. induction xs as [| y xs IH]; intro x; simpl; [lra |].
  apply Rle_trans with (Rmax x y); [apply Rmax_l | apply IH].
Qed.

Lemma fold_left_Rmax_ge (xs : list R) (x y : R) :
  In y xs -> (y <= fold_left Rmax xs x)%R.
Proof.
  revert x. induction xs as [| z xs IH]; intros x H; simpl; [destruct H |].
  destruct H as [-> | H]; [| apply IH, H].
  apply Rle_trans with (Rmax x y); [apply Rmax_r | apply fold_left_Rmax_ge_init].
Qed.

Lemma fold_left_Rmax_In (xs : list R) (x : R) : In (fold_left Rmax xs x) (x :: xs).
Proof.
  revert x. induction xs as [| y xs IH]; intro x; simpl; [left; reflexivity |].
  destruct (IH (Rmax x y)) as [H | H].
  - rewrite <- H. unfold Rmax. destruct (Rle_dec x y); [right; left | left]; reflexivity.
  - right; right. exact H.
Qed.

Lemma np_max_spec (a : matrix) :
  concat a <> [] ->
  exists t, np_max a = Ok t
    /\ (forall l, In l (concat a) -> (l <= t)%R)
    /\ In t (concat a).
Proof.
  unfold np_max. destruct (concat a) as [| x xs]; intro H; [contradiction |].
  eexists. split; [reflexivity |]. split.
  - intros l [<- | Hl]; [apply fold_left_Rmax_ge_init | apply fold_left_Rmax_ge, Hl].
  - apply fold_left_Rmax_In.
Qed.

Lemma In_concat_row (a : matrix) (row : list R) (l : R) :
  In row a -> In l row -> In l (concat a).
Proof. intros Hr Hl. apply in_concat. exists row. split; assumption. Qed.

Lemma np_max_ok_inv (a : matrix) (t : R) :
  np_max a = Ok t ->
  (forall l, In l (concat a) -> (l <= t)%R) /\ In t (concat a).
Proof.
  intro H. destruct (np_max_spec a) as [t' [E [U I]]].
  - unfold np_max in H. intro N. rewrite N in H. discriminate.
  - rewrite E in H. injection H as <-. split; assumption.
Qed.

Lemma anomalies_nth (test_mae_loss : list R) (t : R) (k : nat) :
  (k < length test_mae_loss)%nat ->
  nth k (anomalies test_mae_loss t) false = true <-> (nth k test_mae_loss 0 > t)%R.
Proof.
  intro Hk. unfold anomalies.
  rewrite (nth_indep _ false (Rgtb 0 t)) by (rewrite length_map; exact Hk).
  rewrite (map_nth (fun l => Rgtb l t)). apply Rgtb_true.
Qed.

(** C6: the classification rule applied to the training losses themselves
    flags no sample. *)
Theorem no_training_sample_is_anomalous (train_mae_loss : matrix) :
  concat train_mae_loss <> [] ->
  exists t, threshold train_mae_loss = Ok t
    /\ (forall sample l, In sample train_mae_loss -> In l sample -> Rgtb l t = false)
    /\ anomalies (concat train_mae_loss) t
       = repeat false (length (concat train_mae_loss)).
Proof.
  intro H. destruct (np_max_spec train_mae_loss H) as [t [E [U _]]].
  exists t. split; [exact E |]. split.
  - intros sample l Hs Hl. apply Rgtb_false, U.
    apply In_concat_row with sample; assumption.
  - unfold anomalies. revert U. generalize (concat train_mae_loss) as ls.
    induction ls as [| l ls IH]; intro U; simpl; [reflexivity |].
    f_equal.
    + apply Rgtb_false, U. left; reflexivity.
    + apply IH. intros; apply U; right; assumption.
Qed.

Lemma no_training_sample_is_anomalous_witness :
  exists t, threshold [[1%R]; [3%R]] = Ok t
    /\ anomalies (concat [[1%R]; [3%R]]) t = [false; false].
Proof.
  destruct (no_training_sample_is_anomalous [[1%R]; [3%R]]) as [t [E [_ A]]].
  - simpl. discriminate.
  - exists t. split; [exact E | exact A].
Defined.

(** ** Mean absolute error *)

Lemma has_shape3_spec {A : Type} (t : list (list (list A))) (m w f : nat) :
  has_shape3 t m w f = true ->
  length t = m
  /\ forall s, In s t -> length s = w /\ forall c, In c s -> length c = f.
Proof.
  unfold has_shape3. intro H. apply andb_prop in H. destruct H as [H1 H2].
  split; [apply Nat.eqb_eq, H1 |].
  intros s Hs. rewrite forallb_forall in H2. specialize (H2 s Hs).
  apply andb_prop in H2. destruct H2 as [H2 H3].
  split; [apply Nat.eqb_eq, H2 |].
  intros c Hc. rewrite forallb_forall in H3. apply Nat.eqb_eq, H3, Hc.
Qed.

Lemma broadcast_same {A B C : Type} (f : A -> B -> outcome C) (g : A -> B -> C)
  (la : list A) (lb : list B) :
  length la = length lb ->
  (forall a b, In (a, b) (combine la lb) -> f a b = Ok (g a b)) ->
  broadcast f la lb = Ok (map (fun ab => g (fst ab) (snd ab)) (combine la lb)).
Proof.
  intros HL H. unfold broadcast.
  rewrite HL, Nat.eqb_refl. apply mapM_ok.
  intros [a b] Hab. apply H, Hab.
Qed.

(** Difference and absolute difference of two windows of one feature. *)
Lemma subtract_window (p w : list (list R)) :
  length p = length w ->
  (forall c, In c p -> length c = 1%nat) ->
  (forall c, In c w -> length c = 1%nat) ->
  broadcast (broadcast (fun x y => Ok (x - y)%R)) p w =
    Ok (map (fun ab => [(fst ab - snd ab)%R]) (combine (feature0 p) (feature0 w))).
Proof.
  intros HL Hp Hw.
  rewrite (broadcast_same _ (fun c c' => [(nth 0 c 0 - nth 0 c' 0)%R])); [| exact HL |].
  - f_equal. clear. revert w.
    induction p as [| c p IH]; intros [| c' w]; simpl; try reflexivity.
    rewrite IH. reflexivity.
  - intros c c' Hcc.
    assert (Hc := Hp c (in_combine_l _ _ _ _ Hcc)).
    assert (Hc' := Hw c' (in_combine_r _ _ _ _ Hcc)).
    destruct c as [| a [| ? ?]]; try discriminate.
    destruct c' as [| b [| ? ?]]; try discriminate.
    reflexivity.
Qed.

Lemma sum_rows_one_feature (rs : list (list R)) (a : R) :
  (forall c, In c rs -> length c = 1%nat) ->
  sum_rows [a] rs = [(a + np_sum (feature0 rs))%R].
Proof.
  unfold sum_rows. revert a. induction rs as [| c rs IH]; intros a H; simpl.
  - f_equal. lra.
  - assert (Hc := H c (or_introl eq_refl)).
    destruct c as [| b [| ? ?]]; try discriminate. simpl.
    rewrite IH by (intros; apply H; right; assumption).
    f_equal. lra.
Qed.

Lemma mean_axis0_one_feature (s : list (list R)) :
  s <> [] ->
  (forall c, In c s -> length c = 1%nat) ->
  mean_axis0 s = Ok [(np_sum (feature0 s) / INR (length s))%R].
Proof.
  intros Hne H. destruct s as [| c rs]; [contradiction |].
  assert (Hc := H c (or_introl eq_refl)).
  destruct c as [| a [| ? ?]]; try discriminate.
  unfold mean_axis0.
  rewrite sum_rows_one_feature by (intros; apply H; right; assumption).
  reflexivity.
Qed.

Lemma feature0_length (w : list (list R)) : length (feature0 w) = length w.
Proof. apply length_map. Qed.

Lemma mae_window (p w : list (list R)) :
  w <> [] -> length p = length w ->
  (forall c, In c p -> length c = 1%nat) ->
  (forall c, In c w -> length c = 1%nat) ->
  bind (broadcast (broadcast (fun x y => Ok (x - y)%R)) p w)
       (fun d => mean_axis0 (map (map Rabs) d))
  = Ok [spec_mae (feature0 p) (feature0 w)].
Proof.
  intros Hne HL Hp Hw. rewrite subtract_window by assumption. simpl.
  rewrite map_map. simpl.
  rewrite mean_axis0_one_feature.
  - unfold spec_mae, feature0 at 1. rewrite !map_map, !length_map. simpl.
    rewrite length_combine, !feature0_length, HL, Nat.min_id. reflexivity.
  - destruct w as [| c w]; [contradiction |]. destruct p as [| c' p]; discriminate.
  - intros c Hc. apply in_map_iff in Hc. destruct Hc as [ab [<- _]]. reflexivity.
Qed.

Lemma mean_abs_window (p w : list (list R)) :
  w <> [] -> length p = length w ->
  (forall c, In c p -> length c = 1%nat) ->
  (forall c, In c w -> length c = 1%nat) ->
  mean_axis0 (map (map Rabs)
                (map (fun ab => [(fst ab - snd ab)%R])
                     (combine (feature0 p) (feature0 w))))
  = Ok [spec_mae (feature0 p) (feature0 w)].
Proof.
  intros Hne HL Hp Hw. rewrite <- (mae_window p w) by assumption.
  rewrite subtract_window by assumption. reflexivity.
Qed.

Lemma mapM_map {A B C : Type} (f : B -> outcome C) (h : A -> B) (l : list A) :
  mapM f (map h l) = mapM (fun a => f (h a)) l.
Proof.
  induction l as [| a l IH]; simpl; [reflexivity | rewrite IH; reflexivity].
Qed.

Lemma mae_loss_same_shape (pred x : tensor3) (m w : nat) :
  w <> 0%nat ->
  has_shape3 pred m w 1 = true ->
  has_shape3 x m w 1 = true ->
  mae_loss pred x =
    Ok (map (fun ab => [spec_mae (feature0 (fst ab)) (feature0 (snd ab))])
            (combine pred x)).
Proof.
  intros Hw Sp Sx.
  apply has_shape3_spec in Sp. destruct Sp as [Lp Sp].
  apply has_shape3_spec in Sx. destruct Sx as [Lx Sx].
  assert (W : forall p s, In (p, s) (combine pred x) ->
              s <> [] /\ length p = length s
              /\ (forall c, In c p -> length c = 1%nat)
              /\ (forall c, In c s -> length c = 1%nat)).
  { intros p s H.
    destruct (Sp p (in_combine_l _ _ _ _ H)) as [Hp Cp].
    destruct (Sx s (in_combine_r _ _ _ _ H)) as [Hs Cs].
    split; [intros ->; simpl in Hs; lia |].
    split; [lia |]. split; assumption. }
  unfold mae_loss, np_subtract.
  rewrite (broadcast_same _
             (fun p s => map (fun ab => [(fst ab - snd ab)%R])
                             (combine (feature0 p) (feature0 s)))).
  - simpl. unfold np_mean_axis1, np_abs. rewrite map_map, mapM_map.
    apply mapM_ok. intros [p s] H. simpl.
    destruct (W p s H) as [H1 [H2 [H3 H4]]].
    apply mean_abs_window; assumption.
  - lia.
  - intros p s H. destruct (W p s H) as [H1 [H2 [H3 H4]]].
    apply subtract_window; assumption.
Qed.

(** C5: for a reconstruction and an input of the same shape
    [(m, TIME_STEPS, 1)], the loss of every sample is the mean, over the
    [TIME_STEPS] positions of its window, of the absolute difference between
    the predicted value and the input value at that position. *)
Theorem mae_loss_is_mean_abs_error (pred x : tensor3) (m : nat) :
  has_shape3 pred m (Z.to_nat TIME_STEPS) 1 = true ->
  has_shape3 x m (Z.to_nat TIME_STEPS) 1 = true ->
  exists loss, mae_loss pred x = Ok loss
    /\ length loss = m
    /\ forall k, (k < m)%nat ->
         length (feature0 (nth k x [])) = Z.to_nat TIME_STEPS
         /\ length (feature0 (nth k pred [])) = Z.to_nat TIME_STEPS
         /\ nth k loss [] = [spec_mae (feature0 (nth k pred [])) (feature0 (nth k x []))].
Proof.
  intros Sp Sx.
  rewrite (mae_loss_same_shape pred x m (Z.to_nat TIME_STEPS)); try assumption;
    [| unfold TIME_STEPS; lia].
  apply has_shape3_spec in Sp. destruct Sp as [Lp Sp].
  apply has_shape3_spec in Sx. destruct Sx as [Lx Sx].
  eexists. split; [reflexivity |].
  split; [rewrite length_map, length_combine; lia |].
  intros k Hk. rewrite !feature0_length.
  split; [apply Sx, nth_In; lia |].
  split; [apply Sp, nth_In; lia |].
  rewrite (nth_indep _ []
             ((fun ab => [spec_mae (feature0 (fst ab)) (feature0 (snd ab))])
                ([], [])))
    by (rewrite length_map, length_combine; lia).
  rewrite (map_nth (fun ab => [spec_mae (feature0 (fst ab)) (feature0 (snd ab))])).
  rewrite combine_nth by lia. reflexivity.
Qed.

Lemma mae_loss_is_mean_abs_error_witness :
  exists loss,
    mae_loss [repeat [1%R] 288] [repeat [0%R] 288] = Ok loss /\ length loss = 1%nat.
Proof.
  destruct (mae_loss_is_mean_abs_error [repeat [1%R] 288] [repeat [0%R] 288] 1)
    as [loss [E [L _]]].
  - vm_compute. reflexivity.
  - vm_compute. reflexivity.
  - exists loss. split; [exact E | exact L].
Defined.

(** ** Normalisation *)

Lemma np_mean_ok (l : list R) :
  l <> [] -> np_mean l = Ok (np_sum l / INR (length l))%R.
Proof. destruct l; [contradiction | reflexivity]. Qed.

Lemma INR_length_neq_0 {A : Type} (l : list A) : l <> [] -> INR (length l) <> 0%R.
Proof.
  intro H. apply not_0_INR. destruct l; [contradiction | discriminate].
Qed.

Lemma np_sum_centered (l : list R) (m : R) :
  np_sum (map (fun x => x - m) l)%R = (np_sum l - INR (length l) * m)%R.
Proof.
  induction l as [| a l IH]; [simpl; lra |].
  change (length (a :: l)) with (S (length l)). rewrite S_INR.
  simpl. rewrite IH. lra.
Qed.

Lemma np_sum_constant (l : list R) (c : R) :
  (forall x, In x l -> x = c) -> np_sum l = (INR (length l) * c)%R.
Proof.
  induction l as [| a l IH]; intro H; [simpl; lra |].
  change (length (a :: l)) with (S (length l)). rewrite S_INR.
  simpl. rewrite IH by (intros; apply H; right; assumption).
  rewrite (H a (or_introl eq_refl)). lra.
Qed.

Lemma Rabs_square (a : R) : (Rabs a * Rabs a = a * a)%R.
Proof. rewrite <- Rabs_mult. apply Rabs_pos_eq. nra. Qed.

Lemma np_sum_squares_nonneg (l : list R) (m : R) :
  (0 <= np_sum (map (fun x => (x - m) * (x - m)) l))%R.
Proof.
  induction l as [| a l IH]; simpl; [lra |].
  pose proof (Rle_0_sqr (a - m)) as Q. unfold Rsqr in Q. lra.
Qed.

Lemma np_sum_squares_zero (l : list R) (m : R) :
  np_sum (map (fun x => (x - m) * (x - m))%R l) = 0%R <-> (forall x, In x l -> x = m).
Proof.
  induction l as [| a l IH]; simpl.
  - split; [intros _ x [] | reflexivity].
  - assert (N := np_sum_squares_nonneg l m). split.
    + pose proof (Rle_0_sqr (a - m)) as Q. unfold Rsqr in Q.
      intros H x [<- | Hx]; [| apply IH; [lra | exact Hx]].
      assert (Z : ((a - m) * (a - m) = 0)%R) by lra.
      apply Rmult_integral in Z. lra.
    + intro H. rewrite (proj2 IH) by (intros; apply H; right; assumption).
      rewrite (H a (or_introl eq_refl)). lra.
Qed.

(** The standard deviation as numpy computes it, with the mean at hand. *)
Lemma np_std_ok (l : list R) (m : R) :
  l <> [] -> np_mean l = Ok m ->
  np_std l = Ok (sqrt (np_sum (map (fun x => (x - m) * (x - m))%R l) / INR (length l))).
Proof.
  intros Hne Hm. unfold np_std. rewrite Hm. simpl.
  rewrite np_mean_ok by (destruct l; [contradiction | discriminate]).
  simpl. rewrite length_map.
  rewrite (map_ext _ (fun x => (x - m) * (x - m))%R)
    by (intro x; apply Rabs_square).
  reflexivity.
Qed.

(** Centring does not change the standard deviation. *)
Lemma np_std_centered (l : list R) (m : R) :
  l <> [] -> np_mean l = Ok m ->
  np_std (map (fun x => x - m)%R l) = np_std l.
Proof.
  intros Hne Hm. rewrite (np_std_ok l m Hne Hm).
  assert (Hc : map (fun x => x - m)%R l <> []) by (destruct l; [contradiction | discriminate]).
  rewrite (np_std_ok _ 0%R Hc).
  - rewrite map_map, length_map.
    rewrite (map_ext _ (fun x => (x - m) * (x - m))%R)
      by (intro x; lra).
    reflexivity.
  - rewrite np_mean_ok by exact Hc. f_equal.
    rewrite np_sum_centered, length_map.
    rewrite np_mean_ok in Hm by exact Hne. injection Hm as <-.
    field. apply INR_length_neq_0, Hne.
Qed.

Lemma np_std_zero_iff (l : list R) (m s : R) :
  l <> [] -> np_mean l = Ok m -> np_std l = Ok s ->
  s = 0%R <-> (forall x, In x l -> x = m).
Proof.
  intros Hne Hm Hs. rewrite (np_std_ok l m Hne Hm) in Hs. injection Hs as <-.
  assert (N := np_sum_squares_nonneg l m).
  assert (P : (0 < INR (length l))%R).
  { apply lt_0_INR. destruct l; [contradiction | simpl; lia]. }
  rewrite <- np_sum_squares_zero. split.
  - intro H. apply sqrt_eq_0 in H.
    + apply (Rmult_eq_compat_r (INR (length l))) in H.
      unfold Rdiv in H. rewrite Rmult_assoc, Rinv_l, Rmult_1_r, Rmult_0_l in H by lra.
      exact H.
    + apply Rmult_le_pos; [exact N |]. apply Rlt_le, Rinv_0_lt_compat, P.
  - intros ->. unfold Rdiv. rewrite Rmult_0_l. apply sqrt_0.
Qed.

Lemma divide_all_ok (l : list R) (s : R) :
  s <> 0%R ->
  mapM (fun x => np_true_divide x s) l = Ok (map (fun x => x / s)%R l).
Proof.
  intro H. apply mapM_ok. intros a _. unfold np_true_divide.
  destruct (Req_dec_T s 0); [contradiction | reflexivity].
Qed.

Lemma divide_by_zero (l : list R) :
  l <> [] -> mapM (fun x => np_true_divide x 0) l = NotReal.
Proof.
  destruct l as [| a l]; intro H; [contradiction |]. simpl.
  unfold np_true_divide. destruct (Req_dec_T 0 0) as [_ | N]; [reflexivity |].
  exfalso. apply N. reflexivity.
Qed.

Lemma normalize_not_constant (values : list R) :
  (exists x y, In x values /\ In y values /\ x <> y) ->
  exists mean std,
    np_mean values = Ok mean /\ np_std values = Ok std /\ std <> 0%R
    /\ normalize values = Ok (map (fun x => (x - mean) / std)%R values, mean, std)
    /\ forall test,
         normalize_test test mean std = Ok (map (fun x => (x - mean) / std)%R test).
Proof.
  intros [x [y [Hx [Hy Hxy]]]].
  assert (Hne : values <> []) by (intros ->; destruct Hx).
  assert (Hm := np_mean_ok values Hne).
  assert (Hs := np_std_ok values _ Hne Hm).
  assert (Hnz : sqrt (np_sum (map (fun x => (x - np_sum values / INR (length values))
                                            * (x - np_sum values / INR (length values)))%R
                                  values) / INR (length values)) <> 0%R).
  { intro Hz. pose proof (proj1 (np_std_zero_iff values _ _ Hne Hm Hs) Hz) as Q.
    apply Hxy. rewrite (Q x Hx), (Q y Hy). reflexivity. }
  eexists. eexists. split; [exact Hm |]. split; [exact Hs |]. split; [exact Hnz |].
  split.
  - unfold normalize. rewrite Hm. simpl.
    rewrite (np_std_centered values _ Hne Hm), Hs. simpl.
    rewrite divide_all_ok by exact Hnz. simpl. rewrite map_map. reflexivity.
  - intro test. unfold normalize_test.
    rewrite divide_all_ok by exact Hnz. simpl. rewrite map_map. reflexivity.
Qed.

Lemma normalize_constant (values : list R) :
  values <> [] -> (forall x y, In x values -> In y values -> x = y) ->
  exists mean, np_mean values = Ok mean /\ np_std values = Ok 0%R
    /\ normalize values = NotReal.
Proof.
  intros Hne Heq.
  assert (Hm := np_mean_ok values Hne).
  assert (Hs := np_std_ok values _ Hne Hm).
  assert (Hall : forall x, In x values -> x = (np_sum values / INR (length values))%R).
  { destruct values as [| c rest] eqn:E; [contradiction |]. rewrite <- E in *.
    assert (Hc : forall x, In x values -> x = c).
    { intros x Hx. apply Heq; [exact Hx | rewrite E; left; reflexivity]. }
    intros x Hx. rewrite (np_sum_constant values c Hc), (Hc x Hx).
    field. apply INR_length_neq_0. rewrite E. discriminate. }
  pose proof (proj2 (np_std_zero_iff values _ _ Hne Hm Hs) Hall) as Hz.
  rewrite Hz in Hs.
  eexists. split; [exact Hm |]. split; [exact Hs |].
  unfold normalize. rewrite Hm. simpl.
  rewrite (np_std_centered values _ Hne Hm), Hs. simpl.
  rewrite divide_by_zero; [reflexivity |].
  destruct values; [contradiction | discriminate].
Qed.

(** C9: when the training values are not all equal, their standard deviation
    is not zero, [normalize] returns [((x - mean) / std, mean, std)] and
    [normalize_test] returns [(x - mean) / std] with the training mean and
    standard deviation, every division being defined. For a constant
    training input the standard deviation is zero and nothing stands between
    it and the division: the result leaves the real numbers. *)
Theorem normalize_divides_by_std (values : list R) :
  ((exists x y, In x values /\ In y values /\ x <> y) ->
   exists mean std,
     np_mean values = Ok mean /\ np_std values = Ok std /\ std <> 0%R
     /\ normalize values = Ok (map (fun x => (x - mean) / std)%R values, mean, std)
     /\ forall test,
          normalize_test test mean std = Ok (map (fun x => (x - mean) / std)%R test))
  /\ (values <> [] -> (forall x y, In x values -> In y values -> x = y) ->
      exists mean, np_mean values = Ok mean /\ np_std values = Ok 0%R
        /\ normalize values = NotReal
        /\ forall test, test <> [] -> normalize_test test mean 0 = NotReal).
Proof.
  split.
  - apply normalize_not_constant.
  - intros Hne Heq.
    destruct (normalize_constant values Hne Heq) as [mean [Hm [Hs Hn]]].
    exists mean. split; [exact Hm |]. split; [exact Hs |]. split; [exact Hn |].
    intros test Ht. unfold normalize_test.
    rewrite divide_by_zero; [reflexivity |].
    destruct test; [contradiction | discriminate].
Qed.

Lemma normalize_divides_by_std_witness :
  (exists mean std, normalize [1%R; 3%R] = Ok (map (fun x => (x - mean) / std)%R [1%R; 3%R], mean, std)
                    /\ std <> 0%R)
  /\ normalize [2%R; 2%R] = NotReal.
Proof.
  split.
  - destruct (proj1 (normalize_divides_by_std [1%R; 3%R])) as [mean [std [_ [_ [N [E _]]]]]].
    + exists 1%R, 3%R. simpl. split; [auto |]. split; [auto | lra].
    + exists mean, std. split; [exact E | exact N].
  - destruct (proj2 (normalize_divides_by_std [2%R; 2%R])) as [mean [_ [_ [E _]]]].
    + discriminate.
    + intros x y [<- | [<- | []]] [<- | [<- | []]]; reflexivity.
    + exact E.
Defined.

(** ** Runs of the notebook *)

Lemma create_sequences_shape {A : Type} (values : list A) (ts : Z) :
  (0 <= ts)%Z -> (ts < len values)%Z ->
  exists x, create_sequences values ts = Ok x
    /\ has_shape3 x (Z.to_nat (len values - ts)) (Z.to_nat ts) 1 = true.
Proof.
  intros H0 H1. eexists. split; [apply create_sequences_ok; assumption |].
  unfold has_shape3. rewrite length_map, py_range_length.
  replace (Z.to_nat (len values - ts - 0)) with (Z.to_nat (len values - ts)) by lia.
  rewrite Nat.eqb_refl. simpl.
  apply forallb_forall. intros w Hw. apply in_map_iff in Hw.
  destruct Hw as [i [<- Hi]]. apply py_range_In in Hi.
  unfold expand. rewrite length_map, py_slice_window_length by lia.
  rewrite Nat.eqb_refl. simpl.
  apply forallb_forall. intros c Hc. apply in_map_iff in Hc.
  destruct Hc as [v [<- _]]. reflexivity.
Qed.

Lemma create_sequences_nonempty {A : Type} (values : list A) (ts : Z)
  (x : list (list (list A))) :
  create_sequences values ts = Ok x -> x <> [].
Proof.
  unfold create_sequences, np_expand_dims_axis2.
  destruct (map _ _) as [| r rs]; [discriminate |].
  destruct (forallb _ rs); [| discriminate].
  intro H. injection H as <-. discriminate.
Qed.

Lemma py_getitem_first {A : Type} (l : list A) :
  l <> [] -> exists a, py_getitem l 0 = Ok a.
Proof.
  destruct l as [| a l]; intro H; [contradiction |].
  exists a. reflexivity.
Qed.

Lemma concat_map_singleton {A B : Type} (f : A -> B) (l : list A) :
  concat (map (fun a => [f a]) l) = map f l.
Proof.
  induction l as [| a l IH]; simpl; [reflexivity | rewrite IH; reflexivity].
Qed.

Lemma mae_loss_length (pred x : tensor3) (m w : nat) :
  w <> 0%nat ->
  has_shape3 pred m w 1 = true ->
  has_shape3 x m w 1 = true ->
  exists loss, mae_loss pred x = Ok loss /\ length (concat loss) = m.
Proof.
  intros Hw Sp Sx. eexists.
  split; [apply (mae_loss_same_shape pred x m w); assumption |].
  rewrite (concat_map_singleton
             (fun ab => spec_mae (feature0 (fst ab)) (feature0 (snd ab)))).
  apply has_shape3_spec in Sp. apply has_shape3_spec in Sx.
  rewrite length_map, length_combine. lia.
Qed.

Lemma has_shape3_length {A : Type} (t : list (list (list A))) (m w f : nat) :
  has_shape3 t m w f = true -> length t = m.
Proof. intro H. apply has_shape3_spec in H. apply H. Qed.

Lemma has_shape3_shape3 {A : Type} (t : list (list (list A))) (m w f : nat) :
  m <> 0%nat -> w <> 0%nat -> has_shape3 t m w f = true -> shape3 t = (m, w, f).
Proof.
  intros Hm Hw H. apply has_shape3_spec in H. destruct H as [L S].
  destruct t as [| s t]; [simpl in L; lia |].
  destruct (S s (or_introl eq_refl)) as [Ls Lc].
  destruct s as [| c s]; [simpl in Ls; lia |].
  unfold shape3. simpl nth. rewrite L, Ls, (Lc c (or_introl eq_refl)). reflexivity.
Qed.

Lemma mapM_length {A B : Type} (f : A -> outcome B) (l : list A) :
  forall bs, mapM f l = Ok bs -> length bs = length l.
Proof.
  induction l as [| a l IH]; simpl; intros bs H.
  - injection H as <-. reflexivity.
  - destruct (f a) as [b | |]; try discriminate. simpl in H.
    destruct (mapM f l) as [bs' | |]; try discriminate. simpl in H.
    injection H as <-. simpl. rewrite (IH bs' eq_refl). reflexivity.
Qed.

Lemma mapM_total_on {A B : Type} (f : A -> outcome B) (l : list A) :
  (forall a, In a l -> exists b, f a = Ok b) -> exists bs, mapM f l = Ok bs.
Proof.
  induction l as [| a l IH]; simpl; intro H.
  - exists []. reflexivity.
  - destruct (H a (or_introl eq_refl)) as [b Hb].
    destruct IH as [bs Hbs]; [intros q Hq; apply H; right; exact Hq |].
    exists (b :: bs). rewrite Hb. simpl. rewrite Hbs. reflexivity.
Qed.

Lemma mapM_first_raise {A B : Type} (f : A -> outcome B)
  (pre post : list A) (a : A) (x : exn) :
  (forall q, In q pre -> exists b, f q = Ok b) ->
  f a = Raise x ->
  mapM f (pre ++ a :: post) = Raise x.
Proof.
  intros Hpre Ha. induction pre as [| q pre IH]; simpl.
  - rewrite Ha. reflexivity.
  - destruct (Hpre q (or_introl eq_refl)) as [b ->]. simpl.
    rewrite IH by (intros; apply Hpre; right; assumption). reflexivity.
Qed.

Lemma iloc_rows_In {Row : Type} (df : list Row) (idxs : list Z) (rows : list Row) :
  Forall2 (fun i r => nth_error df (Z.to_nat i) = Some r) idxs rows ->
  forall r, In r rows -> In r df.
Proof.
  induction 1 as [| i r idxs rows H _ IH]; intros q Hq; [contradiction |].
  destruct Hq as [<- | Hq]; [| apply IH, Hq].
  apply nth_error_In in H. exact H.
Qed.


Section NotebookRuns.

Variable date : Type.
Variable net : Type.
Variable read_csv : string -> outcome (list row).
Variable strptime : string -> outcome date.
Variable Sequential : nat -> nat -> outcome net.
Variable fit : net -> tensor3 -> tensor3 -> outcome (net * (list R * list R)).
Variable predict : net -> tensor3 -> outcome tensor3.
Variable plt_show : figure date -> outcome unit.

Local Abbreviation nb := (notebook read_csv strptime Sequential fit predict plt_show).
Local Abbreviation run := (run_notebook read_csv strptime Sequential fit predict plt_show).
Local Abbreviation result A := (list (output date net) * env date net * outcome A)%type.

(** *** A failure ends what is sequenced after it *)




(** *** Running one statement forward *)

Lemma step_assoc {A B C : Type} (m : prog date net A) (k1 : A -> prog date net B)
  (k2 : B -> prog date net C) (e : env date net) (res : result C) :
  pbind m (fun a => pbind (k1 a) k2) e = res -> pbind (pbind m k1) k2 e = res.
Proof.
  intros <-. unfold pbind.
  destruct (m e) as [[l1 e1] [a | x |]]; try reflexivity.
  destruct (k1 a e1) as [[l2 e2] [b | x |]]; try reflexivity.
  destruct (k2 b e2) as [[l3 e3] r]. rewrite app_assoc. reflexivity.
Qed.

Lemma step_call {A B : Type} (o : outcome A) (a : A) (k : A -> prog date net B)
  (e : env date net) (res : result B) :
  o = Ok a -> k a e = res -> pbind (call o) k e = res.
Proof.
  intros -> <-. unfold pbind, call. destruct (k a e) as [[l e'] r]; reflexivity.
Qed.

Lemma step_call_raise {A B : Type} (o : outcome A) (x : exn)
  (k : A -> prog date net B) (e : env date net) :
  o = Raise x -> pbind (call o) k e = ([], e, Raise x).
Proof. intros ->. reflexivity. Qed.

Lemma step_assign {B : Type} (name : string) (v : pyval date net)
  (k : unit -> prog date net B) (e : env date net) (res : result B) :
  k tt (set_var name v e) = res -> pbind (assign name v) k e = res.
Proof.
  intros <-. unfold pbind, assign.
  destruct (k tt (set_var name v e)) as [[l e'] r]; reflexivity.
Qed.

Lemma step_print {B : Type} (label : string) (v : pyval date net)
  (k : unit -> prog date net B) (e e' : env date net)
  (l : list (output date net)) (r : outcome B) :
  k tt e = (l, e', r) -> pbind (print label v) k e = (Text label v :: l, e', r).
Proof. intro H. unfold pbind, print. rewrite H. reflexivity. Qed.

Lemma step_draw {B : Type} (f : figure date) (k : unit -> prog date net B)
  (e e' : env date net) (l : list (output date net)) (r : outcome B) :
  plt_show f = Ok tt ->
  k tt e = (l, e', r) -> pbind (draw plt_show f) k e = (Drawn f :: l, e', r).
Proof. intros P H. unfold pbind, draw. rewrite P, H. reflexivity. Qed.


Lemma step_plot {B : Type} (f : figure date) (k : unit -> prog date net B)
  (e : env date net) (res : result B) :
  plt_show f = Ok tt -> k tt e = res -> pbind (plot plt_show f) k e = res.
Proof.
  intros P <-. unfold pbind, plot. rewrite P.
  destruct (k tt e) as [[l e'] r]; reflexivity.
Qed.


Lemma step_then {A B : Type} (m : prog date net A) (k : A -> prog date net B)
  (e e1 : env date net) (a : A) (res : result B) :
  m e = ([], e1, Ok a) -> k a e1 = res -> pbind m k e = res.
Proof.
  intros H <-. unfold pbind. rewrite H.
  destruct (k a e1) as [[l e'] r]; reflexivity.
Qed.

Lemma step_history {B : Type} (name : string) (h1 h2 : list R)
  (k : list R * list R -> prog date net B) (e : env date net) (res : result B) :
  e name = Some (VHistory h1 h2) -> k (h1, h2) e = res ->
  pbind (history_of name) k e = res.
Proof.
  intros H <-. unfold history_of, pbind, var, ret. rewrite H.
  destruct (k (h1, h2) e) as [[l e'] r]; reflexivity.
Qed.

Lemma step_frame {B : Type} (name : string) (d : list row)
  (k : list row -> prog date net B) (e : env date net) (res : result B) :
  e name = Some (VFrame d) -> k d e = res -> pbind (frame name) k e = res.
Proof.
  intros H <-. unfold frame, pbind, var, ret. rewrite H.
  destruct (k d e) as [[l e'] r]; reflexivity.
Qed.

Lemma step_array {B : Type} (name : string) (d : list R)
  (k : list R -> prog date net B) (e : env date net) (res : result B) :
  e name = Some (VArray d) -> k d e = res -> pbind (array name) k e = res.
Proof.
  intros H <-. unfold array, pbind, var, ret. rewrite H.
  destruct (k d e) as [[l e'] r]; reflexivity.
Qed.

Lemma step_tensor {B : Type} (name : string) (d : tensor3)
  (k : tensor3 -> prog date net B) (e : env date net) (res : result B) :
  e name = Some (VTensor d) -> k d e = res -> pbind (tensor name) k e = res.
Proof.
  intros H <-. unfold tensor, pbind, var, ret. rewrite H.
  destruct (k d e) as [[l e'] r]; reflexivity.
Qed.

Lemma step_mat {B : Type} (name : string) (d : matrix)
  (k : matrix -> prog date net B) (e : env date net) (res : result B) :
  e name = Some (VMatrix d) -> k d e = res -> pbind (mat name) k e = res.
Proof.
  intros H <-. unfold mat, pbind, var, ret. rewrite H.
  destruct (k d e) as [[l e'] r]; reflexivity.
Qed.

Lemma step_float {B : Type} (name : string) (d : R)
  (k : R -> prog date net B) (e : env date net) (res : result B) :
  e name = Some (VFloat d) -> k d e = res -> pbind (float name) k e = res.
Proof.
  intros H <-. unfold float, pbind, var, ret. rewrite H.
  destruct (k d e) as [[l e'] r]; reflexivity.
Qed.

Lemma step_mask {B : Type} (name : string) (d : list bool)
  (k : list bool -> prog date net B) (e : env date net) (res : result B) :
  e name = Some (VMask d) -> k d e = res -> pbind (mask name) k e = res.
Proof.
  intros H <-. unfold mask, pbind, var, ret. rewrite H.
  destruct (k d e) as [[l e'] r]; reflexivity.
Qed.

Lemma step_indices {B : Type} (name : string) (d : list Z)
  (k : list Z -> prog date net B) (e : env date net) (res : result B) :
  e name = Some (VIndices d) -> k d e = res -> pbind (indices name) k e = res.
Proof.
  intros H <-. unfold indices, pbind, var, ret. rewrite H.
  destruct (k d e) as [[l e'] r]; reflexivity.
Qed.

Lemma step_model_of {B : Type} (name : string) (d : net)
  (k : net -> prog date net B) (e : env date net) (res : result B) :
  e name = Some (VModel d) -> k d e = res -> pbind (model_of name) k e = res.
Proof.
  intros H <-. unfold model_of, pbind, var, ret. rewrite H.
  destruct (k d e) as [[l e'] r]; reflexivity.
Qed.

Lemma step_strings {B : Type} (name : string) (d : list string)
  (k : list string -> prog date net B) (e : env date net) (res : result B) :
  e name = Some (VStrings d) -> k d e = res -> pbind (strings name) k e = res.
Proof.
  intros H <-. unfold strings, pbind, var, ret. rewrite H.
  destruct (k d e) as [[l e'] r]; reflexivity.
Qed.

Lemma step_dates_of {B : Type} (name : string) (d : list date)
  (k : list date -> prog date net B) (e : env date net) (res : result B) :
  e name = Some (VDates d) -> k d e = res -> pbind (dates_of name) k e = res.
Proof.
  intros H <-. unfold dates_of, pbind, var, ret. rewrite H.
  destruct (k d e) as [[l e'] r]; reflexivity.
Qed.

(** A cell on its own ends where the same cell followed by nothing ends. *)
Lemma step_last {A : Type} (m : prog date net A) (e : env date net) (res : result A) :
  pbind m ret e = res -> m e = res.
Proof.
  intros <-. unfold pbind, ret.
  destruct (m e) as [[l e'] [a | x |]]; try reflexivity.
  rewrite app_nil_r. reflexivity.
Qed.

Ltac lookup := first [reflexivity | eassumption].

Ltac forward_one drawing :=
  cbv beta; cbn [fst snd];
  lazymatch goal with
  | |- pbind (pbind _ _) _ _ = _ => apply step_assoc
  | |- pbind (call _) _ _ = _ => eapply step_call; [eassumption |]
  | |- pbind (assign _ _) _ _ = _ => apply step_assign
  | |- pbind (import _) _ _ = _ => apply step_assign
  | |- pbind (define _) _ _ = _ => apply step_assign
  | |- pbind (print _ _) _ _ = _ => apply step_print
  | |- pbind (draw _ _) _ _ = _ => eapply step_draw; [drawing |]
  | |- pbind (plot _ _) _ _ = _ => eapply step_plot; [drawing |]
  | |- pbind (frame _) _ _ = _ => eapply step_frame; [lookup |]
  | |- pbind (array _) _ _ = _ => eapply step_array; [lookup |]
  | |- pbind (tensor _) _ _ = _ => eapply step_tensor; [lookup |]
  | |- pbind (mat _) _ _ = _ => eapply step_mat; [lookup |]
  | |- pbind (float _) _ _ = _ => eapply step_float; [lookup |]
  | |- pbind (mask _) _ _ = _ => eapply step_mask; [lookup |]
  | |- pbind (indices _) _ _ = _ => eapply step_indices; [lookup |]
  | |- pbind (model_of _) _ _ = _ => eapply step_model_of; [lookup |]
  | |- pbind (history_of _) _ _ = _ => eapply step_history; [lookup |]
  | |- pbind (strings _) _ _ = _ => eapply step_strings; [lookup |]
  | |- pbind (dates_of _) _ _ = _ => eapply step_dates_of; [lookup |]
  end.

Ltac forward drawing := repeat (forward_one drawing).

(** *** Inversion of a statement that ended normally *)

Lemma pbind_ok_inv {A B : Type} (m : prog date net A) (k : A -> prog date net B)
  (e e' : env date net) (log : list (output date net)) (b : B) :
  pbind m k e = (log, e', Ok b) ->
  exists l1 a e1 l2,
    m e = (l1, e1, Ok a) /\ k a e1 = (l2, e', Ok b) /\ log = (l1 ++ l2)%list.
Proof.
  unfold pbind. destruct (m e) as [[l1 e1] [a | y |]]; try discriminate.
  destruct (k a e1) as [[l2 e2] r] eqn:E. intro H. injection H as <- <- ->.
  exists l1, a, e1, l2. split; [reflexivity |]. split; [exact E | reflexivity].
Qed.

Lemma var_ok_inv (name : string) (e e' : env date net)
  (log : list (output date net)) (v : pyval date net) :
  var name e = (log, e', Ok v) -> e name = Some v /\ e' = e /\ log = [].
Proof.
  unfold var. destruct (e name) as [w |]; intro H; [| discriminate].
  injection H as <- <- <-. repeat split.
Qed.

Lemma call_ok_inv {A : Type} (o : outcome A) (e e' : env date net)
  (log : list (output date net)) (a : A) :
  call o e = (log, e', Ok a) -> o = Ok a /\ e' = e /\ log = [].
Proof.
  unfold call. intro H. injection H as <- <- ->. repeat split.
Qed.

Lemma plot_ok_inv (f : figure date) (e e' : env date net)
  (log : list (output date net)) (u : unit) :
  plot plt_show f e = (log, e', Ok u) -> e' = e.
Proof.
  unfold plot. destruct (plt_show f); intro H; try discriminate.
  injection H as _ <- _. reflexivity.
Qed.

Lemma draw_ok_inv (f : figure date) (e e' : env date net)
  (log : list (output date net)) (u : unit) :
  draw plt_show f e = (log, e', Ok u) -> e' = e.
Proof.
  unfold draw. destruct (plt_show f); intro H; try discriminate.
  injection H as _ <- _. reflexivity.
Qed.

Lemma exec_cons_ok (c : prog date net unit) (cs : list (prog date net unit))
  (e e' : env date net) (log : list (output date net)) :
  exec (c :: cs) e = (log, e', Ok tt) ->
  exists l1 e1 l2, c e = (l1, e1, Ok tt) /\ exec cs e1 = (l2, e', Ok tt).
Proof.
  simpl. intro H. apply pbind_ok_inv in H.
  destruct H as [l1 [[] [e1 [l2 [H1 [H2 _]]]]]].
  exists l1, e1, l2. split; assumption.
Qed.

Ltac invert_statement H :=
  match type of H with
  | pbind _ _ _ = (_, _, Ok _) =>
      let l1 := fresh "l" in let a := fresh "a" in let e1 := fresh "e" in
      let l2 := fresh "l" in let H1 := fresh "S" in let H2 := fresh "K" in
      apply pbind_ok_inv in H;
      destruct H as [l1 [a [e1 [l2 [H1 [H2 _]]]]]];
      cbv beta in H2; invert_statement H1; invert_statement H2
  | var _ _ = (_, _, Ok _) =>
      apply var_ok_inv in H; destruct H as [H [-> _]]
  | call _ _ = (_, _, Ok _) =>
      apply call_ok_inv in H; destruct H as [H [-> _]]
  | draw _ _ _ = (_, _, Ok _) =>
      apply draw_ok_inv in H; subst
  | plot _ _ _ = (_, _, Ok _) =>
      apply plot_ok_inv in H; subst
  | assign _ _ _ = (_, _, Ok _) =>
      unfold assign in H; injection H as _ <-
  | define _ _ = (_, _, Ok _) =>
      unfold define, assign in H; injection H as _ <-
  | import _ _ = (_, _, Ok _) =>
      unfold import, assign in H; injection H as _ <-
  | print _ _ _ = (_, _, Ok _) =>
      unfold print in H; injection H as _ <-
  | ret _ _ = (_, _, Ok _) =>
      unfold ret in H; injection H as _ <- <-
  | (match ?v with _ => _ end) _ = (_, _, Ok _) =>
      destruct v; try discriminate H; invert_statement H
  | raise _ _ = (_, _, Ok _) => discriminate H
  | _ => idtac
  end.

Ltac lookups :=
  cbn in *;
  repeat match goal with
         | H : Some _ = Some _ |- _ => injection H as H; subst
         end.

(** *** The names a statement binds *)

Lemma preserves_ret {A : Type} (names : list string) (a : A) :
  preserves names (@ret date net A a).
Proof. intros e log e' r H name _. unfold ret in H. injection H as _ <- _. reflexivity. Qed.

Lemma preserves_raise {A : Type} (names : list string) (x : exn) :
  preserves names (@raise date net A x).
Proof. intros e log e' r H name _. unfold raise in H. injection H as _ <- _. reflexivity. Qed.

Lemma preserves_call {A : Type} (names : list string) (o : outcome A) :
  preserves names (@call date net A o).
Proof. intros e log e' r H name _. unfold call in H. injection H as _ <- _. reflexivity. Qed.

Lemma preserves_print (names : list string) (label : string) (v : pyval date net) :
  preserves names (print label v).
Proof. intros e log e' r H name _. unfold print in H. injection H as _ <- _. reflexivity. Qed.

Lemma preserves_draw (names : list string) (f : figure date) :
  preserves names (@draw date net plt_show f).
Proof.
  intros e log e' r H name _. unfold draw in H.
  destruct (plt_show f); injection H as _ <- _; reflexivity.
Qed.

Lemma preserves_plot (names : list string) (f : figure date) :
  preserves names (@plot date net plt_show f).
Proof.
  intros e log e' r H name _. unfold plot in H.
  destruct (plt_show f); injection H as _ <- _; reflexivity.
Qed.

Lemma preserves_var (names : list string) (n : string) :
  preserves names (@var date net n).
Proof.
  intros e log e' r H name _. unfold var in H.
  destruct (e n); injection H as _ <- _; reflexivity.
Qed.

Lemma preserves_assign (names : list string) (n : string) (v : pyval date net) :
  In n names -> preserves names (assign n v).
Proof.
  intros I e log e' r H name N. unfold assign in H. injection H as _ <- _.
  unfold set_var. destruct (String.eqb_spec name n) as [-> | _]; [contradiction | reflexivity].
Qed.

Lemma preserves_bind {A B : Type} (names : list string)
  (m : prog date net A) (k : A -> prog date net B) :
  preserves names m -> (forall a, preserves names (k a)) ->
  preserves names (pbind m k).
Proof.
  intros Pm Pk e log e' r H name N. unfold pbind in H.
  destruct (m e) as [[l1 e1] [a | x |]] eqn:E.
  - destruct (k a e1) as [[l2 e2] r2] eqn:E2. injection H as _ <- _.
    rewrite (Pk a e1 l2 e2 r2 E2 name N). apply (Pm e l1 e1 _ E name N).
  - injection H as _ <- _. apply (Pm e l1 e1 _ E name N).
  - injection H as _ <- _. apply (Pm e l1 e1 _ E name N).
Qed.

Lemma preserves_for_each {A : Type} (names : list string)
  (body : A -> prog date net unit) (l : list A) :
  (forall a, preserves names (body a)) -> preserves names (for_each l body).
Proof.
  intro Pb. induction l as [| a l IH]; simpl.
  - apply preserves_ret.
  - apply preserves_bind; [apply Pb | intros _; exact IH].
Qed.

Ltac in_names := simpl; repeat first [left; reflexivity | right].

Ltac preserves_step :=
  first
    [ apply preserves_bind; [| intro]
    | apply preserves_ret
    | apply preserves_raise
    | apply preserves_call
    | apply preserves_print
    | apply preserves_draw
    | apply preserves_plot
    | apply preserves_var
    | apply preserves_assign; in_names
    | unfold define; apply preserves_assign; in_names
    | match goal with
      | |- preserves _ (if ?c then _ else _) => destruct c
      | |- preserves _ (match ?v with _ => _ end) => destruct v
      end ].

(** One turn of the loop binds the loop variable and [time_series], and
    appends to the list or leaves it. *)
Lemma reduce_step_preserves (d : Z) :
  preserves ["anomalous_data_indices"; "data_idx"; "time_series"]%string
            (@reduce_step date net d).
Proof.
  unfold reduce_step. repeat preserves_step.
Qed.

Lemma cell_reduce_preserves :
  preserves ["anomalous_data_indices"; "data_idx"; "time_series"]%string
            (@cell_reduce date net).
Proof.
  unfold cell_reduce. repeat preserves_step.
  apply preserves_for_each. exact reduce_step_preserves.
Qed.

Lemma cell_test_preserves :
  preserves ["normalize_test"; "test_value"; "x_test"; "x_test_pred";
             "test_mae_loss"; "anomalies"]%string
            (cell_test predict plt_show).
Proof. unfold cell_test. repeat preserves_step. Qed.

Lemma cell_overlay_preserves :
  preserves ["df_subset"; "ax"; "xfmt"; "dates"; "values"]%string
            (@cell_overlay date net strptime plt_show).
Proof. unfold cell_overlay. repeat preserves_step. Qed.

Lemma cell_compare_preserves :
  preserves [] (@cell_compare date net plt_show).
Proof. unfold cell_compare. repeat preserves_step. Qed.

(** *** The loop over the data indices *)

Lemma reduce_step_ok (a : list bool) (acc : list Z) (d : Z) (flags : list bool)
  (e : env date net) :
  e "anomalies"%string = Some (VMask a) ->
  e "anomalous_data_indices"%string = Some (VIndices acc) ->
  mapM (py_getitem a) (py_range (d - TIME_STEPS + 1) d) = Ok flags ->
  exists e',
    reduce_step d e = ([], e', Ok tt)
    /\ e' "anomalies"%string = Some (VMask a)
    /\ e' "anomalous_data_indices"%string
       = Some (VIndices (if forallb (fun b => b) flags then acc ++ [d] else acc)).
Proof.
  intros Ha Hl Hf. unfold reduce_step.
  destruct (forallb (fun b => b) flags) eqn:F.
  - eexists. split; [| split].
    + forward idtac. rewrite F.
      apply step_last. forward idtac. reflexivity.
    + cbn. exact Ha.
    + reflexivity.
  - eexists. split; [| split].
    + forward idtac. rewrite F. reflexivity.
    + cbn. exact Ha.
    + cbn. exact Hl.
Qed.


Lemma reduce_loop_ok (a : list bool) (idxs : list Z) :
  forall (acc l : list Z) (e : env date net),
    e "anomalies"%string = Some (VMask a) ->
    e "anomalous_data_indices"%string = Some (VIndices acc) ->
    anomalous_loop a idxs acc = Ok l ->
    exists e',
      for_each idxs reduce_step e = ([], e', Ok tt)
      /\ e' "anomalous_data_indices"%string = Some (VIndices l).
Proof.
  induction idxs as [| d idxs IH]; intros acc l e Ha Hl H; simpl in H.
  - injection H as <-. exists e. split; [reflexivity | exact Hl].
  - destruct (mapM (py_getitem a) (py_range (d - TIME_STEPS + 1) d))
      as [flags | |] eqn:F; try discriminate.
    simpl in H.
    destruct (reduce_step_ok a acc d flags e Ha Hl F) as [e1 [S1 [Ha1 Hl1]]].
    destruct (IH _ l e1 Ha1 Hl1 H) as [e' [S' Hl']].
    exists e'. split; [| exact Hl'].
    simpl. apply (step_then _ _ e e1 tt); assumption.
Qed.


(** *** Cells that ended normally *)

Ltac not_bound :=
  let H := fresh in
  simpl; intro H; repeat (destruct H as [H | H]; [discriminate H |]); exact H.

Lemma cell_threshold_ok_inv (e e' : env date net) (log : list (output date net)) :
  cell_threshold predict plt_show e = (log, e', Ok tt) ->
  exists train_mae_loss t,
    threshold train_mae_loss = Ok t
    /\ e' "threshold"%string = Some (VFloat t)
    /\ e' "train_mae_loss"%string = Some (VMatrix train_mae_loss).
Proof.
  intro H. unfold cell_threshold, model_of, tensor in H.
  invert_statement H. subst.
  eexists. eexists. split; [eassumption |]. split; reflexivity.
Qed.

Lemma cell_test_ok_inv (e e' : env date net) (log : list (output date net)) :
  cell_test predict plt_show e = (log, e', Ok tt) ->
  exists test_mae_loss t,
    e "threshold"%string = Some (VFloat t)
    /\ e' "threshold"%string = e "threshold"%string
    /\ e' "train_mae_loss"%string = e "train_mae_loss"%string
    /\ e' "test_mae_loss"%string = Some (VArray test_mae_loss)
    /\ e' "anomalies"%string = Some (VMask (anomalies test_mae_loss t)).
Proof.
  intro H.
  unfold cell_test, frame, array, mat, float, mask, model_of in H.
  invert_statement H. subst. lookups.
  eexists. eexists. split; [eassumption |]. repeat split.
Qed.

(** A notebook that ran to its end classified the test windows against the
    maximum of the training losses. *)
Lemma completed_run_classifies (log : list (output date net)) (ef : env date net) :
  run = (log, ef, Ok tt) ->
  exists train_mae_loss test_mae_loss t,
    ef "train_mae_loss"%string = Some (VMatrix train_mae_loss)
    /\ threshold train_mae_loss = Ok t
    /\ ef "threshold"%string = Some (VFloat t)
    /\ ef "test_mae_loss"%string = Some (VArray test_mae_loss)
    /\ ef "anomalies"%string = Some (VMask (anomalies test_mae_loss t)).
Proof.
  unfold run_notebook, notebook. intro H.
  do 11 (apply exec_cons_ok in H; destruct H as [? [? [? [_ H]]]]).
  apply exec_cons_ok in H. destruct H as [? [e10 [? [Hth H]]]].
  apply exec_cons_ok in H. destruct H as [? [e11 [? [Hcmp H]]]].
  apply exec_cons_ok in H. destruct H as [? [e12 [? [Htest H]]]].
  apply exec_cons_ok in H. destruct H as [? [e13 [? [Hred H]]]].
  apply exec_cons_ok in H. destruct H as [? [e14 [? [Hov H]]]].
  simpl in H. unfold ret in H. injection H as _ <-.
  apply cell_threshold_ok_inv in Hth. destruct Hth as [train [t [Et [Vt Vl]]]].
  pose proof (fun n N => cell_compare_preserves _ _ _ _ Hcmp n N) as C.
  apply cell_test_ok_inv in Htest.
  destruct Htest as [test [t' [Vt' [Pt [Pl [Vtest Va]]]]]].
  rewrite (C "threshold"%string) in Vt' by not_bound.
  rewrite Vt in Vt'. injection Vt' as <-.
  pose proof (fun n N => cell_reduce_preserves _ _ _ _ Hred n N) as Rd.
  pose proof (fun n N => cell_overlay_preserves _ _ _ _ Hov n N) as Ov.
  exists train, test, t.
  rewrite !Ov by not_bound. rewrite !Rd by not_bound.
  rewrite Pt, Pl. rewrite !C by not_bound.
  repeat split; assumption.
Qed.

(** C3: for a non-empty array of training losses the threshold is their
    maximum: every sample's loss is at most the threshold, and the threshold
    is the loss of some sample. A notebook that ran to its end holds such a
    threshold for the training losses it holds. *)
Theorem threshold_is_max_train_loss :
  (forall train_mae_loss : matrix,
     concat train_mae_loss <> [] ->
     exists t, threshold train_mae_loss = Ok t
       /\ (forall sample l, In sample train_mae_loss -> In l sample -> (l <= t)%R)
       /\ (exists sample, In sample train_mae_loss /\ In t sample))
  /\ (forall (log : list (output date net)) (ef : env date net),
        run = (log, ef, Ok tt) ->
        exists train_mae_loss t,
          ef "train_mae_loss"%string = Some (VMatrix train_mae_loss)
          /\ ef "threshold"%string = Some (VFloat t)
          /\ (forall sample l, In sample train_mae_loss -> In l sample -> (l <= t)%R)
          /\ (exists sample, In sample train_mae_loss /\ In t sample)).
Proof.
  split.
  - intros train H. destruct (np_max_spec train H) as [t [E [U I]]].
    exists t. split; [exact E |]. split.
    + intros sample l Hs Hl. apply U. apply In_concat_row with sample; assumption.
    + apply in_concat in I. destruct I as [sample [Hs Ht]].
      exists sample. split; assumption.
  - intros log ef H. apply completed_run_classifies in H.
    destruct H as [train [test [t [Vl [Et [Vt _]]]]]].
    apply np_max_ok_inv in Et. destruct Et as [U I].
    exists train, t. split; [exact Vl |]. split; [exact Vt |]. split.
    + intros sample l Hs Hl. apply U. apply In_concat_row with sample; assumption.
    + apply in_concat in I. destruct I as [sample [Hs Ht]].
      exists sample. split; assumption.
Qed.

(** C4: a test window is marked anomalous exactly when its loss is strictly
    greater than the threshold, the maximum of the training losses. In the
    notebook the classifying cell takes the threshold from the namespace as
    the earlier cell left it, and a run that reaches its end holds the mask
    computed from the test losses and that threshold alone. *)
Theorem anomalies_iff_loss_above_threshold :
  (forall train_mae_loss test_mae_loss : matrix,
     concat train_mae_loss <> [] ->
     exists t, threshold train_mae_loss = Ok t
       /\ In t (concat train_mae_loss)
       /\ length (anomalies (concat test_mae_loss) t) = length (concat test_mae_loss)
       /\ forall k, (k < length (concat test_mae_loss))%nat ->
            (nth k (anomalies (concat test_mae_loss) t) false = true
             <-> (nth k (concat test_mae_loss) 0 > t)%R))
  /\ (forall (e e' : env date net) (log : list (output date net)),
        cell_test predict plt_show e = (log, e', Ok tt) ->
        exists test_mae_loss t,
          e "threshold"%string = Some (VFloat t)
          /\ e' "test_mae_loss"%string = Some (VArray test_mae_loss)
          /\ e' "anomalies"%string = Some (VMask (anomalies test_mae_loss t)))
  /\ (forall (log : list (output date net)) (ef : env date net),
        run = (log, ef, Ok tt) ->
        exists train_mae_loss test_mae_loss t,
          ef "train_mae_loss"%string = Some (VMatrix train_mae_loss)
          /\ threshold train_mae_loss = Ok t
          /\ ef "test_mae_loss"%string = Some (VArray test_mae_loss)
          /\ ef "anomalies"%string = Some (VMask (anomalies test_mae_loss t))
          /\ forall k, (k < length test_mae_loss)%nat ->
               (nth k (anomalies test_mae_loss t) false = true
                <-> (nth k test_mae_loss 0 > t)%R)).
Proof.
  split; [| split].
  - intros train test H. destruct (np_max_spec train H) as [t [E [_ I]]].
    exists t. split; [exact E |]. split; [exact I |].
    split; [apply length_map |].
    intros k Hk. apply anomalies_nth, Hk.
  - intros e e' log H. apply cell_test_ok_inv in H.
    destruct H as [test [t [Vt [_ [_ [Vl Va]]]]]].
    exists test, t. repeat split; assumption.
  - intros log ef H. apply completed_run_classifies in H.
    destruct H as [train [test [t [Vl [Et [_ [Vtest Va]]]]]]].
    exists train, test, t. repeat split; try assumption;
      apply anomalies_nth; assumption.
Qed.

(** *** Cells that raise *)






(** *** What a cell leaves bound *)

Lemma pbind_assign_inv {B : Type} (name : string) (v : pyval date net)
  (k : unit -> prog date net B) (e : env date net) (res : result B) :
  pbind (assign name v) k e = res -> k tt (set_var name v e) = res.
Proof.
  intros <-. unfold pbind, assign.
  destruct (k tt (set_var name v e)) as [[l e'] r]; reflexivity.
Qed.

(** X17: the cell that prepares and classifies the test data binds
    [normalize_test], [test_value], [x_test], [x_test_pred], [test_mae_loss]
    and [anomalies] and nothing else: however it ends, every other name of
    the namespace, the threshold, the training mean and standard deviation
    and the model among them, is bound as before, and [normalize_test] is
    bound to the function the cell defines. *)
Theorem cell_test_keeps_training_state (e e' : env date net)
  (log : list (output date net)) (r : outcome unit) :
  cell_test predict plt_show e = (log, e', r) ->
  e' "normalize_test"%string = Some (VFunction "normalize_test")
  /\ forall name : string,
       name <> "normalize_test"%string -> name <> "test_value"%string ->
       name <> "x_test"%string -> name <> "x_test_pred"%string ->
       name <> "test_mae_loss"%string -> name <> "anomalies"%string ->
       e' name = e name.
Proof.
  intro H. split.
  - unfold cell_test, define in H. apply pbind_assign_inv in H. cbv beta in H.
    match type of H with
    | ?p _ = _ =>
        assert (P : preserves ["test_value"; "x_test"; "x_test_pred";
                               "test_mae_loss"; "anomalies"]%string p)
          by (repeat preserves_step)
    end.
    rewrite (P _ _ _ _ H "normalize_test"%string) by not_bound.
    reflexivity.
  - intros name N0 N1 N2 N3 N4 N5.
    apply (cell_test_preserves _ _ _ _ H). simpl.
    intros [E | [E | [E | [E | [E | [E | F]]]]]];
      [apply N0 | apply N1 | apply N2 | apply N3 | apply N4 | apply N5 | exact F];
      symmetry; exact E.
Qed.

(** *** Runs that reach the end *)

Lemma exec_app (cs1 cs2 : list (prog date net unit)) :
  forall (e e1 e2 : env date net) (log1 log2 : list (output date net))
         (r : outcome unit),
    exec cs1 e = (log1, e1, Ok tt) ->
    exec cs2 e1 = (log2, e2, r) ->
    exec (cs1 ++ cs2) e = ((log1 ++ log2)%list, e2, r).
Proof.
  induction cs1 as [| c cs1 IH]; intros e e1 e2 log1 log2 r H1 H2.
  - simpl in H1. unfold ret in H1. injection H1 as <- <-. exact H2.
  - simpl in H1. simpl. unfold pbind in *.
    destruct (c e) as [[l0 e0] [u | y |]]; try discriminate.
    destruct (exec cs1 e0) as [[l1 e1'] r1] eqn:E1.
    injection H1 as <- <- ->.
    rewrite (IH e0 e1' e2 l1 log2 r E1 H2).
    rewrite app_assoc. reflexivity.
Qed.

Lemma exec_one (c : prog date net unit) (e e' : env date net)
  (log : list (output date net)) (r : outcome unit) :
  c e = (log, e', r) -> exec [c] e = (log, e', r).
Proof.
  intro H. simpl. unfold pbind, ret. rewrite H.
  destruct r as [[] | x |]; try reflexivity.
  rewrite app_nil_r. reflexivity.
Qed.

Ltac cells :=
  unfold cell_imports, cell_load, cell_head, cell_def_plot,
    cell_plot_small_noise, cell_plot_jumpsup, cell_normalize, cell_sequences,
    cell_model, cell_fit, cell_history, cell_threshold, cell_compare,
    cell_test, cell_overlay, plot_dates_values.

(** The cells up to the training of the model. *)
Lemma training_completes (df1 df2 : list row) (mdl : net) :
  read_csv df_small_noise_url = Ok df1 ->
  read_csv df_daily_jumpsup_url = Ok df2 ->
  (forall r, In r df1 -> exists d, strptime (timestamp r) = Ok d) ->
  (forall r, In r df2 -> exists d, strptime (timestamp r) = Ok d) ->
  (forall f, figure_ok f = true -> plt_show f = Ok tt) ->
  Sequential 288 1 = Ok mdl ->
  (forall tv mean std x,
     normalize (get_value_from_df df1) = Ok (tv, mean, std) ->
     create_sequences tv TIME_STEPS = Ok x ->
     exists r, fit mdl x x = Ok r) ->
  (exists x y, In x (get_value_from_df df1)
               /\ In y (get_value_from_df df1) /\ x <> y) ->
  (TIME_STEPS < len df1)%Z ->
  exists log e tv mean std x_train fitted,
    exec (firstn 11 nb) empty_env = (log, e, Ok tt)
    /\ normalize (get_value_from_df df1) = Ok (tv, mean, std)
    /\ (forall values, normalize_test values mean std
                       = Ok (map (fun x => (x - mean) / std)%R values))
    /\ create_sequences tv TIME_STEPS = Ok x_train
    /\ has_shape3 x_train (Z.to_nat (len df1 - 288)) 288 1 = true
    /\ fit mdl x_train x_train = Ok fitted
    /\ e "df_daily_jumpsup"%string = Some (VFrame df2)
    /\ e "training_mean"%string = Some (VFloat mean)
    /\ e "training_std"%string = Some (VFloat std)
    /\ e "x_train"%string = Some (VTensor x_train)
    /\ e "model"%string = Some (VModel (fst fitted))
    /\ e "x_train_pred"%string = None
    /\ log <> [].
Proof.
  intros Hr1 Hr2 Hdate1 Hdate2 Hplt Hmdl Hfit Hvar Hn1.
  unfold TIME_STEPS in Hn1.
  destruct (mapM_total_on strptime (map timestamp df1)) as [dates1 Hd1].
  { intros s Hs. apply in_map_iff in Hs. destruct Hs as [r [<- Hr]].
    apply Hdate1, Hr. }
  destruct (mapM_total_on strptime (map timestamp df2)) as [dates2 Hd2].
  { intros s Hs. apply in_map_iff in Hs. destruct Hs as [r [<- Hr]].
    apply Hdate2, Hr. }
  assert (Ld1 := mapM_length _ _ _ Hd1). rewrite length_map in Ld1.
  assert (Ld2 := mapM_length _ _ _ Hd2). rewrite length_map in Ld2.
  destruct (normalize_not_constant _ Hvar) as [mean [std [_ [_ [_ [Hnorm Hnt]]]]]].
  remember (map (fun x => (x - mean) / std)%R (get_value_from_df df1)) as tv eqn:Etv.
  assert (Ltv : len tv = len df1).
  { subst tv. unfold len, get_value_from_df. rewrite !length_map. reflexivity. }
  destruct (create_sequences_shape tv 288) as [x_train [Hx Sx]]; [lia | lia |].
  change 288%Z with TIME_STEPS in Hx. change (Z.to_nat 288) with 288%nat in Sx.
  rewrite Ltv in Sx.
  assert (Nw : Z.to_nat (len df1 - 288) <> 0%nat) by lia.
  assert (Hmdl' : Sequential (snd (fst (shape3 x_train))) (snd (shape3 x_train))
                  = Ok mdl).
  { rewrite (has_shape3_shape3 x_train _ 288 1 Nw) by (lia || exact Sx).
    exact Hmdl. }
  destruct (Hfit tv mean std x_train Hnorm Hx) as [fitted Hfitted].
  clear Etv.
  eexists. eexists. exists tv, mean, std, x_train, fitted.
  split.
  { unfold notebook. cbn [firstn exec]. cells.
    forward ltac:(apply Hplt; cbn [figure_ok forallb fst snd];
                  rewrite ?length_map, ?Ld1, ?Ld2, ?Nat.eqb_refl; reflexivity).
    reflexivity. }
  repeat (split; [first [assumption | reflexivity] |]).
  discriminate.
Qed.

(** The cells from the training losses to the classification of the test
    windows, from a namespace that holds the trained model. *)
Lemma classification_completes (e : env date net) (df2 : list row)
  (mean std : R) (x_train : tensor3) (model : net) (n1 : nat) :
  e "df_daily_jumpsup"%string = Some (VFrame df2) ->
  e "training_mean"%string = Some (VFloat mean) ->
  e "training_std"%string = Some (VFloat std) ->
  e "x_train"%string = Some (VTensor x_train) ->
  e "model"%string = Some (VModel model) ->
  (forall values, normalize_test values mean std
                  = Ok (map (fun x => (x - mean) / std)%R values)) ->
  has_shape3 x_train n1 288 1 = true -> n1 <> 0%nat ->
  (forall f, figure_ok f = true -> plt_show f = Ok tt) ->
  (forall m x n, n <> 0%nat -> has_shape3 x n 288 1 = true ->
                 exists p, predict m x = Ok p /\ has_shape3 p n 288 1 = true) ->
  (TIME_STEPS < len df2)%Z ->
  exists log e' pred loss t tv2 x_test pred2 loss2,
    exec [cell_threshold predict plt_show; cell_compare plt_show;
          cell_test predict plt_show] e = (log, e', Ok tt)
    /\ predict model x_train = Ok pred
    /\ mae_loss pred x_train = Ok loss
    /\ threshold loss = Ok t
    /\ normalize_test (get_value_from_df df2) mean std = Ok tv2
    /\ len tv2 = len df2
    /\ create_sequences tv2 TIME_STEPS = Ok x_test
    /\ has_shape3 x_test (Z.to_nat (len df2 - 288)) 288 1 = true
    /\ predict model x_test = Ok pred2
    /\ mae_loss pred2 x_test = Ok loss2
    /\ len (anomalies (concat loss2) t) = (len df2 - TIME_STEPS)%Z
    /\ e' "df_daily_jumpsup"%string = Some (VFrame df2)
    /\ e' "test_value"%string = Some (VArray tv2)
    /\ e' "threshold"%string = Some (VFloat t)
    /\ e' "train_mae_loss"%string = Some (VMatrix loss)
    /\ e' "test_mae_loss"%string = Some (VArray (concat loss2))
    /\ e' "anomalies"%string = Some (VMask (anomalies (concat loss2) t)).
Proof.
  intros Edf Emean Estd Ex Em Hnt Sx Nw Hplt Hpred Hn2.
  unfold TIME_STEPS in Hn2.
  destruct (Hpred model x_train _ Nw Sx) as [pred [Hp Sp]].
  assert (W : 288%nat <> 0%nat) by lia.
  destruct (mae_loss_length pred x_train _ 288 W Sp Sx) as [loss [Hloss Lloss]].
  destruct (np_max_spec loss) as [t [Ht _]].
  { intro E. rewrite E in Lloss. simpl in Lloss. lia. }
  fold (threshold loss) in Ht.
  destruct (py_getitem_first x_train) as [w0 Hw0].
  { intros ->. apply has_shape3_length in Sx. simpl in Sx. lia. }
  destruct (py_getitem_first pred) as [w1 Hw1].
  { intros ->. apply has_shape3_length in Sp. simpl in Sp. lia. }
  specialize (Hnt (get_value_from_df df2)).
  remember (map (fun x => (x - mean) / std)%R (get_value_from_df df2)) as tv2 eqn:Etv2.
  assert (Ltv2 : len tv2 = len df2).
  { subst tv2. unfold len, get_value_from_df. rewrite !length_map. reflexivity. }
  destruct (create_sequences_shape tv2 288) as [x_test [Hx2 Sx2]]; [lia | lia |].
  change 288%Z with TIME_STEPS in Hx2. change (Z.to_nat 288) with 288%nat in Sx2.
  rewrite Ltv2 in Sx2.
  assert (Nw2 : Z.to_nat (len df2 - 288) <> 0%nat) by lia.
  destruct (Hpred model x_test _ Nw2 Sx2) as [pred2 [Hp2 Sp2]].
  destruct (mae_loss_length pred2 x_test _ 288 W Sp2 Sx2) as [loss2 [Hloss2 Lloss2]].
  assert (La : len (anomalies (concat loss2) t) = (len df2 - TIME_STEPS)%Z).
  { unfold anomalies. unfold len at 1.
    rewrite length_map, Lloss2. unfold TIME_STEPS. lia. }
  clear Etv2.
  eexists. eexists. exists pred, loss, t, tv2, x_test, pred2, loss2.
  split.
  { cbn [exec]. cells.
    forward ltac:(apply Hplt; reflexivity).
    reflexivity. }
  repeat (split; [first [assumption | reflexivity] |]).
  reflexivity.
Qed.

(** The loop over the data indices, when the mask has an entry for each
    window. *)
Lemma reduction_completes (e : env date net) (tv2 : list R) (a : list bool) :
  e "test_value"%string = Some (VArray tv2) ->
  e "anomalies"%string = Some (VMask a) ->
  len a = (len tv2 - TIME_STEPS)%Z ->
  exists e' idxs,
    cell_reduce e = ([], e', Ok tt)
    /\ anomalous_data_indices tv2 a = Ok idxs
    /\ idxs = filter (flagged a) (py_range (TIME_STEPS - 1) (len tv2 - TIME_STEPS + 1))
    /\ e' "anomalous_data_indices"%string = Some (VIndices idxs)
    /\ forall name, name <> "anomalous_data_indices"%string ->
         name <> "data_idx"%string -> name <> "time_series"%string ->
         e' name = e name.
Proof.
  intros Ev Ea La.
  pose proof (anomalous_data_indices_filter tv2 a La) as Hidx.
  assert (Ha' : set_var "anomalous_data_indices" (VIndices []) e "anomalies"%string
                = Some (VMask a)) by (cbn; exact Ea).
  destruct (reduce_loop_ok a _ [] _ _ Ha' eq_refl Hidx) as [e' [S Hl]].
  assert (C : cell_reduce e = ([], e', Ok tt)).
  { unfold cell_reduce. forward idtac. exact S. }
  exists e'. eexists.
  split; [exact C |]. split; [exact Hidx |]. split; [reflexivity |].
  split; [exact Hl |].
  intros name N1 N2 N3.
  apply (cell_reduce_preserves _ _ _ _ C). simpl.
  intros [E | [E | [E | F]]];
    [apply N1 | apply N2 | apply N3 | exact F]; symmetry; exact E.
Qed.

(** The overlay of the selected rows on the test data. *)
Lemma overlay_completes (e : env date net) (df2 : list row) (idxs : list Z) :
  e "df_daily_jumpsup"%string = Some (VFrame df2) ->
  e "anomalous_data_indices"%string = Some (VIndices idxs) ->
  (forall i, In i idxs -> (0 <= i < len df2)%Z) ->
  (forall r, In r df2 -> exists d, strptime (timestamp r) = Ok d) ->
  (forall f, figure_ok f = true -> plt_show f = Ok tt) ->
  exists log e' rows,
    cell_overlay strptime plt_show e = (log, e', Ok tt)
    /\ iloc_rows df2 idxs = Ok rows
    /\ Forall2 (fun i r => nth_error df2 (Z.to_nat i) = Some r) idxs rows
    /\ e' "df_subset"%string = Some (VFrame rows).
Proof.
  intros Edf Eidx Bidx Hdate2 Hplt.
  destruct (iloc_rows_ok df2 idxs Bidx) as [rows [Hrows Frows]].
  destruct (mapM_total_on strptime (map timestamp df2)) as [dates2 Hd2].
  { intros s Hs. apply in_map_iff in Hs. destruct Hs as [r [<- Hr]].
    apply Hdate2, Hr. }
  destruct (mapM_total_on strptime (map timestamp rows)) as [dates3 Hd3].
  { intros s Hs. apply in_map_iff in Hs. destruct Hs as [r [<- Hr]].
    apply Hdate2. apply (iloc_rows_In df2 idxs rows Frows), Hr. }
  assert (Ld2 := mapM_length _ _ _ Hd2). rewrite length_map in Ld2.
  assert (Ld3 := mapM_length _ _ _ Hd3). rewrite length_map in Ld3.
  eexists. eexists. exists rows.
  split.
  { cells. apply step_last.
    forward ltac:(apply Hplt; cbn [figure_ok forallb fst snd];
                  rewrite ?length_map, ?Ld2, ?Ld3, ?Nat.eqb_refl; reflexivity).
    reflexivity. }
  split; [exact Hrows |]. split; [exact Frows |]. reflexivity.
Qed.

(** With both downloads delivering more than [TIME_STEPS] rows, training
    values that are not all equal, the dates of both files parsing, figures
    that pair dates and values drawing, a model that is built for windows of
    [TIME_STEPS] single values and trains on the windows of the training
    file, and predictions of the shape of their input, the notebook runs to
    its end, and what it holds then is what its functions compute one from
    the other. *)
Lemma run_completes (df1 df2 : list row) (mdl : net) :
  read_csv df_small_noise_url = Ok df1 ->
  read_csv df_daily_jumpsup_url = Ok df2 ->
  (forall r, In r df1 -> exists d, strptime (timestamp r) = Ok d) ->
  (forall r, In r df2 -> exists d, strptime (timestamp r) = Ok d) ->
  (forall f, figure_ok f = true -> plt_show f = Ok tt) ->
  Sequential 288 1 = Ok mdl ->
  (forall tv mean std x,
     normalize (get_value_from_df df1) = Ok (tv, mean, std) ->
     create_sequences tv TIME_STEPS = Ok x ->
     exists r, fit mdl x x = Ok r) ->
  (forall m x n, n <> 0%nat -> has_shape3 x n 288 1 = true ->
                 exists p, predict m x = Ok p /\ has_shape3 p n 288 1 = true) ->
  (exists x y, In x (get_value_from_df df1)
               /\ In y (get_value_from_df df1) /\ x <> y) ->
  (TIME_STEPS < len df1)%Z -> (TIME_STEPS < len df2)%Z ->
  exists log ef tv mean std x_train fitted pred loss t
         tv2 x_test pred2 loss2 idxs rows,
    run = (log, ef, Ok tt)
    /\ normalize (get_value_from_df df1) = Ok (tv, mean, std)
    /\ create_sequences tv TIME_STEPS = Ok x_train
    /\ fit mdl x_train x_train = Ok fitted
    /\ predict (fst fitted) x_train = Ok pred
    /\ mae_loss pred x_train = Ok loss
    /\ threshold loss = Ok t
    /\ normalize_test (get_value_from_df df2) mean std = Ok tv2
    /\ create_sequences tv2 TIME_STEPS = Ok x_test
    /\ predict (fst fitted) x_test = Ok pred2
    /\ mae_loss pred2 x_test = Ok loss2
    /\ anomalous_data_indices tv2 (anomalies (concat loss2) t) = Ok idxs
    /\ iloc_rows df2 idxs = Ok rows
    /\ ef "threshold"%string = Some (VFloat t)
    /\ ef "anomalies"%string = Some (VMask (anomalies (concat loss2) t))
    /\ len (anomalies (concat loss2) t) = (len df2 - TIME_STEPS)%Z
    /\ ef "anomalous_data_indices"%string = Some (VIndices idxs)
    /\ StronglySorted Z.lt idxs
    /\ (forall i, In i idxs -> (TIME_STEPS - 1 <= i <= len df2 - TIME_STEPS)%Z)
    /\ ef "df_subset"%string = Some (VFrame rows)
    /\ Forall2 (fun i r => nth_error df2 (Z.to_nat i) = Some r) idxs rows
    /\ has_shape3 x_train (Z.to_nat (len df1 - 288)) 288 1 = true
    /\ has_shape3 x_test (Z.to_nat (len df2 - 288)) 288 1 = true
    /\ len tv2 = len df2.
Proof.
  intros Hr1 Hr2 Hdate1 Hdate2 Hplt Hmdl Hfit Hpred Hvar Hn1 Hn2.
  destruct (training_completes df1 df2 mdl Hr1 Hr2 Hdate1 Hdate2 Hplt Hmdl Hfit
              Hvar Hn1)
    as [logA [eA [tv [mean [std [x_train [fitted
         [RA [Hnorm [Hnt [Hx [Sx [Hfitted [Adf [Amean [Astd [Ax [Am _]]]]]]]]]]]]]]]]]].
  assert (Nw : Z.to_nat (len df1 - 288) <> 0%nat)
    by (unfold TIME_STEPS in Hn1; lia).
  destruct (classification_completes eA df2 mean std x_train (fst fitted) _
              Adf Amean Astd Ax Am Hnt Sx Nw Hplt Hpred Hn2)
    as (logB & eB & pred & loss & t & tv2 & x_test & pred2 & loss2
        & RB & Hp & Hloss & Ht & Hnt2 & Ltv2 & Hx2 & Sx2 & Hp2 & Hloss2 & La
        & Bdf & Btv & Bt & _ & _ & Ba).
  assert (La' : len (anomalies (concat loss2) t) = (len tv2 - TIME_STEPS)%Z)
    by (rewrite Ltv2; exact La).
  destruct (reduction_completes eB tv2 _ Btv Ba La')
    as [eC [idxs [RC [Hidx [Eidx [Cidx CF]]]]]].
  rewrite Ltv2 in Eidx.
  assert (Sidx : StronglySorted Z.lt idxs).
  { subst idxs. apply filter_sorted, py_range_sorted. }
  assert (Bidx : forall i, In i idxs ->
                   (TIME_STEPS - 1 <= i <= len df2 - TIME_STEPS)%Z).
  { intros i Hi. subst idxs. apply filter_In in Hi. destruct Hi as [Hi _].
    apply py_range_In in Hi. lia. }
  destruct (overlay_completes eC df2 idxs) as [logD [eD [rows [RD [Hrows [Frows Dsub]]]]]].
  { rewrite CF by discriminate. exact Bdf. }
  { exact Cidx. }
  { intros i Hi. apply Bidx in Hi. unfold TIME_STEPS in Hi, Hn2. lia. }
  { exact Hdate2. }
  { exact Hplt. }
  pose proof (fun n N => cell_overlay_preserves _ _ _ _ RD n N) as DF.
  exists (logA ++ logB ++ [] ++ logD)%list, eD, tv, mean, std, x_train, fitted,
    pred, loss, t, tv2, x_test, pred2, loss2, idxs, rows.
  split.
  { unfold run_notebook.
    change nb
      with (firstn 11 nb
            ++ [cell_threshold predict plt_show; cell_compare plt_show;
                cell_test predict plt_show]
            ++ [cell_reduce] ++ [cell_overlay strptime plt_show])%list.
    apply (exec_app _ _ _ eA _ _ _ _ RA).
    apply (exec_app _ _ _ eB _ _ _ _ RB).
    apply (exec_app _ _ _ eC _ _ _ _ (exec_one _ _ _ _ _ RC)).
    apply exec_one. exact RD. }
  repeat (split; [assumption |]).
  split; [rewrite DF by not_bound; rewrite CF by discriminate; exact Bt |].
  split; [rewrite DF by not_bound; rewrite CF by discriminate; exact Ba |].
  split; [exact La |].
  split; [rewrite DF by not_bound; exact Cidx |].
  split; [exact Sidx |]. split; [exact Bidx |].
  split; [exact Dsub |]. split; [exact Frows |].
  split; [exact Sx |]. split; [exact Sx2 | exact Ltv2].
Qed.


(** X16: [plot_dates_values] draws one figure, of the parsed dates against
    the values, and leaves the namespace alone. When a timestamp does not
    parse, the exception of the first such row is raised and nothing is
    drawn; when drawing fails, its exception is raised. *)
Theorem plot_dates_values_outcome (data : list row) (e : env date net) :
  (forall dates,
     mapM strptime (map timestamp data) = Ok dates ->
     plt_show (Dated [(dates, map value data)]) = Ok tt ->
     plot_dates_values strptime plt_show data e
     = ([Drawn (Dated [(dates, map value data)])], e, Ok tt))
  /\ (forall pre r post x,
        data = (pre ++ r :: post)%list ->
        (forall q, In q pre -> exists d, strptime (timestamp q) = Ok d) ->
        strptime (timestamp r) = Raise x ->
        plot_dates_values strptime plt_show data e = ([], e, Raise x))
  /\ (forall dates x,
        mapM strptime (map timestamp data) = Ok dates ->
        plt_show (Dated [(dates, map value data)]) = Raise x ->
        plot_dates_values strptime plt_show data e = ([], e, Raise x)).
Proof.
  unfold plot_dates_values, pbind, call, draw.
  split; [| split].
  - intros dates Hd Hs. rewrite Hd, Hs. reflexivity.
  - intros pre r post x -> Hpre Hr.
    rewrite map_app. simpl.
    rewrite (mapM_first_raise strptime (map timestamp pre) (map timestamp post)
               (timestamp r) x); [reflexivity | | exact Hr].
    intros q Hq. apply in_map_iff in Hq. destruct Hq as [q' [<- Hq']].
    apply Hpre, Hq'.
  - intros dates x Hd Hs. rewrite Hd, Hs. reflexivity.
Qed.

(** X18: with both downloads delivering more than [TIME_STEPS] rows,
    training values that are not all equal, the dates of the rows of both
    files parsing, figures that pair each date with a value drawing, a model
    that is built for windows of [TIME_STEPS] single values and trains on
    the windows of the training file, and predictions of the shape of their
    input, the notebook runs to its end. What it holds then is what its functions compute one
    from the other: the windows from the normalised values, one for each
    start but the last, the threshold from the losses of the training
    windows, the mask from the losses of the test windows and the threshold,
    with one entry per test window, the anomalous data indices from the
    mask, in strictly increasing order, and as [df_subset] the rows of the
    test frame at these indices. *)
Theorem notebook_runs_to_end (df1 df2 : list row) (mdl : net) :
  read_csv df_small_noise_url = Ok df1 ->
  read_csv df_daily_jumpsup_url = Ok df2 ->
  (forall r, In r df1 -> exists d, strptime (timestamp r) = Ok d) ->
  (forall r, In r df2 -> exists d, strptime (timestamp r) = Ok d) ->
  (forall f, figure_ok f = true -> plt_show f = Ok tt) ->
  Sequential 288 1 = Ok mdl ->
  (forall tv mean std x,
     normalize (get_value_from_df df1) = Ok (tv, mean, std) ->
     create_sequences tv TIME_STEPS = Ok x ->
     exists r, fit mdl x x = Ok r) ->
  (forall m x n, n <> 0%nat -> has_shape3 x n 288 1 = true ->
                 exists p, predict m x = Ok p /\ has_shape3 p n 288 1 = true) ->
  (exists x y, In x (get_value_from_df df1)
               /\ In y (get_value_from_df df1) /\ x <> y) ->
  (TIME_STEPS < len df1)%Z -> (TIME_STEPS < len df2)%Z ->
  exists log ef tv mean std x_train fitted pred loss t
         tv2 x_test pred2 loss2 idxs rows,
    run = (log, ef, Ok tt)
    /\ normalize (get_value_from_df df1) = Ok (tv, mean, std)
    /\ create_sequences tv TIME_STEPS = Ok x_train
    /\ fit mdl x_train x_train = Ok fitted
    /\ predict (fst fitted) x_train = Ok pred
    /\ mae_loss pred x_train = Ok loss
    /\ threshold loss = Ok t
    /\ normalize_test (get_value_from_df df2) mean std = Ok tv2
    /\ create_sequences tv2 TIME_STEPS = Ok x_test
    /\ predict (fst fitted) x_test = Ok pred2
    /\ mae_loss pred2 x_test = Ok loss2
    /\ anomalous_data_indices tv2 (anomalies (concat loss2) t) = Ok idxs
    /\ iloc_rows df2 idxs = Ok rows
    /\ ef "threshold"%string = Some (VFloat t)
    /\ ef "anomalies"%string = Some (VMask (anomalies (concat loss2) t))
    /\ len (anomalies (concat loss2) t) = (len df2 - TIME_STEPS)%Z
    /\ ef "anomalous_data_indices"%string = Some (VIndices idxs)
    /\ StronglySorted Z.lt idxs
    /\ (forall i, In i idxs -> (TIME_STEPS - 1 <= i <= len df2 - TIME_STEPS)%Z)
    /\ ef "df_subset"%string = Some (VFrame rows)
    /\ Forall2 (fun i r => nth_error df2 (Z.to_nat i) = Some r) idxs rows
    /\ has_shape3 x_train (Z.to_nat (len df1 - 288)) 288 1 = true
    /\ has_shape3 x_test (Z.to_nat (len df2 - 288)) 288 1 = true
    /\ len tv2 = len df2.
Proof. exact (run_completes df1 df2 mdl). Qed.

(** X19: a training file of at most [TIME_STEPS] rows stops the notebook in
    the cell that builds the training windows, at the call of
    [create_sequences]: with both files downloaded, the dates of their rows
    parsing, figures that pair each date with a value drawing and training
    values that are not all equal, the run ends there with [AxisError],
    whatever building, training and applying a model would do. The first
    rows of both files, the two plots and the number of training values have
    been shown; [TIME_STEPS] and the normalised training values are bound,
    and neither [x_train] nor a model is. *)
Theorem short_training_file_stops_notebook (df1 df2 : list row) :
  read_csv df_small_noise_url = Ok df1 ->
  read_csv df_daily_jumpsup_url = Ok df2 ->
  (forall r, In r df1 -> exists d, strptime (timestamp r) = Ok d) ->
  (forall r, In r df2 -> exists d, strptime (timestamp r) = Ok d) ->
  (forall f, figure_ok f = true -> plt_show f = Ok tt) ->
  (exists x y, In x (get_value_from_df df1)
               /\ In y (get_value_from_df df1) /\ x <> y) ->
  (len df1 <= TIME_STEPS)%Z ->
  exists e' dates1 dates2 tv mean std,
    run = ([Text EmptyString (VFrame (firstn 5 df1));
            Text EmptyString (VFrame (firstn 5 df2));
            Drawn (Dated [(dates1, map value df1)]);
            Drawn (Dated [(dates2, map value df2)]);
            Text EmptyString (VInt (len tv))],
           e', Raise AxisError)
    /\ normalize (get_value_from_df df1) = Ok (tv, mean, std)
    /\ create_sequences tv TIME_STEPS = Raise AxisError
    /\ len tv = len df1
    /\ e' "training_value"%string = Some (VArray tv)
    /\ e' "TIME_STEPS"%string = Some (VInt TIME_STEPS)
    /\ e' "create_sequences"%string = Some (VFunction "create_sequences")
    /\ e' "x_train"%string = None
    /\ e' "model"%string = None.
Proof.
  intros Hr1 Hr2 Hdate1 Hdate2 Hplt Hvar Hn1.
  destruct (mapM_total_on strptime (map timestamp df1)) as [dates1 Hd1].
  { intros s Hs. apply in_map_iff in Hs. destruct Hs as [r [<- Hr]].
    apply Hdate1, Hr. }
  destruct (mapM_total_on strptime (map timestamp df2)) as [dates2 Hd2].
  { intros s Hs. apply in_map_iff in Hs. destruct Hs as [r [<- Hr]].
    apply Hdate2, Hr. }
  assert (Ld1 := mapM_length _ _ _ Hd1). rewrite length_map in Ld1.
  assert (Ld2 := mapM_length _ _ _ Hd2). rewrite length_map in Ld2.
  destruct (normalize_not_constant _ Hvar) as [mean [std [_ [_ [_ [Hnorm _]]]]]].
  remember (map (fun x => (x - mean) / std)%R (get_value_from_df df1)) as tv eqn:Etv.
  assert (Ltv : len tv = len df1).
  { subst tv. unfold len, get_value_from_df. rewrite !length_map. reflexivity. }
  assert (Hx : create_sequences tv TIME_STEPS = Raise AxisError).
  { apply create_sequences_no_window. lia. }
  clear Etv.
  eexists. exists dates1, dates2, tv, mean, std.
  split.
  { unfold run_notebook, notebook. cbn [exec]. cells.
    forward ltac:(apply Hplt; cbn [figure_ok forallb fst snd];
                  rewrite ?length_map, ?Ld1, ?Ld2, ?Nat.eqb_refl; reflexivity).
    apply step_call_raise, Hx. }
  repeat (split; [first [assumption | reflexivity] |]).
  reflexivity.
Qed.

End NotebookRuns.

(** *** The small run *)

Lemma example_values_differ :
  exists x y, In x (get_value_from_df example_frame)
              /\ In y (get_value_from_df example_frame) /\ x <> y.
Proof.
  exists 1%R, 0%R. split; [left; reflexivity |].
  split; [right; left; reflexivity | lra].
Qed.

Lemma example_frame_length : len example_frame = 289%Z.
Proof. reflexivity. Qed.

Lemma example_run_completes :
  exists log ef, example_run (fun _ x => Ok x) = (log, ef, Ok tt).
Proof.
  destruct (run_completes unit unit (fun _ => Ok example_frame) (fun _ => Ok tt)
              (fun _ _ => Ok tt) (fun m _ _ => Ok (m, ([], [])))
              (fun _ x => Ok x) (fun _ => Ok tt)
              example_frame example_frame tt)
    as (log & ef & tv & mean & std & x_train & fitted & pred & loss & t & tv2 & x_test & pred2 & loss2 & idxs & rows & H & _).
  - reflexivity.
  - reflexivity.
  - intros r _. exists tt. reflexivity.
  - intros r _. exists tt. reflexivity.
  - intros f _. reflexivity.
  - reflexivity.
  - intros tv mean std x _ _. eexists. reflexivity.
  - intros m x n _ H. exists x. split; [reflexivity | exact H].
  - exact example_values_differ.
  - rewrite example_frame_length. reflexivity.
  - rewrite example_frame_length. reflexivity.
  - exists log, ef. exact H.
Qed.


Lemma threshold_is_max_train_loss_witness :
  (exists t, threshold [[1%R]; [3%R]; [2%R]] = Ok t /\ (1 <= t)%R)
  /\ (exists log ef train_mae_loss t,
        example_run (fun _ x => Ok x) = (log, ef, Ok tt)
        /\ ef "train_mae_loss"%string = Some (VMatrix train_mae_loss)
        /\ ef "threshold"%string = Some (VFloat t)
        /\ exists sample, In sample train_mae_loss /\ In t sample).
Proof.
  pose proof (threshold_is_max_train_loss unit unit
                (fun _ => Ok example_frame)
                (fun _ => Ok tt)
                (fun _ _ => Ok tt)
                (fun m _ _ => Ok (m, ([], [])))
                (fun _ x => Ok x)
                (fun _ => Ok tt)) as (F & Run).
  split.
  - destruct (F [[1%R]; [3%R]; [2%R]]) as (t & E & U & _).
    + simpl. discriminate.
    + exists t. split; [exact E |].
      apply (U [1%R] 1%R); simpl; auto.
  - destruct example_run_completes as (log & ef & Hrun).
    destruct (Run log ef Hrun) as (train & t & Vl & Vt & _ & I).
    exists log, ef, train, t.
    split; [exact Hrun |]. split; [exact Vl |]. split; [exact Vt | exact I].
Defined.

Lemma anomalies_iff_loss_above_threshold_witness :
  (exists t, threshold [[1%R]; [3%R]] = Ok t
     /\ length (anomalies (concat [[2%R]; [4%R]]) t) = 2%nat)
  /\ (exists log ef train_mae_loss test_mae_loss t,
        example_run (fun _ x => Ok x) = (log, ef, Ok tt)
        /\ ef "train_mae_loss"%string = Some (VMatrix train_mae_loss)
        /\ threshold train_mae_loss = Ok t
        /\ ef "anomalies"%string = Some (VMask (anomalies test_mae_loss t))).
Proof.
  pose proof (anomalies_iff_loss_above_threshold unit unit
                (fun _ => Ok example_frame)
                (fun _ => Ok tt)
                (fun _ _ => Ok tt)
                (fun m _ _ => Ok (m, ([], [])))
                (fun _ x => Ok x)
                (fun _ => Ok tt)) as (F & _ & Run).
  split.
  - destruct (F [[1%R]; [3%R]] [[2%R]; [4%R]]) as (t & E & _ & L & _).
    + simpl. discriminate.
    + exists t. split; [exact E | exact L].
  - destruct example_run_completes as (log & ef & Hrun).
    destruct (Run log ef Hrun) as (train & test & t & Vl & Et & _ & Va & _).
    exists log, ef, train, test, t.
    split; [exact Hrun |]. split; [exact Vl |]. split; [exact Et | exact Va].
Defined.



(** * Further properties *)

(** ** Windows *)

(** X1: for a window length that is not negative, [create_sequences] returns
    an array exactly when the sequence is longer than the window length;
    otherwise, the empty sequence included, it raises [AxisError]. *)
Theorem create_sequences_succeeds_iff {A : Type} (values : list A) (time_steps : Z) :
  (0 <= time_steps)%Z ->
  ((exists x, create_sequences values time_steps = Ok x)
   <-> (time_steps < len values)%Z)
  /\ (create_sequences values time_steps = Raise AxisError
      <-> (len values <= time_steps)%Z).
Proof.
  intro H0.
  destruct (Z.lt_ge_cases time_steps (len values)) as [Hlt | Hge].
  - assert (E := create_sequences_ok values time_steps H0 Hlt).
    split; split; intro H; try lia.
    + eexists. exact E.
    + rewrite E in H. discriminate.
  - assert (E := create_sequences_no_window values time_steps Hge).
    split; split; intro H; try lia; try exact E.
    destruct H as [x Hx]. rewrite E in Hx. discriminate.
Qed.

Lemma create_sequences_succeeds_iff_witness :
  (exists x, create_sequences [1; 2; 3]%Z 2 = Ok x)
  /\ create_sequences (@nil Z) 0 = Raise AxisError.
Proof.
  split.
  - apply (proj1 (create_sequences_succeeds_iff [1; 2; 3]%Z 2 ltac:(lia))).
    vm_compute. reflexivity.
  - apply (proj2 (create_sequences_succeeds_iff (@nil Z) 0 ltac:(lia))).
    vm_compute. discriminate.
Defined.

(** X2: for any window length [0 <= time_steps < n] the result has shape
    [(n - time_steps, time_steps, 1)]; position [k] of window [i] holds
    [values[i + k]], so that each window is the one before it moved on by one
    step, and every element but the last lies in some window. *)
Theorem create_sequences_slides_by_one {A : Type} (values : list A) (time_steps : Z) :
  (0 <= time_steps)%Z -> (time_steps < len values)%Z ->
  exists x,
    create_sequences values time_steps = Ok x
    /\ has_shape3 x (Z.to_nat (len values - time_steps)) (Z.to_nat time_steps) 1 = true
    /\ (forall i k d, (0 <= i < len values - time_steps)%Z -> (0 <= k < time_steps)%Z ->
          nth (Z.to_nat k) (nth (Z.to_nat i) x []) [] = [nth (Z.to_nat (i + k)) values d])
    /\ (forall i k, (0 <= i)%Z -> (i + 1 < len values - time_steps)%Z ->
          (0 <= k)%Z -> (k + 1 < time_steps)%Z ->
          nth (Z.to_nat k) (nth (Z.to_nat (i + 1)) x []) []
          = nth (Z.to_nat (k + 1)) (nth (Z.to_nat i) x []) [])
    /\ (forall j d, (0 < time_steps)%Z -> (0 <= j < len values - 1)%Z ->
          exists i k, (0 <= i < len values - time_steps)%Z /\ (0 <= k < time_steps)%Z
            /\ nth (Z.to_nat k) (nth (Z.to_nat i) x []) [] = [nth (Z.to_nat j) values d]).
Proof.
  intros H0 H1.
  destruct (create_sequences_shape values time_steps H0 H1) as [x [E S]].
  exists x. split; [exact E |]. split; [exact S |].
  assert (C : forall i k d, (0 <= i < len values - time_steps)%Z ->
                (0 <= k < time_steps)%Z ->
                nth (Z.to_nat k) (nth (Z.to_nat i) x []) []
                = [nth (Z.to_nat (i + k)) values d]).
  { intros i k d Hi Hk.
    rewrite (create_sequences_nth values time_steps i x H0 H1 E Hi).
    rewrite (expand_nth _ _ d) by (rewrite py_slice_window_length; lia).
    rewrite py_slice_window_nth by lia.
    do 2 f_equal. lia. }
  split; [exact C |]. split.
  - intros i k Hi Hi' Hk Hk'.
    destruct values as [| d values'] eqn:Ev; [unfold len in H1; simpl in H1; lia |].
    rewrite <- Ev in *.
    rewrite (C (i + 1)%Z k d), (C i (k + 1)%Z d) by lia.
    do 2 f_equal. lia.
  - intros j d Hts Hj.
    destruct (Z.lt_ge_cases j (len values - time_steps)) as [Hlow | Hhigh].
    + exists j, 0%Z. split; [lia |]. split; [lia |].
      rewrite (C j 0%Z d) by lia. do 2 f_equal. lia.
    + exists (len values - time_steps - 1)%Z, (j - (len values - time_steps - 1))%Z.
      split; [lia |]. split; [lia |].
      rewrite (C _ _ d) by lia. do 2 f_equal. lia.
Qed.

Lemma create_sequences_slides_by_one_witness :
  exists x, create_sequences [1; 2; 3; 4]%Z 2 = Ok x
    /\ has_shape3 x 2 2 1 = true.
Proof.
  destruct (create_sequences_slides_by_one [1; 2; 3; 4]%Z 2) as [x [E [S _]]].
  - lia.
  - vm_compute. reflexivity.
  - exists x. split; [exact E | exact S].
Defined.

(** ** Reduction of the window mask to data indices *)

Lemma anomalous_data_indices_flags_witness :
  exists idxs, anomalous_data_indices (repeat 0%Z 576) (repeat true 288) = Ok idxs
    /\ In 287%Z idxs.
Proof.
  destruct (anomalous_data_indices_flags (repeat 0%Z 576) (repeat true 288) 287)
    as [idxs [E I]].
  - vm_compute. reflexivity.
  - exists idxs. split; [exact E |].
    apply I. split; [vm_compute; split; discriminate |].
    intros j [Hj1 Hj2] Hlt. unfold TIME_STEPS in *.
    apply nth_repeat_lt. lia.
Defined.

(** X4: a test sequence of at most [2 * TIME_STEPS - 2] values yields no
    anomalous index, whatever the mask: the loop has no data index to run
    over and never reads the mask. *)
Theorem anomalous_data_indices_short_series {A : Type} (test_value : list A)
  (anomalies : list bool) :
  (len test_value <= 2 * TIME_STEPS - 2)%Z ->
  anomalous_data_indices test_value anomalies = Ok [].
Proof.
  intro H. unfold anomalous_data_indices.
  rewrite py_range_empty by lia. reflexivity.
Qed.

Lemma anomalous_data_indices_short_series_witness :
  anomalous_data_indices (repeat 0%Z 574) (@nil bool) = Ok [].
Proof.
  apply anomalous_data_indices_short_series. vm_compute. discriminate.
Defined.

Lemma py_getitem_outcome {A : Type} (l : list A) (j : Z) :
  (exists a, py_getitem l j = Ok a) \/ py_getitem l j = Raise IndexError.
Proof.
  unfold py_getitem.
  destruct ((if (j <? 0)%Z then (j + len l)%Z else j) <? 0)%Z; [right; reflexivity |].
  destruct (nth_error l _) as [a |]; [left; exists a |right]; reflexivity.
Qed.

Lemma py_getitem_beyond {A : Type} (l : list A) (j : Z) :
  (len l <= j)%Z -> py_getitem l j = Raise IndexError.
Proof.
  unfold py_getitem, len. intro H.
  destruct (j <? 0)%Z eqn:E; [lia |]. rewrite E.
  destruct (nth_error l (Z.to_nat j)) as [a |] eqn:N; [| reflexivity].
  assert (nth_error l (Z.to_nat j) <> None) by (rewrite N; discriminate).
  apply nth_error_Some in H0. lia.
Qed.

Lemma mapM_getitem_outcome {A : Type} (l : list A) (js : list Z) :
  (exists r, mapM (py_getitem l) js = Ok r) \/ mapM (py_getitem l) js = Raise IndexError.
Proof.
  induction js as [| j js IH]; simpl; [left; exists []; reflexivity |].
  destruct (py_getitem_outcome l j) as [[a ->] | ->]; [| right; reflexivity].
  simpl. destruct IH as [[r ->] | ->]; [left; exists (a :: r) | right]; reflexivity.
Qed.

Lemma mapM_getitem_beyond {A : Type} (l : list A) (js : list Z) (j : Z) :
  In j js -> (len l <= j)%Z -> mapM (py_getitem l) js = Raise IndexError.
Proof.
  intros Hin Hj. induction js as [| j' js IH]; [destruct Hin |]. simpl.
  destruct Hin as [-> | Hin].
  - rewrite py_getitem_beyond by exact Hj. reflexivity.
  - destruct (py_getitem_outcome l j') as [[a ->] | ->]; [| reflexivity].
    simpl. rewrite (IH Hin). reflexivity.
Qed.

Lemma anomalous_loop_raises (anomalies : list bool) (idxs acc : list Z) (d : Z) :
  In d idxs -> (TIME_STEPS - 1 <= d)%Z -> (len anomalies < d)%Z ->
  anomalous_loop anomalies idxs acc = Raise IndexError.
Proof.
  intros Hin Hd Hl. revert acc.
  induction idxs as [| d' rest IH]; intro acc; [destruct Hin |]. simpl.
  destruct Hin as [-> | Hin].
  - rewrite (mapM_getitem_beyond anomalies _ (d - 1)%Z);
      [reflexivity | apply py_range_In; unfold TIME_STEPS in *; lia | lia].
  - destruct (mapM_getitem_outcome anomalies
                (py_range (d' - TIME_STEPS + 1) d')) as [[r ->] | ->];
      [| reflexivity].
    simpl. apply (IH Hin).
Qed.

(** X5: when the test sequence is long enough for the loop to run and the
    mask has fewer entries than there are windows, the loop raises
    [IndexError]: it reads the mask at an index the mask does not have. *)
Theorem anomalous_data_indices_short_mask {A : Type} (test_value : list A)
  (anomalies : list bool) :
  (2 * TIME_STEPS - 1 <= len test_value)%Z ->
  (len anomalies < len test_value - TIME_STEPS)%Z ->
  anomalous_data_indices test_value anomalies = Raise IndexError.
Proof.
  intros Hn Hl. unfold anomalous_data_indices.
  apply (anomalous_loop_raises anomalies _ [] (len test_value - TIME_STEPS)%Z).
  - apply py_range_In. lia.
  - lia.
  - exact Hl.
Qed.

Lemma anomalous_data_indices_short_mask_witness :
  anomalous_data_indices (repeat 0%Z 576) (repeat true 100) = Raise IndexError.
Proof.
  apply anomalous_data_indices_short_mask; vm_compute; [discriminate | reflexivity].
Defined.

(** X6: the reduction is monotone in the mask. With one entry per window in
    both masks, if every window anomalous in the first is anomalous in the
    second, every index kept for the first is kept for the second; and the
    mask that marks every window keeps every data index of the range. *)
Theorem anomalous_data_indices_monotone {A : Type} (test_value : list A)
  (a b : list bool) :
  len a = (len test_value - TIME_STEPS)%Z ->
  len b = (len test_value - TIME_STEPS)%Z ->
  (forall j, nth j a false = true -> nth j b false = true) ->
  exists ia ib,
    anomalous_data_indices test_value a = Ok ia
    /\ anomalous_data_indices test_value b = Ok ib
    /\ (forall i, In i ia -> In i ib)
    /\ ((forall j, (j < length b)%nat -> nth j b false = true) ->
        ib = py_range (TIME_STEPS - 1) (len test_value - TIME_STEPS + 1)).
Proof.
  intros La Lb Hab.
  eexists. eexists.
  split; [apply anomalous_data_indices_filter, La |].
  split; [apply anomalous_data_indices_filter, Lb |].
  split.
  - intros i Hi. apply filter_In in Hi. destruct Hi as [Hr Hf].
    apply filter_In. split; [exact Hr |].
    apply flagged_iff. intros j Hj. apply Hab.
    apply (proj1 (flagged_iff a i) Hf j Hj).
  - intro Hall.
    apply forallb_filter_id. apply forallb_forall. intros i Hi.
    apply py_range_In in Hi. apply flagged_iff. intros j Hj.
    apply Hall. unfold len, TIME_STEPS in *. lia.
Qed.

Lemma anomalous_data_indices_monotone_witness :
  exists ia ib,
    anomalous_data_indices (repeat 0%Z 576) (repeat false 288) = Ok ia
    /\ anomalous_data_indices (repeat 0%Z 576) (repeat true 288) = Ok ib
    /\ (forall i, In i ia -> In i ib).
Proof.
  destruct (anomalous_data_indices_monotone (repeat 0%Z 576)
              (repeat false 288) (repeat true 288))
    as [ia [ib [Ea [Eb [Hsub _]]]]].
  - vm_compute. reflexivity.
  - vm_compute. reflexivity.
  - intros j Hj. destruct (Nat.lt_ge_cases j 288) as [Hlt | Hge].
    + rewrite nth_repeat_lt in Hj by exact Hlt. discriminate.
    + rewrite nth_overflow in Hj by (rewrite repeat_length; exact Hge). discriminate.
  - exists ia, ib. split; [exact Ea |]. split; [exact Eb | exact Hsub].
Defined.

(** ** Normalisation *)

Lemma divide_all_inv (l v : list R) (s : R) :
  mapM (fun x => np_true_divide x s) l = Ok v ->
  v = map (fun x => x / s)%R l /\ (l <> [] -> s <> 0%R).
Proof.
  revert v. induction l as [| a l IH]; intros v H; simpl in H.
  - injection H as <-. split; [reflexivity | intro N; contradiction].
  - apply bind_ok_inv in H. destruct H as [b [Hb H]].
    apply bind_ok_inv in H. destruct H as [bs [Hbs H]].
    injection H as <-.
    unfold np_true_divide in Hb. destruct (Req_dec_T s 0) as [Z | NZ]; [discriminate |].
    injection Hb as <-. destruct (IH bs Hbs) as [-> _].
    split; [reflexivity | intros _; exact NZ].
Qed.

Lemma np_std_nonneg (l : list R) (s : R) : np_std l = Ok s -> (0 <= s)%R.
Proof.
  unfold np_std. intro H.
  apply bind_ok_inv in H. destruct H as [m [_ H]].
  apply bind_ok_inv in H. destruct H as [v [_ H]].
  injection H as <-. apply sqrt_pos.
Qed.

Lemma normalize_ok_inv (values v : list R) (m s : R) :
  normalize values = Ok (v, m, s) ->
  values <> [] /\ np_mean values = Ok m /\ (0 < s)%R
  /\ v = map (fun x => (x - m) / s)%R values.
Proof.
  unfold normalize. intro H.
  apply bind_ok_inv in H. destruct H as [m' [Hm H]].
  apply bind_ok_inv in H. destruct H as [s' [Hs H]].
  apply bind_ok_inv in H. destruct H as [v' [Hv H]].
  injection H as <- <- <-.
  assert (Hne : values <> []) by (intros ->; discriminate).
  apply divide_all_inv in Hv. destruct Hv as [-> Hnz].
  split; [exact Hne |]. split; [exact Hm |]. split.
  - apply np_std_nonneg in Hs.
    assert (s' <> 0%R) by (apply Hnz; destruct values; [contradiction | discriminate]).
    lra.
  - rewrite map_map. reflexivity.
Qed.

Lemma np_sum_div_const {A : Type} (f : A -> R) (c : R) (l : list A) :
  np_sum (map (fun x => f x / c)%R l) = (np_sum (map f l) / c)%R.
Proof.
  induction l as [| a l IH]; simpl.
  - unfold Rdiv. ring.
  - rewrite IH. unfold Rdiv. ring.
Qed.

(** X7: the training values that [normalize] returns have mean zero and
    standard deviation one, and the standard deviation it returns is
    positive. *)
Theorem normalize_zero_mean_unit_std (values v : list R) (mean std : R) :
  normalize values = Ok (v, mean, std) ->
  (0 < std)%R /\ length v = length values
  /\ np_mean v = Ok 0%R /\ np_std v = Ok 1%R.
Proof.
  intro H. destruct (normalize_ok_inv values v mean std H) as [Hne [Hm [Hpos ->]]].
  assert (Hn : INR (length values) <> 0%R) by (apply INR_length_neq_0, Hne).
  assert (Hv : map (fun x => (x - mean) / std)%R values <> [])
    by (destruct values; [contradiction | discriminate]).
  assert (Hmean : np_mean (map (fun x => (x - mean) / std)%R values) = Ok 0%R).
  { rewrite np_mean_ok by exact Hv. f_equal.
    rewrite (np_sum_div_const (fun x => x - mean)%R), np_sum_centered, length_map.
    pose proof Hm as Hm'. rewrite np_mean_ok in Hm' by exact Hne.
    injection Hm' as Em. rewrite <- Em.
    field. split; [exact Hn | lra]. }
  split; [exact Hpos |]. split; [apply length_map |]. split; [exact Hmean |].
  rewrite (np_std_ok _ 0%R Hv Hmean). f_equal.
  rewrite map_map, length_map.
  rewrite (map_ext _ (fun x => ((x - mean) * (x - mean)) / (std * std))%R)
    by (intro x; field; lra).
  rewrite (np_sum_div_const (fun x => (x - mean) * (x - mean))%R).
  (* std is the root of the mean squared deviation *)
  assert (Hstd : np_std values = Ok std).
  { rewrite <- (np_std_centered values mean Hne Hm).
    unfold normalize in H. rewrite Hm in H. simpl in H.
    destruct (np_std (map (fun x => x - mean)%R values)) as [s' | e |];
      simpl in H; try discriminate.
    destruct (mapM (fun x => np_true_divide x s') (map (fun x => x - mean)%R values));
      simpl in H; try discriminate.
    injection H as _ <-. reflexivity. }
  rewrite (np_std_ok values mean Hne Hm) in Hstd. injection Hstd as Hstd.
  assert (N := np_sum_squares_nonneg values mean).
  assert (Hsq : (std * std
                 = np_sum (map (fun x => (x - mean) * (x - mean)) values)
                   / INR (length values))%R).
  { rewrite <- Hstd. apply sqrt_sqrt.
    apply Rmult_le_pos; [exact N |].
    apply Rlt_le, Rinv_0_lt_compat, lt_0_INR.
    destruct values; [contradiction | simpl; lia]. }
  replace (np_sum (map (fun x => (x - mean) * (x - mean)) values) / (std * std)
           / INR (length values))%R with 1%R; [apply sqrt_1 |].
  rewrite Hsq. field. split; [exact Hn |].
  intro Z. rewrite Z in Hsq. unfold Rdiv in Hsq. rewrite Rmult_0_l in Hsq.
  assert (std = 0)%R by (apply Rmult_integral in Hsq; lra). lra.
Qed.

Lemma normalize_example :
  exists v mean std, normalize [1%R; 3%R] = Ok (v, mean, std).
Proof.
  destruct (normalize_not_constant [1%R; 3%R]) as [mean [std [_ [_ [_ [E _]]]]]].
  - exists 1%R, 3%R. simpl. split; [auto |]. split; [auto | lra].
  - eexists. exists mean, std. exact E.
Qed.

Lemma normalize_zero_mean_unit_std_witness :
  exists v mean std,
    normalize [1%R; 3%R] = Ok (v, mean, std)
    /\ np_mean v = Ok 0%R /\ np_std v = Ok 1%R.
Proof.
  destruct normalize_example as [v [mean [std E]]].
  destruct (normalize_zero_mean_unit_std [1%R; 3%R] v mean std E) as [_ [_ [M S]]].
  exists v, mean, std. split; [exact E |]. split; [exact M | exact S].
Defined.

(** X8: [normalize_test], given the training values and the mean and
    standard deviation that [normalize] returned for them, returns the
    values that [normalize] returned. *)
Theorem normalize_test_on_training_values (values v : list R) (mean std : R) :
  normalize values = Ok (v, mean, std) ->
  normalize_test values mean std = Ok v.
Proof.
  intro H. destruct (normalize_ok_inv values v mean std H) as [_ [_ [Hpos ->]]].
  unfold normalize_test. rewrite divide_all_ok by lra.
  simpl. rewrite map_map. reflexivity.
Qed.

Lemma normalize_test_on_training_values_witness :
  exists v mean std,
    normalize [1%R; 3%R] = Ok (v, mean, std)
    /\ normalize_test [1%R; 3%R] mean std = Ok v.
Proof.
  destruct normalize_example as [v [mean [std E]]].
  exists v, mean, std. split; [exact E |].
  apply (normalize_test_on_training_values [1%R; 3%R] v mean std E).
Defined.

(** X9: over the real numbers, as which the floats are idealised here (in
    binary64 the same holds up to rounding only), normalisation can be
    undone: whenever [normalize] returns real values, which needs values
    that are not all equal (for a constant input the standard deviation is
    0.0 and the values returned are nan), multiplying what [normalize] or
    [normalize_test] returned by the standard deviation and adding the mean
    gives back the values that went in, in their order. *)
Theorem normalize_round_trip (values v : list R) (mean std : R) :
  normalize values = Ok (v, mean, std) ->
  map (fun y => y * std + mean)%R v = values
  /\ forall test tv,
       normalize_test test mean std = Ok tv ->
       map (fun y => y * std + mean)%R tv = test.
Proof.
  intro H. destruct (normalize_ok_inv values v mean std H) as [_ [_ [Hpos ->]]].
  assert (U : forall l, map (fun y => y * std + mean)%R
                            (map (fun x => (x - mean) / std)%R l) = l).
  { intro l. rewrite map_map. rewrite <- (map_id l) at 2.
    apply map_ext. intro x. field. lra. }
  split; [apply U |].
  intros test tv Ht. unfold normalize_test in Ht.
  rewrite divide_all_ok in Ht by lra. simpl in Ht. injection Ht as <-.
  rewrite !map_map. rewrite <- (map_id test) at 2.
  apply map_ext. intro x. field. lra.
Qed.

Lemma normalize_round_trip_witness :
  exists v mean std,
    normalize [1%R; 3%R] = Ok (v, mean, std)
    /\ map (fun y => y * std + mean)%R v = [1%R; 3%R].
Proof.
  destruct normalize_example as [v [mean [std E]]].
  exists v, mean, std. split; [exact E |].
  exact (proj1 (normalize_round_trip [1%R; 3%R] v mean std E)).
Defined.

(** X10: normalisation never reverses the order of two values: with the
    mean and standard deviation that [normalize] returned, which are real
    and the standard deviation positive, [normalize_test] returns as many
    values as it was given, and when one test value is at most another, so
    are their normalised values. (Floats are idealised as real numbers; the
    direction stated is the one that rounding keeps.) *)
Theorem normalize_test_keeps_order (values v test tv : list R) (mean std : R) :
  normalize values = Ok (v, mean, std) ->
  normalize_test test mean std = Ok tv ->
  length tv = length test
  /\ forall i j, (i < length test)%nat -> (j < length test)%nat ->
       (nth i test 0 <= nth j test 0)%R -> (nth i tv 0 <= nth j tv 0)%R.
Proof.
  intros H Ht. destruct (normalize_ok_inv values v mean std H) as [_ [_ [Hpos _]]].
  unfold normalize_test in Ht.
  rewrite divide_all_ok in Ht by lra. simpl in Ht. injection Ht as <-.
  rewrite map_map. split; [apply length_map |].
  intros i j Hi Hj.
  assert (N : forall k, (k < length test)%nat ->
              nth k (map (fun x => (x - mean) / std)%R test) 0%R
              = ((nth k test 0 - mean) / std)%R).
  { intros k Hk.
    rewrite (nth_indep _ 0%R ((fun x => (x - mean) / std)%R 0%R))
      by (rewrite length_map; exact Hk).
    apply (map_nth (fun x => (x - mean) / std)%R). }
  rewrite (N i Hi), (N j Hj).
  assert (P : (0 < / std)%R) by (apply Rinv_0_lt_compat, Hpos).
  unfold Rdiv. intro L.
  apply Rmult_le_compat_r; lra.
Qed.

Lemma normalize_test_keeps_order_witness :
  exists v mean std tv,
    normalize [1%R; 3%R] = Ok (v, mean, std)
    /\ normalize_test [5%R; 2%R] mean std = Ok tv
    /\ length tv = 2%nat
    /\ (nth 1 tv 0 <= nth 0 tv 0)%R.
Proof.
  destruct normalize_example as [v [mean [std E]]].
  destruct (normalize_ok_inv _ _ _ _ E) as [_ [_ [Hpos _]]].
  assert (T : normalize_test [5%R; 2%R] mean std
              = Ok (map (fun x => (x - mean) / std)%R [5%R; 2%R])).
  { unfold normalize_test. rewrite divide_all_ok by lra.
    simpl. reflexivity. }
  destruct (normalize_test_keeps_order [1%R; 3%R] v [5%R; 2%R] _ mean std E T)
    as [L O].
  exists v, mean, std. eexists. split; [exact E |]. split; [exact T |].
  split; [exact L |].
  apply (O 1%nat 0%nat); simpl; lia || lra.
Defined.

(** ** Mean absolute error *)

Lemma np_sum_abs_nonneg (l : list (R * R)) :
  (0 <= np_sum (map (fun p => Rabs (fst p - snd p)) l))%R.
Proof.
  induction l as [| p l IH]; simpl; [lra |].
  pose proof (Rabs_pos (fst p - snd p)). lra.
Qed.

Lemma np_sum_abs_zero (l : list (R * R)) :
  np_sum (map (fun p => Rabs (fst p - snd p)) l) = 0%R
  <-> (forall p, In p l -> fst p = snd p).
Proof.
  induction l as [| p l IH]; simpl.
  - split; [intros _ q [] | reflexivity].
  - pose proof (Rabs_pos (fst p - snd p)) as P.
    pose proof (np_sum_abs_nonneg l) as N. split.
    + intros H q [<- | Hq].
      * assert (Z : Rabs (fst p - snd p) = 0%R) by lra.
        destruct (Req_dec (fst p - snd p) 0) as [E | E]; [lra |].
        apply Rabs_no_R0 in E. contradiction.
      * apply IH; [lra | exact Hq].
    + intro H. rewrite (proj2 IH) by (intros; apply H; right; assumption).
      rewrite (H p (or_introl eq_refl)).
      replace (snd p - snd p)%R with 0%R by ring. rewrite Rabs_R0. lra.
Qed.

Lemma combine_diag_eq {A : Type} (p x : list A) :
  length p = length x ->
  (forall q, In q (combine p x) -> fst q = snd q) -> p = x.
Proof.
  revert x. induction p as [| a p IH]; intros [| b x] L H; try discriminate.
  - reflexivity.
  - simpl in *. f_equal.
    + apply (H (a, b)). left; reflexivity.
    + apply IH; [lia |]. intros q Hq. apply H. right; exact Hq.
Qed.

Lemma spec_mae_nonneg (p x : list R) :
  x <> [] -> (0 <= spec_mae p x)%R.
Proof.
  intro Hne. unfold spec_mae.
  apply Rmult_le_pos; [apply np_sum_abs_nonneg |].
  apply Rlt_le, Rinv_0_lt_compat, lt_0_INR.
  destruct x; [contradiction | simpl; lia].
Qed.

Lemma spec_mae_zero (p x : list R) :
  x <> [] -> length p = length x ->
  spec_mae p x = 0%R <-> p = x.
Proof.
  intros Hne L. unfold spec_mae.
  assert (P : (0 < INR (length x))%R).
  { apply lt_0_INR. destruct x; [contradiction | simpl; lia]. }
  split.
  - intro H. apply combine_diag_eq; [exact L |]. apply np_sum_abs_zero.
    apply (Rmult_eq_compat_r (INR (length x))) in H.
    unfold Rdiv in H. rewrite Rmult_assoc, Rinv_l, Rmult_1_r, Rmult_0_l in H by lra.
    exact H.
  - intros ->. rewrite (proj2 (np_sum_abs_zero (combine x x))).
    + unfold Rdiv. apply Rmult_0_l.
    + clear. induction x as [| a x IH]; intros q Hq; [destruct Hq |].
      destruct Hq as [<- | Hq]; [reflexivity | apply IH, Hq].
Qed.

Lemma feature0_inj (p x : list (list R)) :
  (forall c, In c p -> length c = 1%nat) ->
  (forall c, In c x -> length c = 1%nat) ->
  feature0 p = feature0 x -> p = x.
Proof.
  revert x. induction p as [| c p IH]; intros [| c' x] Hp Hx E; try discriminate.
  - reflexivity.
  - simpl in E. injection E as E0 E.
    assert (Lc := Hp c (or_introl eq_refl)).
    assert (Lc' := Hx c' (or_introl eq_refl)).
    destruct c as [| a [| ? ?]]; try discriminate.
    destruct c' as [| b [| ? ?]]; try discriminate.
    simpl in E0. subst b. f_equal.
    apply IH; [intros; apply Hp; right; assumption
              | intros; apply Hx; right; assumption | exact E].
Qed.

(** X11: for a reconstruction and an input of the same shape [(m, w, 1)]
    with [w] not zero, the loss of every sample is one number, not negative,
    and zero exactly when the reconstruction of that window equals the
    window. *)
Theorem mae_loss_zero_iff_exact (pred x : tensor3) (m w : nat) :
  w <> 0%nat ->
  has_shape3 pred m w 1 = true ->
  has_shape3 x m w 1 = true ->
  exists loss, mae_loss pred x = Ok loss
    /\ length loss = m
    /\ forall k, (k < m)%nat ->
         exists l, nth k loss [] = [l] /\ (0 <= l)%R
           /\ (l = 0%R <-> nth k pred [] = nth k x []).
Proof.
  intros Hw Sp Sx.
  rewrite (mae_loss_same_shape pred x m w Hw Sp Sx).
  apply has_shape3_spec in Sp. destruct Sp as [Lp Sp].
  apply has_shape3_spec in Sx. destruct Sx as [Lx Sx].
  eexists. split; [reflexivity |].
  split; [rewrite length_map, length_combine; lia |].
  intros k Hk.
  rewrite (nth_indep _ []
             ((fun ab => [spec_mae (feature0 (fst ab)) (feature0 (snd ab))])
                ([], [])))
    by (rewrite length_map, length_combine; lia).
  rewrite (map_nth (fun ab => [spec_mae (feature0 (fst ab)) (feature0 (snd ab))])).
  rewrite combine_nth by lia. simpl.
  destruct (Sp (nth k pred []) ltac:(apply nth_In; lia)) as [Wp Cp].
  destruct (Sx (nth k x []) ltac:(apply nth_In; lia)) as [Wx Cx].
  assert (Hne : feature0 (nth k x []) <> []).
  { intro E. apply (f_equal (@length R)) in E.
    rewrite feature0_length in E. simpl in E. lia. }
  eexists. split; [reflexivity |].
  split; [apply spec_mae_nonneg, Hne |].
  rewrite spec_mae_zero by (try exact Hne; rewrite !feature0_length; lia).
  split; [apply feature0_inj; assumption | intros ->; reflexivity].
Qed.

Lemma mae_loss_zero_iff_exact_witness :
  exists loss, mae_loss [[[1%R]; [2%R]]] [[[1%R]; [2%R]]] = Ok loss
    /\ nth 0 loss [] = [0%R].
Proof.
  destruct (mae_loss_zero_iff_exact [[[1%R]; [2%R]]] [[[1%R]; [2%R]]] 1 2)
    as [loss [E [_ Z]]].
  - discriminate.
  - vm_compute. reflexivity.
  - vm_compute. reflexivity.
  - exists loss. split; [exact E |].
    destruct (Z 0%nat ltac:(lia)) as [l [N [_ I]]].
    rewrite N. f_equal. apply I. reflexivity.
Defined.

Lemma np_sum_abs_swap (p x : list R) :
  np_sum (map (fun q => Rabs (fst q - snd q)) (combine p x))
  = np_sum (map (fun q => Rabs (fst q - snd q)) (combine x p)).
Proof.
  revert x. induction p as [| a p IH]; intros [| b x]; simpl; try reflexivity.
  rewrite IH, (Rabs_minus_sym a b). reflexivity.
Qed.

Lemma spec_mae_sym (p x : list R) :
  length p = length x -> spec_mae p x = spec_mae x p.
Proof.
  intro L. unfold spec_mae. rewrite np_sum_abs_swap, L. reflexivity.
Qed.

Lemma map_combine_swap {A B : Type} (F G : A * A -> B) (l1 l2 : list A) :
  (forall a b, In (a, b) (combine l1 l2) -> F (a, b) = G (b, a)) ->
  map F (combine l1 l2) = map G (combine l2 l1).
Proof.
  revert l2. induction l1 as [| a l1 IH]; intros [| b l2] H; simpl; try reflexivity.
  rewrite (H a b (or_introl eq_refl)). f_equal.
  apply IH. intros a' b' Hin. apply H. right; exact Hin.
Qed.

(** X12: the loss does not depend on which of the two arrays is called the
    reconstruction: for two arrays of the same shape [(m, w, 1)],
    [mae_loss pred x] and [mae_loss x pred] are the same. *)
Theorem mae_loss_symmetric (pred x : tensor3) (m w : nat) :
  w <> 0%nat ->
  has_shape3 pred m w 1 = true ->
  has_shape3 x m w 1 = true ->
  mae_loss pred x = mae_loss x pred
  /\ exists loss, mae_loss pred x = Ok loss.
Proof.
  intros Hw Sp Sx.
  rewrite (mae_loss_same_shape pred x m w Hw Sp Sx).
  rewrite (mae_loss_same_shape x pred m w Hw Sx Sp).
  split; [| eexists; reflexivity].
  f_equal. apply map_combine_swap. intros p s Hin. simpl. f_equal.
  apply has_shape3_spec in Sp. destruct Sp as [_ Sp].
  apply has_shape3_spec in Sx. destruct Sx as [_ Sx].
  destruct (Sp p (in_combine_l _ _ _ _ Hin)) as [Lp _].
  destruct (Sx s (in_combine_r _ _ _ _ Hin)) as [Ls _].
  apply spec_mae_sym. rewrite !feature0_length. lia.
Qed.

Lemma mae_loss_symmetric_witness :
  mae_loss [[[1%R]; [2%R]]] [[[4%R]; [0%R]]] = mae_loss [[[4%R]; [0%R]]] [[[1%R]; [2%R]]].
Proof.
  apply (mae_loss_symmetric [[[1%R]; [2%R]]] [[[4%R]; [0%R]]] 1 2).
  - discriminate.
  - vm_compute. reflexivity.
  - vm_compute. reflexivity.
Defined.

Lemma broadcast_mismatch {A B C : Type} (f : A -> B -> outcome C)
  (la : list A) (lb : list B) :
  length la <> length lb -> length la <> 1%nat -> length lb <> 1%nat ->
  broadcast f la lb = Raise ValueError.
Proof.
  intros H H1 H2. unfold broadcast.
  destruct (Nat.eqb_spec (length la) (length lb)) as [E | _]; [contradiction |].
  destruct la as [| a [| a' la]]; destruct lb as [| b [| b' lb]];
    simpl in *; try contradiction; reflexivity.
Qed.

(** X13: arrays whose shapes do not broadcast give no loss: when the numbers
    of samples differ and neither is one, or when the samples agree in
    number but the windows differ in length and neither length is one, the
    subtraction raises [ValueError] and so does [mae_loss]. *)
Theorem mae_loss_shape_mismatch (pred x : tensor3) :
  (length pred <> length x -> length pred <> 1%nat -> length x <> 1%nat ->
   np_subtract pred x = Raise ValueError /\ mae_loss pred x = Raise ValueError)
  /\ (forall m w1 w2 : nat,
        m <> 0%nat ->
        has_shape3 pred m w1 1 = true -> has_shape3 x m w2 1 = true ->
        w1 <> w2 -> w1 <> 1%nat -> w2 <> 1%nat ->
        np_subtract pred x = Raise ValueError /\ mae_loss pred x = Raise ValueError).
Proof.
  assert (M : np_subtract pred x = Raise ValueError ->
              np_subtract pred x = Raise ValueError
              /\ mae_loss pred x = Raise ValueError).
  { intro E. split; [exact E |]. unfold mae_loss. rewrite E. reflexivity. }
  split.
  - intros H H1 H2. apply M. unfold np_subtract.
    apply broadcast_mismatch; assumption.
  - intros m w1 w2 Hm Sp Sx Hw H1 H2. apply M.
    apply has_shape3_spec in Sp. destruct Sp as [Lp Sp].
    apply has_shape3_spec in Sx. destruct Sx as [Lx Sx].
    destruct pred as [| p ps]; [simpl in Lp; lia |].
    destruct x as [| s xs]; [simpl in Lx; lia |].
    destruct (Sp p (or_introl eq_refl)) as [Wp _].
    destruct (Sx s (or_introl eq_refl)) as [Ws _].
    unfold np_subtract, broadcast at 1.
    replace (Nat.eqb (length (p :: ps)) (length (s :: xs))) with true
      by (symmetry; apply Nat.eqb_eq; lia).
    simpl.
    rewrite (broadcast_mismatch _ p s) by lia.
    reflexivity.
Qed.

Lemma mae_loss_shape_mismatch_witness :
  mae_loss [[[1%R]; [2%R]]] [[[1%R]; [2%R]; [3%R]]] = Raise ValueError
  /\ mae_loss [[[1%R]]; [[2%R]]] [[[1%R]]; [[2%R]]; [[3%R]]] = Raise ValueError.
Proof.
  split.
  - apply (proj2 (mae_loss_shape_mismatch [[[1%R]; [2%R]]] [[[1%R]; [2%R]; [3%R]]])
             1%nat 2%nat 3%nat); try discriminate; vm_compute; reflexivity.
  - apply (proj1 (mae_loss_shape_mismatch [[[1%R]]; [[2%R]]] [[[1%R]]; [[2%R]]; [[3%R]]]));
      simpl; discriminate.
Defined.

(** ** Threshold and classification *)

Lemma anomalies_nth_true (test_mae_loss : list R) (t : R) (k : nat) :
  nth k (anomalies test_mae_loss t) false = true ->
  (k < length test_mae_loss)%nat /\ (nth k test_mae_loss 0 > t)%R.
Proof.
  intro H.
  assert (Hk : (k < length test_mae_loss)%nat).
  { destruct (Nat.lt_ge_cases k (length test_mae_loss)) as [L | G]; [exact L |].
    rewrite nth_overflow in H by (unfold anomalies; rewrite length_map; exact G).
    discriminate. }
  split; [exact Hk | apply (anomalies_nth test_mae_loss t k Hk), H].
Qed.

(** X14: more training samples can only raise the threshold, and a higher
    threshold can only clear windows: every test window marked anomalous
    against the threshold of the larger training set is marked anomalous
    against the threshold of the smaller one. *)
Theorem threshold_grows_with_training_set (train_mae_loss more : matrix)
  (test_mae_loss : list R) :
  concat train_mae_loss <> [] ->
  exists t t',
    threshold train_mae_loss = Ok t
    /\ threshold (train_mae_loss ++ more) = Ok t'
    /\ (t <= t')%R
    /\ forall k, nth k (anomalies test_mae_loss t') false = true ->
                 nth k (anomalies test_mae_loss t) false = true.
Proof.
  intro H.
  destruct (np_max_spec train_mae_loss H) as [t [E [_ I]]].
  destruct (np_max_spec (train_mae_loss ++ more)) as [t' [E' [U' _]]].
  { rewrite concat_app. intro N. apply app_eq_nil in N. apply H, N. }
  assert (L : (t <= t')%R).
  { apply U'. rewrite concat_app. apply in_or_app. left; exact I. }
  exists t, t'. split; [exact E |]. split; [exact E' |]. split; [exact L |].
  intros k Hk. apply anomalies_nth_true in Hk. destruct Hk as [Hlt Hgt].
  apply anomalies_nth; [exact Hlt | lra].
Qed.

Lemma threshold_grows_with_training_set_witness :
  exists t t', threshold [[1%R]] = Ok t
    /\ threshold ([[1%R]] ++ [[3%R]]) = Ok t' /\ (t <= t')%R.
Proof.
  destruct (threshold_grows_with_training_set [[1%R]] [[3%R]] [2%R])
    as [t [t' [E [E' [L _]]]]].
  - simpl. discriminate.
  - exists t, t'. split; [exact E |]. split; [exact E' | exact L].
Defined.

(** X15: the threshold exists exactly when there is at least one training
    loss ([np.max] of nothing raises [ValueError]), and it depends on the
    losses as a set only: two arrays holding the same loss values, in any
    order and any number of copies, have the same threshold. *)
Theorem threshold_depends_on_loss_set (a b : matrix) :
  (threshold a = Raise ValueError <-> concat a = [])
  /\ ((exists t, threshold a = Ok t) <-> concat a <> [])
  /\ ((forall l, In l (concat a) <-> In l (concat b)) -> threshold a = threshold b).
Proof.
  assert (Empty : forall c : matrix, concat c = [] -> threshold c = Raise ValueError).
  { intros c E. unfold threshold, np_max. rewrite E. reflexivity. }
  split; [| split].
  - split; [| apply Empty].
    intro H. destruct (concat a) as [| x xs] eqn:Ea; [reflexivity |].
    exfalso. destruct (np_max_spec a) as [t [E _]]; [rewrite Ea; discriminate |].
    unfold threshold in H. rewrite E in H. discriminate.
  - split.
    + intros [t E] N. rewrite (Empty a N) in E. discriminate.
    + intro N. destruct (np_max_spec a N) as [t [E _]]. exists t. exact E.
  - intro S. destruct (concat a) as [| x xs] eqn:Ea.
    + assert (Eb : concat b = []).
      { destruct (concat b) as [| y ys]; [reflexivity |].
        exfalso. apply (proj2 (S y)). left; reflexivity. }
      rewrite (Empty a Ea), (Empty b Eb). reflexivity.
    + rewrite <- Ea in S.
      destruct (np_max_spec a) as [t [E [U I]]]; [rewrite Ea; discriminate |].
      destruct (np_max_spec b) as [t' [E' [U' I']]].
      { intro N. rewrite N in S. apply (proj1 (S x)). rewrite Ea. left; reflexivity. }
      unfold threshold. rewrite E, E'. f_equal.
      apply Rle_antisym; [apply U', S, I | apply U, S, I'].
Qed.

Lemma threshold_depends_on_loss_set_witness :
  threshold [[1%R]; [3%R]] = threshold [[3%R]; [1%R]; [3%R]].
Proof.
  apply (proj2 (proj2 (threshold_depends_on_loss_set
                         [[1%R]; [3%R]] [[3%R]; [1%R]; [3%R]]))).
  intro l. simpl. tauto.
Defined.

(** ** The notebook *)

Lemma plot_dates_values_outcome_witness :
  @plot_dates_values unit unit (fun _ => Ok tt) (fun _ => Ok tt)
    [{| timestamp := "2014-04-01 00:00:00"; value := 1%R |}] empty_env
  = ([Drawn (Dated [([tt], [1%R])])], empty_env, Ok tt)
  /\ @plot_dates_values unit unit (fun _ => Raise ValueError) (fun _ => Ok tt)
       [{| timestamp := "yesterday"; value := 1%R |}] empty_env
     = ([], empty_env, Raise ValueError).
Proof.
  split.
  - apply (proj1 (plot_dates_values_outcome unit unit (fun _ => Ok tt) (fun _ => Ok tt)
                    [{| timestamp := "2014-04-01 00:00:00"; value := 1%R |}] empty_env));
      reflexivity.
  - apply (proj1 (proj2 (plot_dates_values_outcome unit unit
                           (fun _ => Raise ValueError) (fun _ => Ok tt)
                           [{| timestamp := "yesterday"; value := 1%R |}] empty_env))
             [] {| timestamp := "yesterday"; value := 1%R |} [] ValueError).
    + reflexivity.
    + intros q [].
    + reflexivity.
Defined.

(** The cell on a namespace that holds a threshold and a test file of one
    row: too short for a window, so that the cell raises. *)
Lemma cell_test_keeps_training_state_witness :
  exists (log : list (output unit unit)) (e' : env unit unit) (r : outcome unit),
    @cell_test unit unit (fun _ x => Ok x) (fun _ => Ok tt)
      (set_var "threshold" (VFloat 1)
         (set_var "training_std" (VFloat 2)
            (set_var "training_mean" (VFloat 0)
               (set_var "df_daily_jumpsup"
                  (VFrame [{| timestamp := "2014-04-01 00:00:00"; value := 1%R |}])
                  empty_env))))
    = (log, e', r)
    /\ e' "normalize_test"%string = Some (VFunction "normalize_test")
    /\ e' "threshold"%string = Some (VFloat 1)
    /\ e' "training_std"%string = Some (VFloat 2).
Proof.
  destruct (@cell_test unit unit (fun _ x => Ok x) (fun _ => Ok tt)
              (set_var "threshold" (VFloat 1)
                 (set_var "training_std" (VFloat 2)
                    (set_var "training_mean" (VFloat 0)
                       (set_var "df_daily_jumpsup"
                          (VFrame [{| timestamp := "2014-04-01 00:00:00";
                                      value := 1%R |}])
                          empty_env)))))
    as [[log e'] r] eqn:H.
  destruct (cell_test_keeps_training_state unit unit _ _ _ _ _ _ H) as [F K].
  exists log, e', r. split; [reflexivity |]. split; [exact F |].
  split; [rewrite K by discriminate; reflexivity
         | rewrite K by discriminate; reflexivity].
Defined.

(** *** The longer run *)

Lemma has_shape3_map {A B : Type} (f : A -> B) (t : list (list (list A)))
  (m w c : nat) :
  has_shape3 (map (map (map f)) t) m w c = has_shape3 t m w c.
Proof.
  unfold has_shape3. rewrite length_map. f_equal.
  induction t as [| s t IH]; simpl; [reflexivity |].
  rewrite IH, length_map. f_equal. f_equal.
  clear IH. induction s as [| p s IH]; simpl; [reflexivity |].
  rewrite IH, length_map. reflexivity.
Qed.

Lemma feature0_map (g : R -> R) (w : list (list R)) :
  (forall c, In c w -> length c = 1%nat) ->
  feature0 (map (map g) w) = map g (feature0 w).
Proof.
  intro H. unfold feature0. rewrite !map_map. apply map_ext_in.
  intros c Hc. specialize (H c Hc).
  destruct c as [| v [| v' c]]; try discriminate. reflexivity.
Qed.

Lemma np_sum_abs_shift (l : list R) :
  np_sum (map (fun p => Rabs (fst p - snd p))
              (combine (map (fun v => (v + 1)%R) l) l)) = INR (length l).
Proof.
  induction l as [| x l IH]; [reflexivity |].
  cbn [map combine np_sum fold_right fst snd length].
  fold (np_sum (map (fun p => Rabs (fst p - snd p))
                    (combine (map (fun v => (v + 1)%R) l) l))).
  rewrite IH, S_INR.
  replace (x + 1 - x)%R with 1%R by ring. rewrite Rabs_R1. ring.
Qed.

Lemma spec_mae_shift (l : list R) :
  l <> [] -> spec_mae (map (fun v => (v + 1)%R) l) l = 1%R.
Proof.
  intro H. unfold spec_mae. rewrite np_sum_abs_shift.
  field. apply not_0_INR. destruct l; [contradiction | discriminate].
Qed.

Lemma spec_mae_same (l : list R) : l <> [] -> spec_mae l l = 0%R.
Proof.
  intro H. apply spec_mae_zero; [exact H | reflexivity | reflexivity].
Qed.

Lemma example_dates_parse (r : row) :
  In r example_frame \/ In r example_test_frame ->
  exists d, example_strptime (timestamp r) = Ok d.
Proof.
  intros [[<- | H] | H].
  - eexists. reflexivity.
  - apply repeat_spec in H. subst r. eexists. reflexivity.
  - apply repeat_spec in H. subst r. eexists. reflexivity.
Qed.

Lemma example_predict_shape (m : unit) (x : tensor3) (n : nat) :
  has_shape3 x n 288 1 = true ->
  exists p, example_predict m x = Ok p /\ has_shape3 p n 288 1 = true.
Proof.
  intro H. unfold example_predict.
  destruct (Nat.eqb (length x) 1).
  - exists x. split; [reflexivity | exact H].
  - eexists. split; [reflexivity |]. rewrite has_shape3_map. exact H.
Qed.

(** A single window reconstructed exactly has a loss of zero, and so has the
    threshold; windows reconstructed off by one have a loss of one. *)
Lemma exact_reconstruction_threshold (x : tensor3) (loss : matrix) (n : nat) (t : R) :
  has_shape3 x n 288 1 = true ->
  mae_loss x x = Ok loss -> threshold loss = Ok t -> t = 0%R.
Proof.
  intros S Hl Ht.
  rewrite (mae_loss_same_shape x x n 288) in Hl by (discriminate || exact S).
  injection Hl as <-.
  apply np_max_ok_inv in Ht. destruct Ht as [_ I].
  rewrite (concat_map_singleton
             (fun ab => spec_mae (feature0 (fst ab)) (feature0 (snd ab)))) in I.
  apply in_map_iff in I. destruct I as [[p w] [<- Hpw]]. simpl.
  assert (E : p = w).
  { clear - Hpw. revert Hpw. induction x as [| a x IH]; simpl; [tauto |].
    intros [H | H]; [injection H as <- <-; reflexivity | apply IH, H]. }
  subst p. apply has_shape3_spec in S. destruct S as [_ S].
  apply in_combine_l in Hpw. destruct (S w Hpw) as [Lw _].
  apply spec_mae_same. unfold feature0.
  destruct w; [discriminate | discriminate].
Qed.

Lemma shifted_reconstruction_losses (x : tensor3) (loss : matrix) (n : nat) :
  has_shape3 x n 288 1 = true ->
  mae_loss (map (map (map (fun v => (v + 1)%R))) x) x = Ok loss ->
  forall l, In l (concat loss) -> l = 1%R.
Proof.
  intros S Hl l I.
  rewrite (mae_loss_same_shape _ x n 288) in Hl
    by (discriminate || (rewrite has_shape3_map; exact S) || exact S).
  injection Hl as <-.
  rewrite (concat_map_singleton
             (fun ab => spec_mae (feature0 (fst ab)) (feature0 (snd ab)))) in I.
  apply in_map_iff in I. destruct I as [[p w] [<- Hpw]]. simpl.
  assert (E : p = map (map (fun v => (v + 1)%R)) w).
  { clear - Hpw. revert Hpw. induction x as [| a x IH]; simpl; [tauto |].
    intros [H | H]; [injection H as <- <-; reflexivity | apply IH, H]. }
  subst p. apply has_shape3_spec in S. destruct S as [_ S].
  apply in_combine_r in Hpw. destruct (S w Hpw) as [Lw Lc].
  rewrite (feature0_map _ w Lc).
  apply spec_mae_shift. unfold feature0.
  destruct w; [discriminate | discriminate].
Qed.

(** When every window is anomalous, every data index the loop visits is
    flagged. *)
Lemma all_windows_anomalous (losses : list R) (t : R) (d : Z) :
  (forall l, In l losses -> (l > t)%R) ->
  (d <= Z.of_nat (length losses))%Z -> (TIME_STEPS - 1 <= d)%Z ->
  flagged (anomalies losses t) d = true.
Proof.
  intros H Hd Hlow. apply flagged_iff. intros j Hj.
  unfold TIME_STEPS in *.
  apply anomalies_nth; [lia |].
  apply H. apply nth_In. lia.
Qed.

(** The run flags the data indices 287 and 288, the two whose windows all
    lie within the 288 windows of the 576 test values. *)
Lemma example_long_run_indices
  (tv2 : list R) (x_train x_test pred pred2 : tensor3) (loss loss2 : matrix)
  (t : R) (idxs : list Z) (m : unit) :
  has_shape3 x_train 1 288 1 = true ->
  has_shape3 x_test 288 288 1 = true ->
  len tv2 = 576%Z ->
  example_predict m x_train = Ok pred ->
  mae_loss pred x_train = Ok loss ->
  threshold loss = Ok t ->
  example_predict m x_test = Ok pred2 ->
  mae_loss pred2 x_test = Ok loss2 ->
  anomalous_data_indices tv2 (anomalies (concat loss2) t) = Ok idxs ->
  idxs = [287; 288]%Z.
Proof.
  intros S1 S2 L Hp Hl Ht Hp2 Hl2 Hi.
  unfold example_predict in Hp, Hp2.
  rewrite (has_shape3_length _ _ _ _ S1) in Hp.
  rewrite (has_shape3_length _ _ _ _ S2) in Hp2.
  simpl in Hp, Hp2. injection Hp as <-. injection Hp2 as <-.
  assert (T0 : t = 0%R) by exact (exact_reconstruction_threshold _ _ _ _ S1 Hl Ht).
  pose proof (shifted_reconstruction_losses _ _ _ S2 Hl2) as Ones.
  assert (Len2 : length (concat loss2) = 288%nat).
  { destruct (mae_loss_length (map (map (map (fun v => (v + 1)%R))) x_test)
                x_test 288 288) as [loss' [E Ll]];
      [discriminate | rewrite has_shape3_map; exact S2 | exact S2 |].
    rewrite Hl2 in E. injection E as <-. exact Ll. }
  rewrite anomalous_data_indices_filter in Hi.
  - injection Hi as <-. rewrite L.
    match goal with
    | |- filter _ ?r = _ => replace r with [287; 288]%Z by reflexivity
    end.
    cbn [filter].
    rewrite !all_windows_anomalous;
      first [ reflexivity
            | rewrite Len2; unfold TIME_STEPS; lia
            | unfold TIME_STEPS; lia
            | intros l Hin; rewrite (Ones l Hin), T0; lra ].
  - unfold anomalies. unfold len at 1. rewrite length_map, Len2, L.
    reflexivity.
Qed.

Lemma notebook_runs_to_end_witness :
  exists log ef idxs rows,
    example_long_run = (log, ef, Ok tt)
    /\ ef "anomalous_data_indices"%string = Some (VIndices idxs)
    /\ idxs = [287; 288]%Z
    /\ ef "df_subset"%string = Some (VFrame rows)
    /\ Forall2 (fun i r => nth_error example_test_frame (Z.to_nat i) = Some r)
               idxs rows.
Proof.
  destruct (notebook_runs_to_end string unit example_read_csv example_strptime
              example_Sequential example_fit example_predict example_plt_show
              example_frame example_test_frame tt)
    as (log & ef & tv & mean & std & x_train & fitted & pred & loss & t
        & tv2 & x_test & pred2 & loss2 & idxs & rows
        & Hrun & _ & _ & _ & Hp & Hl & Ht & _ & _ & Hp2 & Hl2 & Hi & _
        & _ & _ & _ & Ei & _ & _ & Es & Fr & S1 & S2 & L).
  - reflexivity.
  - reflexivity.
  - intros r Hr. apply example_dates_parse. left. exact Hr.
  - intros r Hr. apply example_dates_parse. right. exact Hr.
  - intros f Hf. unfold example_plt_show. rewrite Hf. reflexivity.
  - reflexivity.
  - intros tv mean std x _ Hx. apply create_sequences_nonempty in Hx.
    destruct x as [| w x]; [contradiction |]. eexists. reflexivity.
  - intros m x n _ S. apply example_predict_shape, S.
  - exact example_values_differ.
  - reflexivity.
  - reflexivity.
  - exists log, ef, idxs, rows.
    split; [exact Hrun |]. split; [exact Ei |].
    split; [| split; [exact Es | exact Fr]].
    exact (example_long_run_indices tv2 x_train x_test pred pred2 loss loss2 t
             idxs (fst fitted) S1 S2 L Hp Hl Ht Hp2 Hl2 Hi).
Defined.

Lemma short_training_file_stops_notebook_witness :
  exists (e' : env unit unit) (log : list (output unit unit)),
    @run_notebook unit unit
      (fun _ => Ok [{| timestamp := "2014-04-01 00:00:00"; value := 1%R |};
                    {| timestamp := "2014-04-01 00:05:00"; value := 0%R |}])
      (fun _ => Ok tt)
      (fun _ _ => Raise FrameworkError)
      (fun _ _ _ => Raise FrameworkError)
      (fun _ _ => Raise FrameworkError)
      (fun _ => Ok tt)
    = (log, e', Raise AxisError)
    /\ length log = 5%nat
    /\ e' "TIME_STEPS"%string = Some (VInt TIME_STEPS)
    /\ e' "x_train"%string = None
    /\ e' "model"%string = None.
Proof.
  destruct (short_training_file_stops_notebook unit unit
              (fun _ => Ok [{| timestamp := "2014-04-01 00:00:00"; value := 1%R |};
                            {| timestamp := "2014-04-01 00:05:00"; value := 0%R |}])
              (fun _ => Ok tt) (fun _ _ => Raise FrameworkError)
              (fun _ _ _ => Raise FrameworkError)
              (fun _ _ => Raise FrameworkError) (fun _ => Ok tt)
              [{| timestamp := "2014-04-01 00:00:00"; value := 1%R |};
               {| timestamp := "2014-04-01 00:05:00"; value := 0%R |}]
              [{| timestamp := "2014-04-01 00:00:00"; value := 1%R |};
               {| timestamp := "2014-04-01 00:05:00"; value := 0%R |}])
    as (e' & dates1 & dates2 & tv & mean & std & Hrun & _ & _ & _ & _ & Ts & _ & Nx & Nm).
  - reflexivity.
  - reflexivity.
  - intros r _. exists tt. reflexivity.
  - intros r _. exists tt. reflexivity.
  - intros f _. reflexivity.
  - exists 1%R, 0%R. simpl. split; [auto |]. split; [auto | lra].
  - vm_compute. discriminate.
  - exists e'. eexists. split; [exact Hrun |].
    split; [reflexivity |]. split; [exact Ts |]. split; [exact Nx | exact Nm].
Defined.

(** ** Windows of transformed values *)

Lemma py_slice_map {A B : Type} (f : A -> B) (l : list A) (a b : Z) :
  py_slice (map f l) a b = map f (py_slice l a b).
Proof.
  unfold py_slice, slice_bound, len. rewrite length_map.
  rewrite skipn_map, firstn_map. reflexivity.
Qed.

Lemma same_length_rows_map {A B : Type} (f : A -> B) (r : list A) (rs : list (list A)) :
  forallb (fun r' => Nat.eqb (length r') (length (map f r))) (map (map f) rs)
  = forallb (fun r' => Nat.eqb (length r') (length r)) rs.
Proof.
  induction rs as [| r' rs IH]; simpl; [reflexivity |].
  rewrite IH, !length_map. reflexivity.
Qed.

(** X20: windowing commutes with any elementwise transformation of the
    values, normalisation included: the windows of the transformed sequence
    are the transformed windows of the sequence, and the one call fails
    exactly when the other does. *)
Theorem create_sequences_map {A B : Type} (f : A -> B) (values : list A)
  (time_steps : Z) :
  create_sequences (map f values) time_steps
  = match create_sequences values time_steps with
    | Ok x => Ok (map (map (map f)) x)
    | Raise e => Raise e
    | NotReal => NotReal
    end.
Proof.
  unfold create_sequences, len. rewrite length_map.
  rewrite (map_ext (fun i => py_slice (map f values) i (i + time_steps))
                   (fun i => map f (py_slice values i (i + time_steps))))
    by (intro i; apply py_slice_map).
  rewrite <- (map_map (fun i => py_slice values i (i + time_steps)) (map f)).
  generalize (map (fun i => py_slice values i (i + time_steps))
                  (py_range 0 (Z.of_nat (length values) - time_steps))) as output.
  intros [| r rs]; [reflexivity |].
  unfold np_expand_dims_axis2. simpl map at 1. cbv beta iota.
  rewrite same_length_rows_map.
  destruct (forallb (fun r' => Nat.eqb (length r') (length r)) rs); [| reflexivity].
  f_equal. rewrite !map_map. simpl. f_equal.
  - rewrite !map_map. reflexivity.
  - apply map_ext. intro w. rewrite !map_map. reflexivity.
Qed.
